(** * Question coding training script ([scripts/run_question_coding.py])

    A shallow embedding of the training script: [do_iteration] and the
    [__main__] block (set-up, training loop, validation block, epilogue).

    The script is glue around a deep-learning framework.  The embedding keeps
    the script's own control flow and bookkeeping concrete and treats the
    framework the way the script does:

    - tensor arithmetic is an interface ([Scalar]); every theorem holds for
      any interpretation of the operations (floating point included);
    - the networks, their metrics, the sampler and the Adam update rule are
      opaque functions (the class [Framework]);
    - framework pieces whose documented behaviour the script relies on
      ([itertools.cycle], the batch sampler of [DataLoader], [MultiStepLR],
      [bisect_right], [masked_mean], [Module.train]/[eval], [DataParallel],
      the scoping of [Optimizer.step] to its parameter groups) are written
      out as definitions;
    - Python exceptions the script can run into are results ([Raise]). *)

From Stdlib Require Import String ZArith List Bool Lia.
From Stdlib Require QArith.
Import ListNotations.
Local Open Scope string_scope.
Local Open Scope list_scope.
Local Open Scope Z_scope.

(** ** Exceptions and fallible results *)

Inductive Exception : Type :=
| StopIteration      (* next() on an exhausted iterator *)
| ZeroDivisionError  (* iteration % 0 *)
| NameError          (* __iteration_output_dict read before assignment *)
| AttributeError     (* None.zero_grad(), None.step() *)
| ValueError         (* DataLoader batch size, MultiStepLR milestones *)
| IndexError         (* dataset[index], tensor[j] out of range *)
| KeyError.          (* a missing key of the predictions dict *)

Inductive Result (A : Type) : Type :=
| Ok (a : A)
| Raise (e : Exception).
Arguments Ok {A} a.
Arguments Raise {A} e.

Definition bind {A B : Type} (c : Result A) (k : A -> Result B) : Result B :=
  match c with
  | Ok a => k a
  | Raise e => Raise e
  end.

Notation "x <- c ;; k" := (bind c (fun x => k))
  (at level 61, c at next level, right associativity).
Notation "' pat <- c ;; k" := (bind c (fun x => match x with pat => k end))
  (at level 61, pat pattern, c at next level, right associativity).

(** ** Tensor scalars

    The arithmetic the script (and the framework functions written out
    below) performs on loss values and learning rates. *)

Class Scalar (num : Type) : Type := {
  nzero : num;
  nadd : num -> num -> num;
  nmul : num -> num -> num;
  ndiv : num -> num -> num;
  npow : num -> nat -> num;        (* gamma ** k, k an int >= 0 *)
  nclamp_min : num -> num -> num;  (* x.clamp(min=m) *)
  nof_nat : nat -> num;            (* a count as a float *)
  neps : num                       (* the 1e-8 default of masked_mean *)
}.

(** ** Data: examples, batches, dictionaries *)

(** A tensor of token indices of shape (batch_size, length). *)
Definition Tokens : Type := list (list Z).

(** One item of [QuestionCodingDataset]. *)
Record Example : Type := {
  ex_question : list Z;
  ex_program : list Z;
  ex_supervision : bool
}.

(** A collated batch: the dict with keys "question", "program" and
    "supervision". *)
Record Batch : Type := {
  question : Tokens;
  program : Tokens;
  supervision : list bool
}.

Definition collate (items : list Example) : Batch :=
  {| question := map ex_question items;
     program := map ex_program items;
     supervision := map ex_supervision items |}.

(** Python dicts with string keys, in insertion order. *)
Definition Dict (V : Type) : Type := list (string * V).

Fixpoint dict_get {V : Type} (d : Dict V) (key : string) : option V :=
  match d with
  | [] => None
  | (k, v) :: rest => if String.eqb k key then Some v else dict_get rest key
  end.

(** ** Framework: batch sampler, data loader, [itertools.cycle] *)

(** [BatchSampler.__iter__] with drop_last=False: fill a batch, emit it when
    it reaches [batch_size], emit the non-empty remainder at the end. *)
Fixpoint batch_sampler {A : Type} (batch_size : nat) (current : list A)
         (source : list A) : list (list A) :=
  match source with
  | [] => match current with
          | [] => []
          | _ :: _ => [current]
          end
  | idx :: rest =>
      let current' := current ++ [idx] in
      if Nat.eqb (length current') batch_size
      then current' :: batch_sampler batch_size [] rest
      else batch_sampler batch_size current' rest
  end.

(** [dataset[index]]. *)
Definition getitem (dataset : list Example) (index : nat) : Result Example :=
  match nth_error dataset index with
  | Some e => Ok e
  | None => Raise IndexError
  end.

Fixpoint getitems (dataset : list Example) (indices : list nat)
  : Result (list Example) :=
  match indices with
  | [] => Ok []
  | i :: rest =>
      e <- getitem dataset i ;;
      es <- getitems dataset rest ;;
      Ok (e :: es)
  end.

(** Fetching one batch of a data loader: index the dataset, collate. *)
Definition fetch (dataset : list Example) (indices : list nat) : Result Batch :=
  es <- getitems dataset indices ;;
  Ok (collate es).

(** A data loader: [DataLoader(dataset, batch_size=..., sampler=...)].  The
    constructor rejects a batch size that is not a positive integer. *)
Record DataLoader : Type := {
  dl_dataset : list Example;
  dl_batch_size : Z
}.

Definition new_DataLoader (dataset : list Example) (batch_size : Z)
  : Result DataLoader :=
  if batch_size <=? 0 then Raise ValueError
  else Ok {| dl_dataset := dataset; dl_batch_size := batch_size |}.

(** The state of the generator [itertools.cycle(loader)]: the index batches of
    the first pass not yet fetched, the batches saved so far, and the part of
    the saved list still to be replayed in the current round. *)
Record Cycle : Type := {
  cy_dataset : list Example;
  cy_pending : list (list nat);
  cy_saved : list Batch;
  cy_replay : list Batch
}.

(** [itertools.cycle(DataLoader(...))]: [drawn] is the index sequence the
    sampler yields for this loader. *)
Definition cycle (loader : DataLoader) (drawn : list nat) : Cycle :=
  {| cy_dataset := dl_dataset loader;
     cy_pending := batch_sampler (Z.to_nat (dl_batch_size loader)) [] drawn;
     cy_saved := [];
     cy_replay := [] |}.

(** [next(train_dataloader)]. *)
Definition next (c : Cycle) : Result (Batch * Cycle) :=
  match cy_pending c with
  | indices :: rest =>
      b <- fetch (cy_dataset c) indices ;;
      Ok (b, {| cy_dataset := cy_dataset c;
                cy_pending := rest;
                cy_saved := cy_saved c ++ [b];
                cy_replay := cy_replay c |})
  | [] =>
      match cy_replay c with
      | b :: rest =>
          Ok (b, {| cy_dataset := cy_dataset c;
                    cy_pending := [];
                    cy_saved := cy_saved c;
                    cy_replay := rest |})
      | [] =>
          match cy_saved c with
          | [] => Raise StopIteration
          | b :: rest =>
              Ok (b, {| cy_dataset := cy_dataset c;
                        cy_pending := [];
                        cy_saved := cy_saved c;
                        cy_replay := rest |})
          end
      end
  end.

(** ** Framework: [bisect.bisect_right] *)

(** The loop of [bisect_right(a, x, lo, hi)]; the interval shrinks at every
    turn, so [hi - lo] turns are always enough. *)
Fixpoint bisect_loop (turns : nat) (a : list Z) (x : Z) (lo hi : nat) : nat :=
  match turns with
  | O => lo
  | S turns' =>
      if Nat.ltb lo hi then
        let mid := Nat.div (lo + hi) 2 in
        if x <? nth mid a 0
        then bisect_loop turns' a x lo mid
        else bisect_loop turns' a x (S mid) hi
      else lo
  end.

Definition bisect_right (a : list Z) (x : Z) : nat :=
  bisect_loop (length a) a x 0%nat (length a).

(** [list(milestones) == sorted(milestones)]. *)
Fixpoint is_sorted (l : list Z) : bool :=
  match l with
  | [] => true
  | x :: rest =>
      match rest with
      | [] => true
      | y :: _ => (x <=? y) && is_sorted rest
      end
  end.

(** [range(1, n + 1)]. *)
Definition range1 (n : Z) : list Z :=
  map Z.of_nat (seq 1 (Z.to_nat n)).

(** [x in l] for a list of ints. *)
Definition contains (l : list Z) (x : Z) : bool :=
  existsb (Z.eqb x) l.

(** ** Objects of the script *)

(** The three models the script builds, as references into the heap. *)
Inductive ModelRef : Type :=
| RefPrior           (* program_prior *)
| RefGenerator       (* program_generator *)
| RefReconstructor.  (* question_reconstructor *)

(** The only optimizer of the script. *)
Inductive OptimizerRef : Type :=
| RefOptimizer.

Definition ModelRef_eqb (a b : ModelRef) : bool :=
  match a, b with
  | RefPrior, RefPrior => true
  | RefGenerator, RefGenerator => true
  | RefReconstructor, RefReconstructor => true
  | _, _ => false
  end.

(** Command line arguments the script reads ([add_common_opts]). *)
Record Args : Type := {
  gpu_ids : list Z;
  checkpoint_every : Z
}.

(** ** Dictionaries exchanged with the framework *)

Section Dicts.

Context {num : Type}.

(** The config file ([yaml.load]). *)
Record Config : Type := {
  initial_bs : Z;
  bs_steps : list Z;
  bs_gamma : Z;
  initial_lr : num;
  lr_steps : list Z;
  lr_gamma : num;
  weight_decay : num;
  ssl_alpha : num;
  num_iterations : Z;
  prior_checkpoint : string
}.

(** The output dict of a model call: keys "predictions" and "loss" (one loss
    per example of the batch). *)
Record ModelOutput : Type := {
  out_predictions : Tokens;
  out_loss : list num
}.

(** [get_metrics()]: keys "BLEU", "perplexity", "sequence_accuracy". *)
Record Metrics : Type := {
  BLEU : num;
  perplexity : num;
  sequence_accuracy : num
}.

End Dicts.

Arguments Config num : clear implicits.
Arguments ModelOutput num : clear implicits.
Arguments Metrics num : clear implicits.

(** ** Opaque collaborators

    The networks of [tbd.models], the sampler of [tbd.data.sampler] and the
    parts of the framework the script only calls. *)

Class Framework (num : Type) : Type := {
  (** What a network owns: weights, buffers, metric accumulators. *)
  Net : Type;
  (** A serialized checkpoint. *)
  StateDict : Type;
  (** The constructors [ProgramPrior(...)], [ProgramGenerator(...)] and
      [QuestionReconstructor(...)]. *)
  init_net : ModelRef -> Config num -> Net;
  (** [torch.load(path)] and [module.load_state_dict(state)]. *)
  torch_load : string -> StateDict;
  load_state_dict : Net -> StateDict -> Net;
  (** [model(inputs, targets, greedy_decode=...)] for the model class of the
      reference, with the module's training flag; a call may update the
      metric accumulators of the network. *)
  forward : ModelRef -> Net -> bool -> Tokens -> option Tokens -> bool ->
            ModelOutput num * Net;
  (** [model.get_metrics()]. *)
  get_metrics : ModelRef -> Net -> Metrics num * Net;
  (** The Adam update of one model's parameters: learning rate, weight decay,
      and the objectives whose gradients were accumulated since the last
      [zero_grad]. *)
  adam_update : num -> num -> list num -> ModelRef -> Net -> Net;
  (** The index sequence [SupervisionWeightedRandomSampler] yields for the
      k-th data loader built over the training set. *)
  sampler : nat -> list nat;
  (** [vocabulary.get_token_from_index(index, namespace)]. *)
  vocabulary : Z -> string -> string;
  (** [last_epoch] of a freshly built scheduler: -1 up to PyTorch 1.0, 0 from
      PyTorch 1.1 on. *)
  scheduler_epoch0 : Z
}.

(** *** Qualitative examples (the loop printing up to 20 examples of the
    last validation batch) *)

(** What the loop can raise: a missing dict key, a row index out of range. *)
Inductive PrintException : Type :=
| PrintKeyError
| PrintIndexError.

(** Lines written to standard output, and the exception that stopped the
    printing, if any. *)
Record Printed : Type := {
  printed : list string;
  raised : option PrintException
}.

(** Sequencing of two printing steps. *)
Definition and_then (first second : Printed) : Printed :=
  match raised first with
  | Some _ => first
  | None => {| printed := printed first ++ printed second;
               raised := raised second |}
  end.

Section Script.

Context {num : Type} {scalar : Scalar num} {framework : Framework num}.

Local Abbreviation Config := (Config num).
Local Abbreviation ModelOutput := (ModelOutput num).
Local Abbreviation Metrics := (Metrics num).

(** *** Tensor reductions *)

Definition sum (v : list num) : num := fold_left nadd v nzero.

(** [torch.mean(v)]. *)
Definition mean (v : list num) : num :=
  ndiv (sum v) (nof_nat (length v)).

(** [vector.masked_fill(one_minus_mask, 0.0)]. *)
Fixpoint masked_fill (vector : list num) (mask : list bool) : list num :=
  match vector, mask with
  | x :: vector', keep :: mask' =>
      (if keep then x else nzero) :: masked_fill vector' mask'
  | _, _ => []
  end.

(** [allennlp.nn.util.masked_mean(vector, mask, dim=0)]:
    sum of the kept entries over the clamped count of kept entries. *)
Definition masked_mean (vector : list num) (mask : list bool) : num :=
  let value_sum := sum (masked_fill vector mask) in
  let value_count := nof_nat (length (filter (fun keep => keep) mask)) in
  ndiv value_sum (nclamp_min value_count neps).

(** *** Modules, [DataParallel], optimizer, heap *)

(** An [nn.Module]: its network, its [training] flag and the gradients
    accumulated on its parameters (as the objectives back-propagated). *)
Record Module : Type := {
  net : Net;
  training : bool;
  grad : list num
}.

(** What a script variable such as [program_generator] is bound to: the
    module itself, or an [nn.DataParallel] wrapper (a module with a training
    flag of its own) around it. *)
Inductive Handle : Type :=
| Bare (m : Module)
| DataParallel (wrapper_training : bool) (m : Module).

(** [handle.training]. *)
Definition handle_training (h : Handle) : bool :=
  match h with
  | Bare m => training m
  | DataParallel t _ => t
  end.

(** The module that runs the forward pass and owns the parameters. *)
Definition handle_module (h : Handle) : Module :=
  match h with
  | Bare m => m
  | DataParallel _ m => m
  end.

Definition handle_map (f : Module -> Module) (h : Handle) : Handle :=
  match h with
  | Bare m => Bare (f m)
  | DataParallel t m => DataParallel t (f m)
  end.

(** [handle.train(mode)]: sets the flag of the module and of all children. *)
Definition set_training (mode : bool) (h : Handle) : Handle :=
  match h with
  | Bare m => Bare {| net := net m; training := mode; grad := grad m |}
  | DataParallel _ m =>
      DataParallel mode {| net := net m; training := mode; grad := grad m |}
  end.

(** [optim.Adam(params, lr=..., weight_decay=...)]: one parameter group. *)
Record Optimizer : Type := {
  group_params : list ModelRef;
  group_lr : num;
  group_weight_decay : num
}.

(** What autograd and the optimizer did, in order (history for the proofs). *)
Inductive Event : Type :=
| EvZeroGrad
| EvBackward (objective : num)
| EvStep (lr : num).

Record Heap : Type := {
  program_prior_obj : Handle;
  program_generator_obj : Handle;
  question_reconstructor_obj : Handle;
  optimizer_obj : Optimizer;
  events : list Event
}.

Definition deref (h : Heap) (r : ModelRef) : Handle :=
  match r with
  | RefPrior => program_prior_obj h
  | RefGenerator => program_generator_obj h
  | RefReconstructor => question_reconstructor_obj h
  end.

Definition assign (h : Heap) (r : ModelRef) (v : Handle) : Heap :=
  match r with
  | RefPrior =>
      {| program_prior_obj := v;
         program_generator_obj := program_generator_obj h;
         question_reconstructor_obj := question_reconstructor_obj h;
         optimizer_obj := optimizer_obj h; events := events h |}
  | RefGenerator =>
      {| program_prior_obj := program_prior_obj h;
         program_generator_obj := v;
         question_reconstructor_obj := question_reconstructor_obj h;
         optimizer_obj := optimizer_obj h; events := events h |}
  | RefReconstructor =>
      {| program_prior_obj := program_prior_obj h;
         program_generator_obj := program_generator_obj h;
         question_reconstructor_obj := v;
         optimizer_obj := optimizer_obj h; events := events h |}
  end.

Definition with_optimizer (h : Heap) (o : Optimizer) : Heap :=
  {| program_prior_obj := program_prior_obj h;
     program_generator_obj := program_generator_obj h;
     question_reconstructor_obj := question_reconstructor_obj h;
     optimizer_obj := o; events := events h |}.

Definition record (h : Heap) (e : Event) : Heap :=
  {| program_prior_obj := program_prior_obj h;
     program_generator_obj := program_generator_obj h;
     question_reconstructor_obj := question_reconstructor_obj h;
     optimizer_obj := optimizer_obj h; events := events h ++ [e] |}.

Definition update_module (f : Module -> Module) (h : Heap) (r : ModelRef) : Heap :=
  assign h r (handle_map f (deref h r)).

(** [handle.train()] / [handle.eval()] on a script variable. *)
Definition set_mode (mode : bool) (r : ModelRef) (h : Heap) : Heap :=
  assign h r (set_training mode (deref h r)).

(** A forward pass through a script variable. *)
Definition call (h : Heap) (r : ModelRef) (inputs : Tokens)
           (targets : option Tokens) (greedy_decode : bool) : ModelOutput * Heap :=
  let m := handle_module (deref h r) in
  let '(out, net') := forward r (net m) (training m) inputs targets greedy_decode in
  (out, update_module
          (fun m => {| net := net'; training := training m; grad := grad m |}) h r).

(** [optimizer.zero_grad()]: clears the gradients of the optimizer's
    parameters. *)
Definition zero_grad (h : Heap) : Heap :=
  record
    (fold_left
       (update_module
          (fun m => {| net := net m; training := training m; grad := [] |}))
       (group_params (optimizer_obj h)) h)
    EvZeroGrad.

(** [objective.backward()]: accumulates the gradient of the objective on the
    parameters of the models that computed it. *)
Definition backward (objective : num) (graph : list ModelRef) (h : Heap) : Heap :=
  record
    (fold_left
       (update_module
          (fun m => {| net := net m; training := training m;
                       grad := grad m ++ [objective] |}))
       graph h)
    (EvBackward objective).

(** [optimizer.step()]: updates the optimizer's parameters, and only them. *)
Definition optimizer_step (h : Heap) : Heap :=
  let o := optimizer_obj h in
  record
    (fold_left
       (fun h' r =>
          update_module
            (fun m => {| net := adam_update (group_lr o) (group_weight_decay o)
                                            (grad m) r (net m);
                         training := training m; grad := grad m |}) h' r)
       (group_params o) h)
    (EvStep (group_lr o)).

(** *** [do_iteration] *)

(** The dict [do_iteration] returns. *)
Record IterationOutput : Type := {
  predictions : Dict Tokens;
  loss : Dict num
}.

Definition do_iteration (config : Config) (batch : Batch)
    (program_prior : option ModelRef)
    (program_generator question_reconstructor : ModelRef)
    (optimizer : option OptimizerRef) (h : Heap)
  : Result (IterationOutput * Heap) :=
  h1 <- (if handle_training (deref h program_generator)
         then match optimizer with
              | None => Raise AttributeError
              | Some RefOptimizer => Ok (zero_grad h)
              end
         else Ok h) ;;
  let '(pg_output_dict, h2) :=
    call h1 program_generator (question batch) (Some (program batch)) false in
  let '(pg_greedy_dict, h3) :=
    call h2 program_generator (question batch) None true in
  let sampled_programs := out_predictions pg_greedy_dict in
  let '(qr_output_dict, h4) :=
    call h3 question_reconstructor sampled_programs (Some (question batch)) false in
  let qr_batch_loss := mean (out_loss qr_output_dict) in
  let pg_batch_loss := masked_mean (out_loss pg_output_dict) (supervision batch) in
  let loss_objective := nadd qr_batch_loss (nmul (ssl_alpha config) pg_batch_loss) in
  h5 <- (if handle_training (deref h4 program_generator)
            && handle_training (deref h4 question_reconstructor)
         then match optimizer with
              | None => Raise AttributeError
              | Some RefOptimizer =>
                  Ok (optimizer_step
                        (backward loss_objective
                                  [program_generator; question_reconstructor] h4))
              end
         else Ok h4) ;;
  Ok ({| predictions :=
           [("__pg", out_predictions pg_output_dict);
            ("__qr", out_predictions qr_output_dict)];
         loss :=
           [("reconstruction", pg_batch_loss);
            ("supervision", qr_batch_loss);
            ("objective", loss_objective)] |},
      h5).

(** *** Learning-rate scheduler *)

(** [optim.lr_scheduler.MultiStepLR(optimizer, milestones, gamma)]. *)
Record MultiStepLR : Type := {
  milestones : list Z;
  gamma : num;
  base_lr : num;
  last_epoch : Z
}.

(** [get_lr()]: base_lr * gamma ** bisect_right(milestones, last_epoch). *)
Definition get_lr (sch : MultiStepLR) : num :=
  nmul (base_lr sch)
       (npow (gamma sch) (bisect_right (milestones sch) (last_epoch sch))).

Definition set_lr (o : Optimizer) (lr : num) : Optimizer :=
  {| group_params := group_params o;
     group_lr := lr;
     group_weight_decay := group_weight_decay o |}.

(** [scheduler.step(epoch)]: moves to [epoch] and writes the learning rate
    into the optimizer's parameter group. *)
Definition scheduler_step_to (epoch : Z) (sch : MultiStepLR) (h : Heap)
  : MultiStepLR * Heap :=
  let sch' := {| milestones := milestones sch; gamma := gamma sch;
                 base_lr := base_lr sch; last_epoch := epoch |} in
  (sch', with_optimizer h (set_lr (optimizer_obj h) (get_lr sch'))).

(** [scheduler.step()]. *)
Definition scheduler_step (sch : MultiStepLR) (h : Heap) : MultiStepLR * Heap :=
  scheduler_step_to (last_epoch sch + 1) sch h.

(** The constructor: milestones must be sorted; the base rate is the
    optimizer's; an initial step to epoch 0 is taken; the epoch counter then
    stands at [scheduler_epoch0]. *)
Definition new_MultiStepLR (h : Heap) (steps : list Z) (g : num)
  : Result (MultiStepLR * Heap) :=
  if is_sorted steps then
    let sch := {| milestones := steps; gamma := g;
                  base_lr := group_lr (optimizer_obj h); last_epoch := -1 |} in
    let '(sch', h') := scheduler_step_to 0 sch h in
    Ok ({| milestones := milestones sch'; gamma := gamma sch';
           base_lr := base_lr sch'; last_epoch := scheduler_epoch0 |}, h')
  else Raise ValueError.

(** *** Checkpoint managers and summary writer

    [tbd.utils.checkpointing.CheckpointManager] and tensorboardX's
    [SummaryWriter] are represented by the calls they receive. *)

Record CheckpointManager : Type := {
  filename_prefix : string;
  managed : ModelRef;
  stepped : list num;     (* arguments of step(...), in order *)
  saved_best : bool       (* save_best() was called *)
}.

Definition ckpt_step (m : CheckpointManager) (metric : num) : CheckpointManager :=
  {| filename_prefix := filename_prefix m; managed := managed m;
     stepped := stepped m ++ [metric]; saved_best := saved_best m |}.

Definition save_best (m : CheckpointManager) : CheckpointManager :=
  {| filename_prefix := filename_prefix m; managed := managed m;
     stepped := stepped m; saved_best := true |}.

Inductive Summary : Type :=
| AddScalars (tag : string) (values : Dict num) (global_step : Z)
| AddScalar (tag : string) (value : num) (global_step : Z)
| AddScalarInt (tag : string) (value : Z) (global_step : Z).

Record SummaryWriter : Type := {
  written : list Summary;
  closed : bool
}.

Definition write (w : SummaryWriter) (e : Summary) : SummaryWriter :=
  {| written := written w ++ [e]; closed := closed w |}.

(** *** The state of the script *)

(** One call of [do_iteration] as made by the script: its arguments, the
    modes of the two models at the call, and what it returned (history for
    the proofs). *)
Record Call : Type := {
  at_iteration : Z;
  in_validation : bool;
  arg_program_prior : option ModelRef;
  arg_optimizer : option OptimizerRef;
  generator_training : bool;
  reconstructor_training : bool;
  arg_batch : Batch;
  returned : IterationOutput
}.

Record State : Type := {
  heap : Heap;
  lr_scheduler : MultiStepLR;
  batch_size : Z;
  train_dataloader : Cycle;
  loaders_built : nat;    (* data loaders built over the training set so far *)
  val_dataloader : DataLoader;
  program_generator_checkpoint_manager : CheckpointManager;
  question_reconstructor_checkpoint_manager : CheckpointManager;
  summary_writer : SummaryWriter;
  calls : list Call
}.

(** [nn.DataParallel(module, gpu_ids)]: a fresh wrapper, in training mode
    like every fresh module. *)
Definition wrap (h : Handle) : Handle := DataParallel true (handle_module h).

(** *** Set-up: everything before the training loop *)

Definition setup (args : Args) (config : Config)
           (train_dataset val_dataset : list Example) : Result State :=
  (* args.gpu_ids[0] *)
  _ <- match gpu_ids args with [] => Raise IndexError | g :: _ => Ok g end ;;
  let batch_size := initial_bs config in
  train_loader <- new_DataLoader train_dataset batch_size ;;
  val_loader <- new_DataLoader val_dataset batch_size ;;
  let program_prior :=
    Bare {| net := load_state_dict (init_net RefPrior config)
                                   (torch_load (prior_checkpoint config));
            training := true; grad := [] |} in
  let program_prior := set_training false program_prior in
  let program_generator :=
    Bare {| net := init_net RefGenerator config; training := true; grad := [] |} in
  let question_reconstructor :=
    Bare {| net := init_net RefReconstructor config; training := true; grad := [] |} in
  let optimizer :=
    {| group_params := [RefGenerator; RefReconstructor];
       group_lr := initial_lr config;
       group_weight_decay := weight_decay config |} in
  let h := {| program_prior_obj := program_prior;
              program_generator_obj := program_generator;
              question_reconstructor_obj := question_reconstructor;
              optimizer_obj := optimizer;
              events := [] |} in
  '(scheduler, h) <- new_MultiStepLR h (lr_steps config) (lr_gamma config) ;;
  let h :=
    if negb (contains (gpu_ids args) (-1))
    then {| program_prior_obj := wrap (program_prior_obj h);
            program_generator_obj := wrap (program_generator_obj h);
            question_reconstructor_obj := wrap (question_reconstructor_obj h);
            optimizer_obj := optimizer_obj h;
            events := events h |}
    else h in
  Ok {| heap := h;
        lr_scheduler := scheduler;
        batch_size := batch_size;
        train_dataloader := cycle train_loader (sampler 0%nat);
        loaders_built := 1%nat;
        val_dataloader := val_loader;
        program_generator_checkpoint_manager :=
          {| filename_prefix := "program_generator"; managed := RefGenerator;
             stepped := []; saved_best := false |};
        question_reconstructor_checkpoint_manager :=
          {| filename_prefix := "question_reconstructor";
             managed := RefReconstructor;
             stepped := []; saved_best := false |};
        summary_writer := {| written := []; closed := false |};
        calls := [] |}.

Section Qualitative.

(** [vocabulary.get_token_from_index(index, namespace)]. *)
Variable get_token_from_index : Z -> string -> string.

(** prefix + " ".join([token(i, namespace) for i in row if i != 0]). *)
Definition tokens_line (prefix namespace : string) (row : list Z) : string :=
  String.append prefix
    (String.concat " "
       (map (fun i => get_token_from_index i namespace)
            (filter (fun i => negb (i =? 0)) row))).

(** print(prefix + ...) for row [j] of a tensor. *)
Definition print_row (prefix namespace : string) (tensor : Tokens) (j : nat)
  : Printed :=
  match nth_error tensor j with
  | Some row => {| printed := [tokens_line prefix namespace row];
                   raised := None |}
  | None => {| printed := []; raised := Some PrintIndexError |}
  end.

(** The same for a tensor stored under a key of the predictions dict. *)
Definition print_prediction (prefix namespace : string)
           (predicted : Dict Tokens) (key : string) (j : nat) : Printed :=
  match dict_get predicted key with
  | Some tensor => print_row prefix namespace tensor j
  | None => {| printed := []; raised := Some PrintKeyError |}
  end.

(** "- " * 30 *)
Definition separator : string :=
  String.concat "" (repeat "- "%string 30).

(** The body of the loop for example [j]. *)
Definition print_example (batch : Batch) (out : IterationOutput) (j : nat)
  : Printed :=
  and_then (print_row "PROGRAM: " "programs" (program batch) j)
  (and_then (print_prediction "SAMPLED PROGRAM: " "programs"
                              (predictions out) "__pg" j)
  (and_then (print_row "QUESTION: " "questions" (question batch) j)
  (and_then (print_prediction "RECONST QUESTION: " "questions"
                              (predictions out) "__qr" j)
            {| printed := [separator]; raised := None |}))).

Fixpoint print_examples (batch : Batch) (out : IterationOutput)
         (js : list nat) : Printed :=
  match js with
  | [] => {| printed := []; raised := None |}
  | j :: rest =>
      and_then (print_example batch out j) (print_examples batch out rest)
  end.

(** for j in range(min(len(batch["question"]), 20)): ... *)
Definition qualitative_examples (batch : Batch) (out : IterationOutput)
  : Printed :=
  print_examples batch out (seq 0 (Nat.min (length (question batch)) 20)).

End Qualitative.

(** *** The validation block *)

(** The batches of [val_dataloader] (sequential sampler: every index is in
    range). *)
Definition val_batches (loader : DataLoader) : list Batch :=
  map collate
      (batch_sampler (Z.to_nat (dl_batch_size loader)) [] (dl_dataset loader)).

(** [for i, batch in enumerate(tqdm(val_dataloader)): ...]; [last] is the
    binding of [batch] and [__iteration_output_dict] so far. *)
Fixpoint validation_loop (config : Config) (iteration : Z) (batches : list Batch)
         (h : Heap) (last : option (Batch * IterationOutput)) (log : list Call)
  : Result (Heap * option (Batch * IterationOutput) * list Call) :=
  match batches with
  | [] => Ok (h, last, log)
  | batch :: rest =>
      '(out, h') <- do_iteration config batch None RefGenerator RefReconstructor
                                 None h ;;
      validation_loop config iteration rest h' (Some (batch, out))
        (log ++ [{| at_iteration := iteration; in_validation := true;
                    arg_program_prior := None; arg_optimizer := None;
                    generator_training :=
                      handle_training (deref h RefGenerator);
                    reconstructor_training :=
                      handle_training (deref h RefReconstructor);
                    arg_batch := batch; returned := out |}])
  end.

(** [module.get_metrics()] on a script variable; with or without the
    [DataParallel] wrapper the call reaches the module. *)
Definition handle_get_metrics (r : ModelRef) (h : Heap) : Metrics * Heap :=
  let m := handle_module (deref h r) in
  let '(metrics, net') := get_metrics r (net m) in
  (metrics, update_module
              (fun m => {| net := net'; training := training m; grad := grad m |})
              h r).

(** The body of [if iteration % args.checkpoint_every == 0:]; [batch] is the
    binding of the variable [batch] on entry (the training batch). *)
Definition validate (config : Config) (iteration : Z) (batch : Batch) (s : State)
  : Result State :=
  let h := set_mode false RefGenerator (heap s) in
  let h := set_mode false RefReconstructor h in
  '(h, last, log) <- validation_loop config iteration
                       (val_batches (val_dataloader s)) h None (calls s) ;;
  (* Print qualitative examples from the last batch: [batch] and
     [__iteration_output_dict] are bound by the loop above, if it ran. *)
  _ <- match last with
       | Some (batch, iteration_output_dict) =>
           match raised (qualitative_examples vocabulary batch
                                              iteration_output_dict) with
           | None => Ok tt
           | Some PrintIndexError => Raise IndexError
           | Some PrintKeyError => Raise KeyError
           end
       | None =>
           (* [batch] is still the training batch; the first example prints
              its program and then reads __iteration_output_dict. *)
           if 0 <? Z.min (Z.of_nat (length (question batch))) 20
           then match raised (print_row vocabulary "PROGRAM: " "programs"
                                        (program batch) 0) with
                | Some _ => Raise IndexError
                | None => Raise NameError
                end
           else Ok tt
       end ;;
  let '(pg_metrics, h) := handle_get_metrics RefGenerator h in
  let '(qr_metrics, h) := handle_get_metrics RefReconstructor h in
  let scalars (name : string) (field : Metrics -> num) :=
    AddScalars ("metrics/" ++ name)
               [("program_generator", field pg_metrics);
                ("question_reconstructor", field qr_metrics)] iteration in
  let w := write (summary_writer s) (scalars "BLEU" BLEU) in
  let w := write w (scalars "perplexity" perplexity) in
  let w := write w (scalars "sequence_accuracy" sequence_accuracy) in
  let pg_manager :=
    ckpt_step (program_generator_checkpoint_manager s) (perplexity pg_metrics) in
  let qr_manager :=
    ckpt_step (question_reconstructor_checkpoint_manager s)
              (perplexity qr_metrics) in
  let h := set_mode true RefGenerator h in
  let h := set_mode true RefReconstructor h in
  Ok {| heap := h;
        lr_scheduler := lr_scheduler s;
        batch_size := batch_size s;
        train_dataloader := train_dataloader s;
        loaders_built := loaders_built s;
        val_dataloader := val_dataloader s;
        program_generator_checkpoint_manager := pg_manager;
        question_reconstructor_checkpoint_manager := qr_manager;
        summary_writer := w;
        calls := log |}.

(** *** One turn of the training loop *)

(** Batch size scheduling: [if iteration in config["bs_steps"]: ...]. *)
Definition schedule_batch_size (config : Config) (train_dataset : list Example)
           (iteration : Z) (batch_size : Z) (loader : Cycle) (built : nat)
  : Result (Z * Cycle * nat) :=
  if contains (bs_steps config) iteration then
    let batch_size := batch_size * bs_gamma config in
    fresh <- new_DataLoader train_dataset batch_size ;;
    Ok (batch_size, cycle fresh (sampler built), S built)
  else Ok (batch_size, loader, built).

Definition train_iteration (args : Args) (config : Config)
           (train_dataset : list Example) (iteration : Z) (s : State)
  : Result State :=
  '(batch, loader) <- next (train_dataloader s) ;;
  '(iteration_output_dict, h) <-
     do_iteration config batch None RefGenerator RefReconstructor
                  (Some RefOptimizer) (heap s) ;;
  let log :=
    calls s ++ [{| at_iteration := iteration; in_validation := false;
                   arg_program_prior := None;
                   arg_optimizer := Some RefOptimizer;
                   generator_training :=
                     handle_training (deref (heap s) RefGenerator);
                   reconstructor_training :=
                     handle_training (deref (heap s) RefReconstructor);
                   arg_batch := batch; returned := iteration_output_dict |}] in
  (* Log losses and hyperparameters. *)
  let w := write (summary_writer s)
                 (AddScalars "loss" (loss iteration_output_dict) iteration) in
  let w := write w (AddScalarInt "schedulers/batch_size" (batch_size s) iteration) in
  let w := write w (AddScalar "schedulers/lr" (group_lr (optimizer_obj h))
                              iteration) in
  (* batch size and learning rate scheduling *)
  let '(scheduler, h) := scheduler_step (lr_scheduler s) h in
  '(batch_size', loader, built) <-
     schedule_batch_size config train_dataset iteration (batch_size s) loader
                         (loaders_built s) ;;
  let s' := {| heap := h;
               lr_scheduler := scheduler;
               batch_size := batch_size';
               train_dataloader := loader;
               loaders_built := built;
               val_dataloader := val_dataloader s;
               program_generator_checkpoint_manager :=
                 program_generator_checkpoint_manager s;
               question_reconstructor_checkpoint_manager :=
                 question_reconstructor_checkpoint_manager s;
               summary_writer := w;
               calls := log |} in
  (* iteration % args.checkpoint_every == 0 *)
  if checkpoint_every args =? 0 then Raise ZeroDivisionError
  else if iteration mod checkpoint_every args =? 0
       then validate config iteration batch s'
       else Ok s'.

(** [for iteration in ...: ...] over the given iterations. *)
Fixpoint training_loop (args : Args) (config : Config)
         (train_dataset : list Example) (iterations : list Z) (s : State)
  : Result State :=
  match iterations with
  | [] => Ok s
  | iteration :: rest =>
      s' <- train_iteration args config train_dataset iteration s ;;
      training_loop args config train_dataset rest s'
  end.

(** *** After the training loop *)

Definition finish (s : State) : State :=
  {| heap := heap s;
     lr_scheduler := lr_scheduler s;
     batch_size := batch_size s;
     train_dataloader := train_dataloader s;
     loaders_built := loaders_built s;
     val_dataloader := val_dataloader s;
     program_generator_checkpoint_manager :=
       save_best (program_generator_checkpoint_manager s);
     question_reconstructor_checkpoint_manager :=
       save_best (question_reconstructor_checkpoint_manager s);
     summary_writer := {| written := written (summary_writer s); closed := true |};
     calls := calls s |}.

(** The [__main__] block. *)
Definition main (args : Args) (config : Config)
           (train_dataset val_dataset : list Example) : Result State :=
  s <- setup args config train_dataset val_dataset ;;
  s <- training_loop args config train_dataset
                     (range1 (num_iterations config)) s ;;
  Ok (finish s).

(** The state of the script when the training loop has completed its first
    [k] turns (iterations 1 to k). *)
Definition after_iterations (args : Args) (config : Config)
           (train_dataset val_dataset : list Example) (k : nat) : Result State :=
  s <- setup args config train_dataset val_dataset ;;
  training_loop args config train_dataset (range1 (Z.of_nat k)) s.

End Script.

(** ** Vocabulary of the statements *)

Section Specification.

Context {num : Type} {scalar : Scalar num} {framework : Framework num}.

Local Abbreviation Config := (Config num).
Local Abbreviation Call := (@Call num).
Local Abbreviation IterationOutput := (@IterationOutput num).
Local Abbreviation Event := (@Event num).

(** What a reference points to: network, mode of the module, mode of the
    script variable. *)
Definition net_of (h : Heap) (r : ModelRef) : Net :=
  net (handle_module (deref h r)).
Definition mode_of (h : Heap) (r : ModelRef) : bool :=
  training (handle_module (deref h r)).
Definition flag_of (h : Heap) (r : ModelRef) : bool :=
  handle_training (deref h r).

(** The three forward passes of [do_iteration] on a heap, as the script
    calls it (generator and reconstructor in their own variables). *)
Definition generator_pass (batch : Batch) (h : Heap) : ModelOutput num * Net :=
  forward RefGenerator (net_of h RefGenerator) (mode_of h RefGenerator)
          (question batch) (Some (program batch)) false.

Definition greedy_pass (batch : Batch) (h : Heap) : ModelOutput num * Net :=
  forward RefGenerator (snd (generator_pass batch h)) (mode_of h RefGenerator)
          (question batch) None true.

Definition reconstructor_pass (batch : Batch) (h : Heap) : ModelOutput num * Net :=
  forward RefReconstructor (net_of h RefReconstructor)
          (mode_of h RefReconstructor)
          (out_predictions (fst (greedy_pass batch h)))
          (Some (question batch)) false.

(** The program-generator loss of the batch: the supervision term. *)
Definition supervision_term (batch : Batch) (h : Heap) : num :=
  masked_mean (out_loss (fst (generator_pass batch h))) (supervision batch).

(** The question-reconstructor loss of the batch: the reconstruction term. *)
Definition reconstruction_term (batch : Batch) (h : Heap) : num :=
  mean (out_loss (fst (reconstructor_pass batch h))).

(** (reconstruction loss) + (alpha * supervision loss). *)
Definition joint_objective (config : Config) (batch : Batch) (h : Heap) : num :=
  nadd (reconstruction_term batch h)
       (nmul (ssl_alpha config) (supervision_term batch h)).

(** The dict a call of [do_iteration] by the script returns on a heap. *)
Definition iteration_output (config : Config) (batch : Batch) (h : Heap)
  : IterationOutput :=
  {| predictions :=
       [("__pg", out_predictions (fst (generator_pass batch h)));
        ("__qr", out_predictions (fst (reconstructor_pass batch h)))];
     loss :=
       [("reconstruction", supervision_term batch h);
        ("supervision", reconstruction_term batch h);
        ("objective", joint_objective config batch h)] |}.

(** What autograd and the optimizer do during such a call. *)
Definition iteration_events (config : Config) (batch : Batch) (h : Heap)
  : list Event :=
  (if flag_of h RefGenerator then [EvZeroGrad] else []) ++
  (if flag_of h RefGenerator && flag_of h RefReconstructor
   then [EvBackward (joint_objective config batch h);
         EvStep (group_lr (optimizer_obj h))]
   else []).

(** Two loss vectors that agree on the supervised examples of a batch. *)
Definition agree_on_supervised (v1 v2 : list num) (mask : list bool) : Prop :=
  length v1 = length v2 /\
  forall i, nth i mask false = true -> nth i v1 nzero = nth i v2 nzero.

(** The losses of the supervised examples of a batch, in order. *)
Fixpoint supervised_only (vector : list num) (mask : list bool) : list num :=
  match vector, mask with
  | x :: vector', keep :: mask' =>
      if keep then x :: supervised_only vector' mask'
      else supervised_only vector' mask'
  | _, _ => []
  end.

(** The number of milestones the scheduler has passed at an epoch. *)
Definition milestones_passed (steps : list Z) (epoch : Z) : nat :=
  length (filter (fun m => m <=? epoch) steps).

(** The batch size the schedule prescribes after [k] iterations. *)
Fixpoint scheduled_batch_size (config : Config) (k : nat) : Z :=
  match k with
  | O => initial_bs config
  | S k' =>
      if contains (bs_steps config) (Z.of_nat k)
      then scheduled_batch_size config k' * bs_gamma config
      else scheduled_batch_size config k'
  end.

(** The iterations up to [k] at which the condition holds. *)
Definition iterations_where (test : Z -> bool) (k : nat) : list Z :=
  filter test (range1 (Z.of_nat k)).

(** The module the prior is after set-up: checkpoint loaded, evaluation
    mode, no gradient. *)
Definition frozen_prior (config : Config) : Module :=
  {| net := load_state_dict (init_net RefPrior config)
                            (torch_load (prior_checkpoint config));
     training := false;
     grad := [] |}.

(** The calls of [do_iteration] made by training iterations. *)
Definition training_calls (log : list Call) : list Call :=
  filter (fun c => negb (in_validation c)) log.

(** The three labelled losses returned by a call. *)
Definition loss_at (c : Call) (key : string) : option num :=
  dict_get (loss (returned c)) key.

(** The two ways the script calls [do_iteration]. *)
Definition training_call (c : Call) : Prop :=
  in_validation c = false /\
  arg_program_prior c = None /\
  arg_optimizer c = Some RefOptimizer /\
  generator_training c = true /\
  reconstructor_training c = true.

Definition validation_call (c : Call) : Prop :=
  in_validation c = true /\
  arg_program_prior c = None /\
  arg_optimizer c = None /\
  generator_training c = false /\
  reconstructor_training c = false.

Definition scripted_call (c : Call) : Prop :=
  training_call c \/ validation_call c.

(** Inputs on which nothing the script calls raises: a GPU list, positive
    batch sizes, sorted milestones, a non-zero validation period, non-empty
    data sets, a sampler that draws as many valid indices as the training
    set has items, and networks that predict one row per input row. *)
Record well_formed (args : Args) (config : Config)
       (train_dataset val_dataset : list Example) : Prop := {
  wf_gpu_ids : gpu_ids args <> [];
  wf_initial_bs : 0 < initial_bs config;
  wf_bs_gamma : 0 < bs_gamma config;
  wf_lr_steps : is_sorted (lr_steps config) = true;
  wf_checkpoint_every : checkpoint_every args <> 0;
  wf_train_dataset : train_dataset <> [];
  wf_val_dataset : val_dataset <> [];
  wf_sampler : forall k,
      length (sampler k) = length train_dataset /\
      Forall (fun i => (i < length train_dataset)%nat) (sampler k);
  wf_predictions : forall r n mode inputs targets greedy,
      length (out_predictions (fst (forward r n mode inputs targets greedy)))
      = length inputs
}.

(** A cyclic loader that can always deliver: every pending index is in
    range, and something is pending or saved. *)
Definition deliverable (c : Cycle) : Prop :=
  Forall (Forall (fun i => (i < length (cy_dataset c))%nat)) (cy_pending c) /\
  (cy_pending c <> [] \/ cy_saved c <> []).

(** [n] successive [next(train_dataloader)]. *)
Fixpoint draw (n : nat) (c : Cycle) : Result (list Batch) :=
  match n with
  | O => Ok []
  | S n' =>
      '(batch, c') <- next c ;;
      batches <- draw n' c' ;;
      Ok (batch :: batches)
  end.

(** What holds of the script's state between two turns of the training
    loop, after [k] turns. *)
Record between_iterations (args : Args) (config : Config)
       (train_dataset val_dataset : list Example) (k : nat) (s : State)
  : Prop := {
  bi_prior : handle_module (program_prior_obj (heap s)) = frozen_prior config;
  bi_params :
    group_params (optimizer_obj (heap s)) = [RefGenerator; RefReconstructor];
  bi_generator :
    flag_of (heap s) RefGenerator = true /\ mode_of (heap s) RefGenerator = true;
  bi_reconstructor :
    flag_of (heap s) RefReconstructor = true /\
    mode_of (heap s) RefReconstructor = true;
  bi_scheduler :
    milestones (lr_scheduler s) = lr_steps config /\
    gamma (lr_scheduler s) = lr_gamma config /\
    base_lr (lr_scheduler s) = initial_lr config /\
    is_sorted (lr_steps config) = true;
  bi_epoch : last_epoch (lr_scheduler s) = scheduler_epoch0 + Z.of_nat k;
  bi_lr :
    group_lr (optimizer_obj (heap s)) =
    nmul (initial_lr config)
         (npow (lr_gamma config)
               (bisect_right (lr_steps config)
                             (match k with
                              | O => 0
                              | S _ => scheduler_epoch0 + Z.of_nat k
                              end)));
  bi_batch_size : batch_size s = scheduled_batch_size config k;
  bi_loaders :
    loaders_built s =
    S (length (iterations_where (contains (bs_steps config)) k));
  bi_loader_dataset : cy_dataset (train_dataloader s) = train_dataset;
  bi_val_loader :
    val_dataloader s =
    {| dl_dataset := val_dataset; dl_batch_size := initial_bs config |};
  bi_calls : Forall scripted_call (calls s);
  bi_training_calls : length (training_calls (calls s)) = k
}.

(** Module updates that leave the mode, or network and mode, alone. *)
Definition keeps_mode (f : Module -> Module) : Prop :=
  forall m, training (f m) = training m.

Definition keeps_net (f : Module -> Module) : Prop :=
  forall m, net (f m) = net m.

(** Heaps with the same modes everywhere and the same optimizer. *)
Definition same_modes (h h' : Heap) : Prop :=
  (forall r, flag_of h' r = flag_of h r /\ mode_of h' r = mode_of h r) /\
  optimizer_obj h' = optimizer_obj h.

(** Heaps with the same networks everywhere. *)
Definition same_nets (h h' : Heap) : Prop :=
  forall r, net_of h' r = net_of h r.

(** The heap the validation loop starts from: both models switched to
    evaluation mode. *)
Definition evaluation_heap (s : State) : Heap :=
  set_mode false RefReconstructor (set_mode false RefGenerator (heap s)).

(** How a completed validation block relates the states before and after:
    the loop ran in evaluation mode over the validation batches, both
    managers were stepped with the perplexity of their model's metrics, both
    models are back in training mode, and nothing else moved. *)
Record validated (config : Config) (iteration : Z) (s s' : State) : Prop := {
  vd_pass :
    exists h_val last new,
      validation_loop config iteration (val_batches (val_dataloader s))
                      (evaluation_heap s) None (calls s)
      = Ok (h_val, last, calls s ++ new) /\
      Forall validation_call new /\
      calls s' = calls s ++ new /\
      program_generator_checkpoint_manager s'
      = ckpt_step (program_generator_checkpoint_manager s)
                  (perplexity (fst (handle_get_metrics RefGenerator h_val))) /\
      question_reconstructor_checkpoint_manager s'
      = ckpt_step (question_reconstructor_checkpoint_manager s)
                  (perplexity
                     (fst (handle_get_metrics
                             RefReconstructor
                             (snd (handle_get_metrics RefGenerator h_val)))));
  vd_generator :
    flag_of (heap s') RefGenerator = true /\
    mode_of (heap s') RefGenerator = true;
  vd_reconstructor :
    flag_of (heap s') RefReconstructor = true /\
    mode_of (heap s') RefReconstructor = true;
  vd_optimizer : optimizer_obj (heap s') = optimizer_obj (heap s);
  vd_events : events (heap s') = events (heap s);
  vd_prior :
    ~ In RefPrior (group_params (optimizer_obj (heap s))) ->
    program_prior_obj (heap s') = program_prior_obj (heap s);
  vd_rest :
    lr_scheduler s' = lr_scheduler s /\
    batch_size s' = batch_size s /\
    train_dataloader s' = train_dataloader s /\
    loaders_built s' = loaders_built s /\
    val_dataloader s' = val_dataloader s
}.

(** How the first half of a training turn (one call of [do_iteration] on
    [batch], logging, learning-rate and batch-size scheduling) relates the
    state before and the state on which the validation test is made;
    [loader] is the cyclic loader after the batch was drawn. *)
Record trained (config : Config) (train_dataset : list Example)
       (iteration : Z) (batch : Batch) (loader : Cycle) (s s' : State)
  : Prop := {
  tr_modes :
    forall r, flag_of (heap s') r = flag_of (heap s) r /\
              mode_of (heap s') r = mode_of (heap s) r;
  tr_params :
    group_params (optimizer_obj (heap s'))
    = group_params (optimizer_obj (heap s));
  tr_scheduler :
    lr_scheduler s'
    = {| milestones := milestones (lr_scheduler s);
         gamma := gamma (lr_scheduler s);
         base_lr := base_lr (lr_scheduler s);
         last_epoch := last_epoch (lr_scheduler s) + 1 |};
  tr_lr : group_lr (optimizer_obj (heap s')) = get_lr (lr_scheduler s');
  tr_events :
    events (heap s')
    = events (heap s) ++ iteration_events config batch (heap s);
  tr_prior :
    ~ In RefPrior (group_params (optimizer_obj (heap s))) ->
    program_prior_obj (heap s') = program_prior_obj (heap s);
  tr_batch_size :
    if contains (bs_steps config) iteration
    then batch_size s' = batch_size s * bs_gamma config /\
         train_dataloader s'
         = cycle {| dl_dataset := train_dataset;
                    dl_batch_size := batch_size s' |}
                 (sampler (loaders_built s)) /\
         loaders_built s' = S (loaders_built s)
    else batch_size s' = batch_size s /\
         train_dataloader s' = loader /\
         loaders_built s' = loaders_built s;
  tr_calls :
    calls s'
    = calls s ++ [{| at_iteration := iteration; in_validation := false;
                     arg_program_prior := None;
                     arg_optimizer := Some RefOptimizer;
                     generator_training := flag_of (heap s) RefGenerator;
                     reconstructor_training := flag_of (heap s) RefReconstructor;
                     arg_batch := batch;
                     returned := iteration_output config batch (heap s) |}];
  tr_rest :
    program_generator_checkpoint_manager s'
    = program_generator_checkpoint_manager s /\
    question_reconstructor_checkpoint_manager s'
    = question_reconstructor_checkpoint_manager s /\
    val_dataloader s' = val_dataloader s
}.

End Specification.

(** ** A small concrete instance

    Rational arithmetic for the scalars and toy networks, to run the script
    on concrete inputs. *)

Module Demo.

Import Stdlib.QArith.QArith.
Local Open Scope Z_scope.

Definition Q_scalar : Scalar Q :=
  {| nzero := 0%Q;
     nadd := fun x y => Qred (x + y);
     nmul := fun x y => Qred (x * y);
     ndiv := fun x y => Qred (x / y);
     npow := fun x k => Qred (Qpower x (Z.of_nat k));
     nclamp_min := fun x m => if Qle_bool m x then x else m;
     nof_nat := fun n => inject_Z (Z.of_nat n);
     neps := (1 # 100000000)%Q |}.
#[export] Existing Instance Q_scalar.

(** The same arithmetic with sums left as they come, so that x + 0 is x
    itself and not its normal form. *)
Definition Q_exact : Scalar Q :=
  {| nzero := 0%Q;
     nadd := Qplus;
     nmul := fun x y => Qred (x * y);
     ndiv := fun x y => Qred (x / y);
     npow := fun x k => Qred (Qpower x (Z.of_nat k));
     nclamp_min := fun x m => if Qle_bool m x then x else m;
     nof_nat := fun n => inject_Z (Z.of_nat n);
     neps := (1 # 100000000)%Q |}.

(** Toy networks: a network is the number of updates it went through; the
    generator charges 2 per example, the reconstructor 1 per example. *)
Definition toy : Framework Q :=
  {| Net := Z;
     StateDict := Z;
     init_net := fun _ _ => 0%Z;
     torch_load := fun _ => 7%Z;
     load_state_dict := fun _ state => state;
     forward := fun r n _ inputs _ _ =>
       ({| out_predictions := inputs;
           out_loss := map (fun _ => match r with
                                     | RefGenerator => 2%Q
                                     | _ => 1%Q
                                     end) inputs |}, n);
     get_metrics := fun r n =>
       ({| BLEU := 1%Q;
           perplexity := inject_Z n;
           sequence_accuracy := 1%Q |}, n);
     adam_update := fun _ _ _ _ n => (n + 1)%Z;
     sampler := fun _ => [0%nat; 1%nat; 2%nat];
     vocabulary := fun index _ => if (index =? 1)%Z then "one" else "other";
     scheduler_epoch0 := 0%Z |}.
#[export] Existing Instance toy.

Definition example (q p : Z) (s : bool) : Example :=
  {| ex_question := [q]; ex_program := [p]; ex_supervision := s |}.

Definition train_dataset : list Example :=
  [example 1 11 true; example 2 12 false; example 3 13 true].

Definition val_dataset : list Example :=
  [example 4 14 true; example 5 15 true].

Definition config : Config Q :=
  {| initial_bs := 2;
     bs_steps := [2%Z];
     bs_gamma := 2;
     initial_lr := (1 # 10)%Q;
     lr_steps := [2%Z; 3%Z];
     lr_gamma := (1 # 2)%Q;
     weight_decay := 0%Q;
     ssl_alpha := 1%Q;
     num_iterations := 4;
     prior_checkpoint := "checkpoints/program_prior.pth" |}.

Definition args : Args := {| gpu_ids := [(-1)%Z]; checkpoint_every := 2 |}.

Definition batch : Batch := collate train_dataset.

(** A state to fall back on where a run raises (none of the runs below
    does). *)
Definition blank : State :=
  let m := Bare {| net := 0%Z; training := true; grad := [] |} in
  let manager := {| filename_prefix := ""; managed := RefGenerator;
                    stepped := []; saved_best := false |} in
  {| heap := {| program_prior_obj := m; program_generator_obj := m;
                question_reconstructor_obj := m;
                optimizer_obj := {| group_params := []; group_lr := 0%Q;
                                    group_weight_decay := 0%Q |};
                events := [] |};
     lr_scheduler := {| milestones := []; gamma := 0%Q; base_lr := 0%Q;
                        last_epoch := 0 |};
     batch_size := 0;
     train_dataloader := {| cy_dataset := []; cy_pending := [];
                            cy_saved := []; cy_replay := [] |};
     loaders_built := 0%nat;
     val_dataloader := {| dl_dataset := []; dl_batch_size := 0 |};
     program_generator_checkpoint_manager := manager;
     question_reconstructor_checkpoint_manager := manager;
     summary_writer := {| written := []; closed := false |};
     calls := [] |}.

(** The state after the first [k] iterations of the run. *)
Definition state_after (k : nat) : State :=
  match after_iterations args config train_dataset val_dataset k with
  | Ok s => s
  | Raise _ => blank
  end.

(** The state the whole script ends in. *)
Definition final_state : State :=
  match main args config train_dataset val_dataset with
  | Ok s => s
  | Raise _ => blank
  end.

End Demo.

(** ** Further vocabulary

    Rounds of the cyclic loader, bounds on its batches, the shape of the
    optimizer history, gradients and summaries. *)

(** [n] successive [next(train_dataloader)], with the loader they leave. *)
Fixpoint draws (n : nat) (c : Cycle) : Result (list Batch * Cycle) :=
  match n with
  | O => Ok ([], c)
  | S n' =>
      '(batch, c') <- next c ;;
      '(batches, c'') <- draws n' c' ;;
      Ok (batch :: batches, c'')
  end.

(** Fetching every index batch of a pass, in order. *)
Fixpoint fetch_all (dataset : list Example) (index_batches : list (list nat))
  : Result (list Batch) :=
  match index_batches with
  | [] => Ok []
  | indices :: rest =>
      b <- fetch dataset indices ;;
      bs <- fetch_all dataset rest ;;
      Ok (b :: bs)
  end.

(** A batch with between 1 and [n] examples, all three columns of the same
    length. *)
Definition sized (n : nat) (b : Batch) : Prop :=
  (1 <= length (question b) <= n)%nat /\
  length (program b) = length (question b) /\
  length (supervision b) = length (question b).

(** A cyclic loader all of whose batches, fetched or still to fetch, have
    between 1 and [n] examples. *)
Definition batches_within (n : nat) (c : Cycle) : Prop :=
  Forall (fun indices => (1 <= length indices <= n)%nat) (cy_pending c) /\
  Forall (sized n) (cy_saved c) /\
  Forall (sized n) (cy_replay c).

Section Further.

Context {num : Type} {scalar : Scalar num} {framework : Framework num}.

(** An optimizer history made of whole turns: zero_grad, backward, step. *)
Inductive grouped : list (@Event num) -> Prop :=
| grouped_nil : grouped []
| grouped_turn (objective lr : num) (rest : list (@Event num)) :
    grouped rest ->
    grouped (EvZeroGrad :: EvBackward objective :: EvStep lr :: rest).

(** The gradients accumulated on the parameters of a model. *)
Definition grad_of (h : Heap) (r : ModelRef) : list num :=
  grad (handle_module (deref h r)).

Definition same_grads (h h' : Heap) : Prop :=
  forall r, grad_of h' r = grad_of h r.

(** The three entries a training iteration writes to the summary. *)
Definition training_summaries (config : Config num) (iteration : Z)
           (batch : Batch) (s : State) : list (@Summary num) :=
  [AddScalars "loss" (loss (iteration_output config batch (heap s))) iteration;
   AddScalarInt "schedulers/batch_size" (batch_size s) iteration;
   AddScalar "schedulers/lr" (group_lr (optimizer_obj (heap s))) iteration].

(** The three entries a validation block writes to the summary. *)
Definition metric_summaries (iteration : Z) (pg qr : Metrics num)
  : list (@Summary num) :=
  [AddScalars "metrics/BLEU"
              [("program_generator", BLEU pg);
               ("question_reconstructor", BLEU qr)] iteration;
   AddScalars "metrics/perplexity"
              [("program_generator", perplexity pg);
               ("question_reconstructor", perplexity qr)] iteration;
   AddScalars "metrics/sequence_accuracy"
              [("program_generator", sequence_accuracy pg);
               ("question_reconstructor", sequence_accuracy qr)] iteration].

End Further.

(** *** Further concrete inputs *)

Module DemoMore.

Import Stdlib.QArith.QArith.
Import Demo.
Local Open Scope Z_scope.

(** The toy networks with a sampler that yields nothing. *)
Definition toy_dry : Framework Q :=
  {| Net := Z;
     StateDict := Z;
     init_net := fun _ _ => 0%Z;
     torch_load := fun _ => 7%Z;
     load_state_dict := fun _ state => state;
     forward := @forward Q toy;
     get_metrics := @get_metrics Q toy;
     adam_update := @adam_update Q toy;
     sampler := fun _ => [];
     vocabulary := @vocabulary Q toy;
     scheduler_epoch0 := 0%Z |}.

(** The toy networks, except that they predict no row at all. *)
Definition toy_short : Framework Q :=
  {| Net := Z;
     StateDict := Z;
     init_net := fun _ _ => 0%Z;
     torch_load := fun _ => 7%Z;
     load_state_dict := fun _ state => state;
     forward := fun r n _ inputs _ _ =>
       ({| out_predictions := [];
           out_loss := map (fun _ => match r with
                                     | RefGenerator => 2%Q
                                     | _ => 1%Q
                                     end) inputs |}, n);
     get_metrics := @get_metrics Q toy;
     adam_update := @adam_update Q toy;
     sampler := @sampler Q toy;
     vocabulary := @vocabulary Q toy;
     scheduler_epoch0 := 0%Z |}.

(** Arguments that validate after every iteration. *)
Definition args_every : Args := {| gpu_ids := [(-1)%Z]; checkpoint_every := 1 |}.

(** Arguments with a validation period of zero. *)
Definition args_zero : Args := {| gpu_ids := [(-1)%Z]; checkpoint_every := 0 |}.

(** A config that asks for no iteration. *)
Definition config_idle : Config Q :=
  {| initial_bs := initial_bs config;
     bs_steps := bs_steps config;
     bs_gamma := bs_gamma config;
     initial_lr := initial_lr config;
     lr_steps := lr_steps config;
     lr_gamma := lr_gamma config;
     weight_decay := weight_decay config;
     ssl_alpha := ssl_alpha config;
     num_iterations := 0;
     prior_checkpoint := prior_checkpoint config |}.

(** The state right after set-up, for given arguments and validation set. *)
Definition state0 (a : Args) (val : list Example) : State :=
  match setup a config train_dataset val with
  | Ok s => s
  | Raise _ => blank
  end.

(** The run with an empty validation set, after [k] iterations. *)
Definition state_no_val (k : nat) : State :=
  match after_iterations args config train_dataset [] k with
  | Ok s => s
  | Raise _ => blank
  end.

(** A vocabulary for the qualitative examples. *)
Definition token (index : Z) (namespace : string) : string :=
  if (index =? 1)%Z then "one" else "other".

(** The same vocabulary, except that it would show the padding index. *)
Definition token_showing_padding (index : Z) (namespace : string) : string :=
  if (index =? 0)%Z then "<pad>" else token index namespace.

(** An output dict with two predicted rows per tensor. *)
Definition output2 : @IterationOutput Q :=
  {| predictions := [("__pg", [[1; 0]; [2; 0]]); ("__qr", [[0; 1]; [0; 2]])];
     loss := [] |}.

End DemoMore.

(** * Properties *)

(** ** [bisect_right] on sorted milestones *)

Lemma is_sorted_tail (x : Z) (l : list Z) :
  is_sorted (x :: l) = true -> is_sorted l = true.
Proof.
  destruct l as [|y l]; [reflexivity|].
  cbn [is_sorted]. intros H. apply andb_true_iff in H. apply H.
Qed.

Lemma is_sorted_head (x : Z) (l : list Z) :
  is_sorted (x :: l) = true -> Forall (fun y => x <= y) l.
Proof.
  revert x. induction l as [|y l IH]; intros x H; [constructor|].
  cbn [is_sorted] in H. apply andb_true_iff in H. destruct H as [Hxy Hs].
  apply Z.leb_le in Hxy. constructor; [exact Hxy|].
  specialize (IH y Hs).
  eapply Forall_impl; [|exact IH]. cbn. intros; lia.
Qed.

Lemma is_sorted_nth (a : list Z) :
  is_sorted a = true ->
  forall i j, (i <= j < length a)%nat -> nth i a 0 <= nth j a 0.
Proof.
  induction a as [|x a IH]; intros Hs i j Hij; [cbn in Hij; lia|].
  destruct j as [|j].
  - assert (i = 0%nat) by lia. subst. lia.
  - destruct i as [|i].
    + cbn [nth]. pose proof (is_sorted_head _ _ Hs) as Hall.
      rewrite Forall_forall in Hall. apply Hall. apply nth_In.
      cbn in Hij. lia.
    + cbn [nth]. apply IH; [eapply is_sorted_tail; eassumption|].
      cbn in Hij. lia.
Qed.

Lemma bisect_loop_spec (a : list Z) (x : Z) :
  is_sorted a = true ->
  forall turns lo hi,
    (lo <= hi <= length a)%nat ->
    (hi - lo <= turns)%nat ->
    (forall i, (i < lo)%nat -> nth i a 0 <= x) ->
    (forall i, (hi <= i < length a)%nat -> x < nth i a 0) ->
    let r := bisect_loop turns a x lo hi in
    (r <= length a)%nat /\
    (forall i, (i < r)%nat -> nth i a 0 <= x) /\
    (forall i, (r <= i < length a)%nat -> x < nth i a 0).
Proof.
  intros Hs. induction turns as [|turns IH]; intros lo hi Hb Ht Hlo Hhi.
  - cbn. assert (hi = lo) by lia. subst. repeat split; auto. lia.
  - cbn [bisect_loop]. destruct (Nat.ltb lo hi) eqn:Hlt.
    + apply Nat.ltb_lt in Hlt.
      assert (Hmid : (lo <= Nat.div (lo + hi) 2 < hi)%nat).
      { pose proof (Nat.div_mod_eq (lo + hi) 2) as E.
        pose proof (Nat.mod_upper_bound (lo + hi) 2 ltac:(lia)). lia. }
      set (mid := Nat.div (lo + hi) 2) in *.
      destruct (x <? nth mid a 0) eqn:Hx.
      * apply Z.ltb_lt in Hx. apply IH; try lia; auto.
        intros i Hi.
        pose proof (is_sorted_nth a Hs mid i ltac:(lia)). lia.
      * apply Z.ltb_ge in Hx. apply IH; try lia; auto.
        intros i Hi.
        pose proof (is_sorted_nth a Hs i mid ltac:(lia)). lia.
    + apply Nat.ltb_ge in Hlt. assert (hi = lo) by lia. subst.
      repeat split; auto. lia.
Qed.

Lemma count_at_partition_point (a : list Z) (x : Z) :
  forall r,
    (r <= length a)%nat ->
    (forall i, (i < r)%nat -> nth i a 0 <= x) ->
    (forall i, (r <= i < length a)%nat -> x < nth i a 0) ->
    length (filter (fun m => m <=? x) a) = r.
Proof.
  induction a as [|y a IH]; intros r Hr Hlow Hhigh.
  - cbn in *. lia.
  - cbn [filter]. destruct r as [|r].
    + pose proof (Hhigh 0%nat ltac:(cbn; lia)) as H0. cbn in H0.
      destruct (y <=? x) eqn:E; [apply Z.leb_le in E; lia|].
      apply IH; [lia| intros; lia |].
      intros i Hi. apply (Hhigh (S i)). cbn. lia.
    + pose proof (Hlow 0%nat ltac:(lia)) as H0. cbn in H0.
      destruct (y <=? x) eqn:E; [|apply Z.leb_gt in E; lia].
      cbn [length]. f_equal. apply IH.
      * cbn in Hr. lia.
      * intros i Hi. apply (Hlow (S i)). lia.
      * intros i Hi. apply (Hhigh (S i)). cbn. lia.
Qed.

(** On sorted milestones [bisect_right] counts the milestones passed. *)
Lemma bisect_right_counts (a : list Z) (x : Z) :
  is_sorted a = true ->
  bisect_right a x = length (filter (fun m => m <=? x) a).
Proof.
  intros Hs. symmetry.
  assert (Hspec := bisect_loop_spec a x Hs (length a) 0%nat (length a)).
  cbv zeta in Hspec.
  destruct Hspec as (Hr & Hlow & Hhigh); try lia.
  now apply count_at_partition_point.
Qed.

(** ** The cyclic data loader never runs dry *)

Lemma batch_sampler_Forall {A : Type} (P : A -> Prop) (size : nat) :
  forall source current,
    Forall P current -> Forall P source ->
    Forall (Forall P) (batch_sampler size current source).
Proof.
  induction source as [|x source IH]; intros current Hc Hs; cbn.
  - destruct current; [constructor|]. constructor; [exact Hc|constructor].
  - inversion Hs as [|? ? Hx Hrest]; subst.
    assert (Forall P (current ++ [x])).
    { apply Forall_app. split; [exact Hc|]. constructor; [exact Hx|constructor]. }
    destruct (Nat.eqb _ size).
    + constructor; [assumption|]. apply IH; [constructor|assumption].
    + apply IH; assumption.
Qed.

Lemma batch_sampler_nonempty {A : Type} (size : nat) :
  forall (source current : list A),
    current <> [] \/ source <> [] ->
    batch_sampler size current source <> [].
Proof.
  induction source as [|x source IH]; intros current H; cbn.
  - destruct current; [destruct H; congruence|discriminate].
  - destruct (Nat.eqb _ size); [discriminate|].
    apply IH. left. destruct current; discriminate.
Qed.

Lemma batch_sampler_sizes {A : Type} (size : nat) :
  (1 <= size)%nat ->
  forall (source current : list A),
    (length current < size)%nat ->
    Forall (fun l => (1 <= length l <= size)%nat)
           (batch_sampler size current source).
Proof.
  intros Hsize. induction source as [|x source IH]; intros current Hc; cbn.
  - destruct current as [|y current]; [constructor|].
    constructor; [cbn in *; lia|constructor].
  - assert (Hlen : length (current ++ [x]) = S (length current))
      by (rewrite length_app; cbn; lia).
    destruct (Nat.eqb (length (current ++ [x])) size) eqn:E.
    + apply Nat.eqb_eq in E. constructor; [lia|]. apply IH. cbn. lia.
    + apply Nat.eqb_neq in E. apply IH. lia.
Qed.

Lemma batch_sampler_concat {A : Type} (size : nat) :
  forall (source current : list A),
    concat (batch_sampler size current source) = current ++ source.
Proof.
  induction source as [|x source IH]; intros current; cbn.
  - destruct current; cbn; [reflexivity|]. now rewrite !app_nil_r.
  - destruct (Nat.eqb _ size); cbn; rewrite IH; [|now rewrite <- app_assoc].
    cbn. now rewrite <- app_assoc.
Qed.

(** Every index batch but the last is full. *)
Lemma batch_sampler_full {A : Type} (size : nat) :
  (1 <= size)%nat ->
  forall (source current : list A) (front : list (list A)) (chunk : list A)
         (back : list (list A)),
    (length current < size)%nat ->
    batch_sampler size current source = front ++ chunk :: back ->
    back <> [] ->
    length chunk = size.
Proof.
  intros Hsize.
  induction source as [|x source IH]; intros current front chunk back Hc; cbn.
  - destruct current as [|y current].
    + destruct front; discriminate.
    + destruct front as [|f front]; cbn.
      * intros [= _ <-]. congruence.
      * intros [= _ H]. destruct front; discriminate.
  - assert (Hlen : length (current ++ [x]) = S (length current))
      by (rewrite length_app; cbn; lia).
    destruct (Nat.eqb (length (current ++ [x])) size) eqn:E.
    + apply Nat.eqb_eq in E. destruct front as [|f front]; cbn.
      * intros [= <- _] _. exact E.
      * intros [= _ H]. apply (IH [] front chunk back); [cbn; lia|exact H].
    + apply Nat.eqb_neq in E. apply IH. lia.
Qed.

Lemma getitems_in_range (dataset : list Example) (indices : list nat) :
  Forall (fun i => (i < length dataset)%nat) indices ->
  exists items, getitems dataset indices = Ok items.
Proof.
  induction 1 as [|i indices Hi _ IH]; cbn.
  - eexists; reflexivity.
  - unfold getitem. destruct (nth_error dataset i) eqn:E.
    + destruct IH as [items ->]. cbn. eexists; reflexivity.
    + apply nth_error_None in E. lia.
Qed.

Lemma next_deliverable (c : Cycle) :
  deliverable c ->
  exists batch c',
    next c = Ok (batch, c') /\ deliverable c' /\ cy_dataset c' = cy_dataset c.
Proof.
  intros [Hvalid Halive]. unfold next.
  destruct (cy_pending c) as [|indices rest] eqn:Hp.
  - destruct Halive as [Hn|Hsaved]; [congruence|].
    destruct (cy_replay c) as [|b replay].
    + destruct (cy_saved c) as [|b saved] eqn:Hs; [congruence|].
      do 2 eexists. split; [reflexivity|]. split; [|reflexivity].
      split; cbn; [constructor|right; discriminate].
    + do 2 eexists. split; [reflexivity|]. split; [|reflexivity].
      split; cbn; [constructor|right; assumption].
  - inversion Hvalid as [|? ? Hi Hrest]; subst.
    unfold fetch. destruct (getitems_in_range _ _ Hi) as [items ->]. cbn.
    do 2 eexists. split; [reflexivity|]. split; [|reflexivity].
    split; cbn; [exact Hrest|]. right. destruct (cy_saved c); discriminate.
Qed.

Lemma cycle_deliverable (dataset : list Example) (size : Z) (drawn : list nat) :
  drawn <> [] ->
  Forall (fun i => (i < length dataset)%nat) drawn ->
  deliverable (cycle {| dl_dataset := dataset; dl_batch_size := size |} drawn).
Proof.
  intros Hne Hvalid. split; cbn.
  - apply batch_sampler_Forall; [constructor|exact Hvalid].
  - left. apply batch_sampler_nonempty. right. exact Hne.
Qed.

Lemma draw_deliverable (n : nat) :
  forall c, deliverable c ->
            exists batches, draw n c = Ok batches /\ length batches = n.
Proof.
  induction n as [|n IH]; intros c D; cbn [draw].
  - exists []. split; reflexivity.
  - destruct (next_deliverable c D) as (batch & c' & -> & D' & _). cbn [bind].
    destruct (IH c' D') as (batches & -> & Hlen). cbn [bind].
    exists (batch :: batches). split; [reflexivity|]. cbn. now rewrite Hlen.
Qed.

(** ** Frame properties of the heap operations *)

Section Properties.

Context {num : Type} {scalar : Scalar num} {framework : Framework num}.

Local Abbreviation Config := (Config num).
Local Abbreviation Call := (@Call num).
Local Abbreviation IterationOutput := (@IterationOutput num).

Lemma deref_assign (h : Heap) (r r' : ModelRef) (v : Handle) :
  deref (assign h r v) r' = if ModelRef_eqb r r' then v else deref h r'.
Proof. destruct r, r'; reflexivity. Qed.

Lemma optimizer_assign (h : Heap) (r : ModelRef) (v : Handle) :
  optimizer_obj (assign h r v) = optimizer_obj h.
Proof. destruct r; reflexivity. Qed.

Lemma events_assign (h : Heap) (r : ModelRef) (v : Handle) :
  events (assign h r v) = events h.
Proof. destruct r; reflexivity. Qed.

Lemma handle_module_map (f : Module -> Module) (x : Handle) :
  handle_module (handle_map f x) = f (handle_module x).
Proof. destruct x; reflexivity. Qed.

Lemma handle_training_map (f : Module -> Module) (x : Handle) :
  keeps_mode f -> handle_training (handle_map f x) = handle_training x.
Proof. intros Hf. destruct x; cbn; [apply Hf|reflexivity]. Qed.

Lemma ModelRef_eqb_eq (a b : ModelRef) : ModelRef_eqb a b = true <-> a = b.
Proof. destruct a, b; cbn; split; congruence. Qed.

Lemma same_modes_refl (h : Heap) : same_modes h h.
Proof. split; [intros r; split|]; reflexivity. Qed.

Lemma same_modes_trans (h1 h2 h3 : Heap) :
  same_modes h1 h2 -> same_modes h2 h3 -> same_modes h1 h3.
Proof.
  intros [H12 O12] [H23 O23]. split.
  - intros r. destruct (H12 r), (H23 r). split; congruence.
  - congruence.
Qed.

Lemma same_nets_trans (h1 h2 h3 : Heap) :
  same_nets h1 h2 -> same_nets h2 h3 -> same_nets h1 h3.
Proof. intros H12 H23 r. rewrite H23. apply H12. Qed.

Lemma update_module_modes (f : Module -> Module) (h : Heap) (r : ModelRef) :
  keeps_mode f -> same_modes h (update_module f h r).
Proof.
  intros Hf. unfold update_module. split.
  - intros r'. unfold flag_of, mode_of. rewrite deref_assign.
    destruct (ModelRef_eqb r r') eqn:E; [|split; reflexivity].
    apply ModelRef_eqb_eq in E. subst r'.
    rewrite handle_training_map by exact Hf. rewrite handle_module_map.
    split; [reflexivity|apply Hf].
  - apply optimizer_assign.
Qed.

Lemma update_module_nets (f : Module -> Module) (h : Heap) (r : ModelRef) :
  keeps_net f -> same_nets h (update_module f h r).
Proof.
  intros Hf r'. unfold update_module, net_of. rewrite deref_assign.
  destruct (ModelRef_eqb r r') eqn:E; [|reflexivity].
  apply ModelRef_eqb_eq in E. subst r'.
  rewrite handle_module_map. apply Hf.
Qed.

Lemma update_module_prior (f : Module -> Module) (h : Heap) (r : ModelRef) :
  r <> RefPrior ->
  program_prior_obj (update_module f h r) = program_prior_obj h.
Proof. intros Hr. destruct r; [congruence|reflexivity|reflexivity]. Qed.

Lemma update_module_events (f : Module -> Module) (h : Heap) (r : ModelRef) :
  events (update_module f h r) = events h.
Proof. apply events_assign. Qed.

(** Folding a family of module updates over a list of references. *)
Lemma fold_update_modes (f : ModelRef -> Module -> Module) (l : list ModelRef) :
  (forall r, keeps_mode (f r)) ->
  forall h, same_modes h (fold_left (fun h' r => update_module (f r) h' r) l h).
Proof.
  intros Hf. induction l as [|r l IH]; intros h; cbn.
  - apply same_modes_refl.
  - eapply same_modes_trans; [apply update_module_modes; apply Hf|apply IH].
Qed.

Lemma fold_update_nets (f : ModelRef -> Module -> Module) (l : list ModelRef) :
  (forall r, keeps_net (f r)) ->
  forall h, same_nets h (fold_left (fun h' r => update_module (f r) h' r) l h).
Proof.
  intros Hf. induction l as [|r l IH]; intros h; cbn.
  - intros r; reflexivity.
  - eapply same_nets_trans; [apply update_module_nets; apply Hf|apply IH].
Qed.

Lemma fold_update_prior (f : ModelRef -> Module -> Module) (l : list ModelRef) :
  ~ In RefPrior l ->
  forall h,
    program_prior_obj (fold_left (fun h' r => update_module (f r) h' r) l h)
    = program_prior_obj h.
Proof.
  induction l as [|r l IH]; intros Hl h; cbn; [reflexivity|].
  rewrite IH by (intros H; apply Hl; right; exact H).
  apply update_module_prior. intros ->. apply Hl. left. reflexivity.
Qed.

Lemma fold_update_events (f : ModelRef -> Module -> Module) (l : list ModelRef) :
  forall h,
    events (fold_left (fun h' r => update_module (f r) h' r) l h) = events h.
Proof.
  induction l as [|r l IH]; intros h; cbn; [reflexivity|].
  rewrite IH. apply update_module_events.
Qed.

Lemma record_modes (h : Heap) (e : Event) : same_modes h (record h e).
Proof. split; [intros r; split|]; reflexivity. Qed.

Lemma record_nets (h : Heap) (e : Event) : same_nets h (record h e).
Proof. intros r; destruct r; reflexivity. Qed.

(** [zero_grad]: gradients only. *)
Lemma zero_grad_modes (h : Heap) : same_modes h (zero_grad h).
Proof.
  unfold zero_grad.
  eapply same_modes_trans; [|apply record_modes].
  apply (fold_update_modes
           (fun _ m => {| net := net m; training := training m; grad := [] |})).
  intros r m; reflexivity.
Qed.

Lemma zero_grad_nets (h : Heap) : same_nets h (zero_grad h).
Proof.
  unfold zero_grad.
  eapply same_nets_trans; [|apply record_nets].
  apply (fold_update_nets
           (fun _ m => {| net := net m; training := training m; grad := [] |})).
  intros r m; reflexivity.
Qed.

Lemma zero_grad_events (h : Heap) :
  events (zero_grad h) = events h ++ [EvZeroGrad].
Proof.
  unfold zero_grad. cbn. f_equal.
  apply (fold_update_events
           (fun _ m => {| net := net m; training := training m; grad := [] |})).
Qed.

Lemma zero_grad_prior (h : Heap) :
  ~ In RefPrior (group_params (optimizer_obj h)) ->
  program_prior_obj (zero_grad h) = program_prior_obj h.
Proof.
  intros H. unfold zero_grad. cbn.
  now apply (fold_update_prior
               (fun _ m => {| net := net m; training := training m; grad := [] |})).
Qed.

(** [backward]: gradients only. *)
Lemma backward_modes (objective : num) (graph : list ModelRef) (h : Heap) :
  same_modes h (backward objective graph h).
Proof.
  unfold backward.
  eapply same_modes_trans; [|apply record_modes].
  apply (fold_update_modes
           (fun _ m => {| net := net m; training := training m;
                          grad := grad m ++ [objective] |})).
  intros r m; reflexivity.
Qed.

Lemma backward_events (objective : num) (graph : list ModelRef) (h : Heap) :
  events (backward objective graph h) = events h ++ [EvBackward objective].
Proof.
  unfold backward. cbn. f_equal.
  apply (fold_update_events
           (fun _ m => {| net := net m; training := training m;
                          grad := grad m ++ [objective] |})).
Qed.

Lemma backward_prior (objective : num) (graph : list ModelRef) (h : Heap) :
  ~ In RefPrior graph ->
  program_prior_obj (backward objective graph h) = program_prior_obj h.
Proof.
  intros H. unfold backward. cbn.
  now apply (fold_update_prior
               (fun _ m => {| net := net m; training := training m;
                              grad := grad m ++ [objective] |})).
Qed.

(** [optimizer.step()]: networks of the optimizer's parameters only. *)
Lemma optimizer_step_modes (h : Heap) : same_modes h (optimizer_step h).
Proof.
  unfold optimizer_step.
  eapply same_modes_trans; [|apply record_modes].
  apply (fold_update_modes
           (fun r m => {| net := adam_update (group_lr (optimizer_obj h))
                                             (group_weight_decay (optimizer_obj h))
                                             (grad m) r (net m);
                          training := training m; grad := grad m |})).
  intros r m; reflexivity.
Qed.

Lemma optimizer_step_events (h : Heap) :
  events (optimizer_step h)
  = events h ++ [EvStep (group_lr (optimizer_obj h))].
Proof.
  unfold optimizer_step. cbn. f_equal.
  apply (fold_update_events
           (fun r m => {| net := adam_update (group_lr (optimizer_obj h))
                                             (group_weight_decay (optimizer_obj h))
                                             (grad m) r (net m);
                          training := training m; grad := grad m |})).
Qed.

Lemma optimizer_step_prior (h : Heap) :
  ~ In RefPrior (group_params (optimizer_obj h)) ->
  program_prior_obj (optimizer_step h) = program_prior_obj h.
Proof.
  intros H. unfold optimizer_step. cbn.
  now apply (fold_update_prior
               (fun r m => {| net := adam_update (group_lr (optimizer_obj h))
                                                 (group_weight_decay (optimizer_obj h))
                                                 (grad m) r (net m);
                              training := training m; grad := grad m |})).
Qed.

(** A forward pass: the network of the called model only. *)
Lemma call_output (h : Heap) (r : ModelRef) (inputs : Tokens)
      (targets : option Tokens) (greedy : bool) :
  fst (call h r inputs targets greedy)
  = fst (forward r (net_of h r) (mode_of h r) inputs targets greedy).
Proof.
  unfold call, net_of, mode_of. destruct (forward _ _ _ _ _ _). reflexivity.
Qed.

Lemma call_net (h : Heap) (r r' : ModelRef) (inputs : Tokens)
      (targets : option Tokens) (greedy : bool) :
  net_of (snd (call h r inputs targets greedy)) r'
  = if ModelRef_eqb r r'
    then snd (forward r (net_of h r) (mode_of h r) inputs targets greedy)
    else net_of h r'.
Proof.
  unfold call, net_of, mode_of. destruct (forward _ _ _ _ _ _) as [out n]. cbn.
  unfold update_module. rewrite deref_assign.
  destruct (ModelRef_eqb r r'); [|reflexivity].
  now rewrite handle_module_map.
Qed.

Lemma call_modes (h : Heap) (r : ModelRef) (inputs : Tokens)
      (targets : option Tokens) (greedy : bool) :
  same_modes h (snd (call h r inputs targets greedy)).
Proof.
  unfold call. destruct (forward _ _ _ _ _ _) as [out n]. cbn.
  apply update_module_modes. intros m; reflexivity.
Qed.

Lemma call_events (h : Heap) (r : ModelRef) (inputs : Tokens)
      (targets : option Tokens) (greedy : bool) :
  events (snd (call h r inputs targets greedy)) = events h.
Proof.
  unfold call. destruct (forward _ _ _ _ _ _) as [out n]. cbn.
  apply update_module_events.
Qed.

Lemma call_prior (h : Heap) (r : ModelRef) (inputs : Tokens)
      (targets : option Tokens) (greedy : bool) :
  r <> RefPrior ->
  program_prior_obj (snd (call h r inputs targets greedy)) = program_prior_obj h.
Proof.
  intros Hr. unfold call. destruct (forward _ _ _ _ _ _) as [out n]. cbn.
  now apply update_module_prior.
Qed.

(** ** [do_iteration] as the script calls it *)

Lemma do_iteration_script (config : Config) (batch : Batch)
      (prior : option ModelRef) (optimizer : option OptimizerRef) (h : Heap) :
  (flag_of h RefGenerator = true -> optimizer = Some RefOptimizer) ->
  exists h',
    do_iteration config batch prior RefGenerator RefReconstructor optimizer h
    = Ok (iteration_output config batch h, h') /\
    same_modes h h' /\
    events h' = events h ++ iteration_events config batch h /\
    (~ In RefPrior (group_params (optimizer_obj h)) ->
     program_prior_obj h' = program_prior_obj h).
Proof.
  intros Hopt. unfold do_iteration.
  (* the heap after the first guard *)
  set (h1 := if flag_of h RefGenerator then zero_grad h else h).
  assert (Hguard1 :
            (if handle_training (deref h RefGenerator)
             then match optimizer with
                  | None => Raise AttributeError
                  | Some RefOptimizer => Ok (zero_grad h)
                  end
             else Ok h) = Ok h1).
  { subst h1. fold (flag_of h RefGenerator).
    destruct (flag_of h RefGenerator); [|reflexivity].
    rewrite (Hopt eq_refl). reflexivity. }
  rewrite Hguard1. cbn [bind].
  assert (Hm1 : same_modes h h1).
  { subst h1. destruct (flag_of h RefGenerator);
      [apply zero_grad_modes|apply same_modes_refl]. }
  assert (Hn1 : same_nets h h1).
  { subst h1. destruct (flag_of h RefGenerator);
      [apply zero_grad_nets|intros r; reflexivity]. }
  assert (He1 : events h1
                = events h ++ (if flag_of h RefGenerator then [EvZeroGrad] else [])).
  { subst h1. destruct (flag_of h RefGenerator);
      [apply zero_grad_events|now rewrite app_nil_r]. }
  assert (Hp1 : ~ In RefPrior (group_params (optimizer_obj h)) ->
                program_prior_obj h1 = program_prior_obj h).
  { subst h1. destruct (flag_of h RefGenerator);
      [apply zero_grad_prior|reflexivity]. }
  clearbody h1. clear Hguard1.
  (* first forward pass *)
  destruct (call h1 RefGenerator (question batch) (Some (program batch)) false)
    as [o2 h2] eqn:E2.
  assert (Ho2 : o2 = fst (generator_pass batch h)).
  { change o2 with (fst (o2, h2)). rewrite <- E2, call_output.
    unfold generator_pass. rewrite (Hn1 RefGenerator).
    destruct Hm1 as [Hm1 _]. now rewrite (proj2 (Hm1 RefGenerator)). }
  assert (Hh2 : h2 = snd (call h1 RefGenerator (question batch)
                               (Some (program batch)) false))
    by now rewrite E2.
  assert (Hm2 : same_modes h h2).
  { eapply same_modes_trans; [exact Hm1|]. rewrite Hh2. apply call_modes. }
  assert (Hn2g : net_of h2 RefGenerator = snd (generator_pass batch h)).
  { rewrite Hh2, call_net. cbn [ModelRef_eqb]. unfold generator_pass.
    rewrite (Hn1 RefGenerator).
    destruct Hm1 as [Hm1 _]. now rewrite (proj2 (Hm1 RefGenerator)). }
  assert (Hn2r : net_of h2 RefReconstructor = net_of h RefReconstructor).
  { rewrite Hh2, call_net. cbn [ModelRef_eqb]. apply Hn1. }
  assert (He2 : events h2 = events h1) by (rewrite Hh2; apply call_events).
  assert (Hp2 : program_prior_obj h2 = program_prior_obj h1)
    by (rewrite Hh2; apply call_prior; discriminate).
  clear E2 Hh2.
  (* greedy decoding *)
  destruct (call h2 RefGenerator (question batch) None true) as [o3 h3] eqn:E3.
  assert (Ho3 : o3 = fst (greedy_pass batch h)).
  { change o3 with (fst (o3, h3)). rewrite <- E3, call_output.
    unfold greedy_pass. rewrite Hn2g.
    destruct Hm2 as [Hm2 _]. now rewrite (proj2 (Hm2 RefGenerator)). }
  assert (Hh3 : h3 = snd (call h2 RefGenerator (question batch) None true))
    by now rewrite E3.
  assert (Hm3 : same_modes h h3).
  { eapply same_modes_trans; [exact Hm2|]. rewrite Hh3. apply call_modes. }
  assert (Hn3r : net_of h3 RefReconstructor = net_of h RefReconstructor).
  { rewrite Hh3, call_net. cbn [ModelRef_eqb]. exact Hn2r. }
  assert (He3 : events h3 = events h2) by (rewrite Hh3; apply call_events).
  assert (Hp3 : program_prior_obj h3 = program_prior_obj h2)
    by (rewrite Hh3; apply call_prior; discriminate).
  clear E3 Hh3.
  (* reconstruction *)
  destruct (call h3 RefReconstructor (out_predictions o3)
                 (Some (question batch)) false) as [o4 h4] eqn:E4.
  assert (Ho4 : o4 = fst (reconstructor_pass batch h)).
  { change o4 with (fst (o4, h4)). rewrite <- E4, call_output.
    unfold reconstructor_pass. rewrite Hn3r, Ho3.
    destruct Hm3 as [Hm3 _]. now rewrite (proj2 (Hm3 RefReconstructor)). }
  assert (Hh4 : h4 = snd (call h3 RefReconstructor (out_predictions o3)
                               (Some (question batch)) false))
    by now rewrite E4.
  assert (Hm4 : same_modes h h4).
  { eapply same_modes_trans; [exact Hm3|]. rewrite Hh4. apply call_modes. }
  assert (He4 : events h4 = events h3) by (rewrite Hh4; apply call_events).
  assert (Hp4 : program_prior_obj h4 = program_prior_obj h3)
    by (rewrite Hh4; apply call_prior; discriminate).
  clear E4 Hh4.
  (* the objective *)
  subst o2 o4.
  fold (supervision_term batch h). fold (reconstruction_term batch h).
  fold (joint_objective config batch h).
  fold (flag_of h4 RefGenerator). fold (flag_of h4 RefReconstructor).
  pose proof Hm4 as [Hflags Hopt4].
  rewrite (proj1 (Hflags RefGenerator)), (proj1 (Hflags RefReconstructor)).
  unfold iteration_events.
  destruct (flag_of h RefGenerator) eqn:Fg; cbn [andb].
  - rewrite (Hopt eq_refl).
    destruct (flag_of h RefReconstructor) eqn:Fr; cbn [bind].
    + eexists. split; [reflexivity|]. split; [|split].
      * eapply same_modes_trans; [exact Hm4|].
        eapply same_modes_trans; [apply backward_modes|apply optimizer_step_modes].
      * rewrite optimizer_step_events, backward_events.
        rewrite (proj2 (backward_modes _ _ _)), Hopt4.
        rewrite He4, He3, He2, He1. now rewrite <- !app_assoc.
      * intros Hprior. rewrite optimizer_step_prior.
        -- rewrite backward_prior.
           ++ rewrite Hp4, Hp3, Hp2. now apply Hp1.
           ++ cbn. intros [H|[H|[]]]; discriminate.
        -- rewrite (proj2 (backward_modes _ _ _)), Hopt4. exact Hprior.
    + eexists. split; [reflexivity|]. split; [exact Hm4|]. split.
      * rewrite He4, He3, He2, He1. reflexivity.
      * intros Hprior. rewrite Hp4, Hp3, Hp2. now apply Hp1.
  - cbn [bind]. eexists. split; [reflexivity|]. split; [exact Hm4|]. split.
    + rewrite He4, He3, He2, He1. reflexivity.
    + intros Hprior. rewrite Hp4, Hp3, Hp2. now apply Hp1.
Qed.

(** ** The validation block *)

Lemma set_mode_flag (mode : bool) (r r' : ModelRef) (h : Heap) :
  flag_of (set_mode mode r h) r' = (if ModelRef_eqb r r' then mode else flag_of h r')
  /\ mode_of (set_mode mode r h) r'
     = (if ModelRef_eqb r r' then mode else mode_of h r').
Proof.
  unfold flag_of, mode_of, set_mode. rewrite deref_assign.
  destruct (ModelRef_eqb r r'); [|split; reflexivity].
  destruct (deref h r); split; reflexivity.
Qed.

Lemma set_mode_optimizer (mode : bool) (r : ModelRef) (h : Heap) :
  optimizer_obj (set_mode mode r h) = optimizer_obj h.
Proof. apply optimizer_assign. Qed.

Lemma set_mode_events (mode : bool) (r : ModelRef) (h : Heap) :
  events (set_mode mode r h) = events h.
Proof. apply events_assign. Qed.

Lemma set_mode_prior (mode : bool) (r : ModelRef) (h : Heap) :
  r <> RefPrior -> program_prior_obj (set_mode mode r h) = program_prior_obj h.
Proof. destruct r; [congruence|reflexivity|reflexivity]. Qed.

Lemma handle_get_metrics_modes (r : ModelRef) (h : Heap) :
  same_modes h (snd (handle_get_metrics r h)).
Proof.
  unfold handle_get_metrics. destruct (get_metrics _ _) as [metrics n]. cbn.
  apply update_module_modes. intros m; reflexivity.
Qed.

Lemma handle_get_metrics_events (r : ModelRef) (h : Heap) :
  events (snd (handle_get_metrics r h)) = events h.
Proof.
  unfold handle_get_metrics. destruct (get_metrics _ _) as [metrics n]. cbn.
  apply update_module_events.
Qed.

Lemma handle_get_metrics_prior (r : ModelRef) (h : Heap) :
  r <> RefPrior ->
  program_prior_obj (snd (handle_get_metrics r h)) = program_prior_obj h.
Proof.
  intros Hr. unfold handle_get_metrics.
  destruct (get_metrics _ _) as [metrics n]. cbn.
  now apply update_module_prior.
Qed.

(** The validation loop never raises when both models are in evaluation
    mode; it leaves modes, optimizer, events and the prior alone and logs
    one validation call per batch. *)
Lemma validation_loop_eval (config : Config) (iteration : Z) :
  forall batches h last log,
    flag_of h RefGenerator = false ->
    flag_of h RefReconstructor = false ->
    exists h' last' new,
      validation_loop config iteration batches h last log
      = Ok (h', last', log ++ new) /\
      same_modes h h' /\
      events h' = events h /\
      (~ In RefPrior (group_params (optimizer_obj h)) ->
       program_prior_obj h' = program_prior_obj h) /\
      Forall validation_call new /\
      (batches <> [] \/ last <> None -> last' <> None).
Proof.
  induction batches as [|batch batches IH]; intros h last log Hg Hr.
  - exists h, last, []. cbn. rewrite app_nil_r.
    split; [reflexivity|]. split; [apply same_modes_refl|].
    split; [reflexivity|]. split; [reflexivity|]. split; [constructor|].
    intros [H|H]; congruence.
  - cbn [validation_loop].
    destruct (do_iteration_script config batch None None h) as
      (h1 & Hrun & Hm & He & Hp); [congruence|].
    rewrite Hrun. cbn [bind].
    pose proof Hm as [Hflags Hopt].
    destruct (IH h1 (Some (batch, iteration_output config batch h))
                 (log ++ [{| at_iteration := iteration; in_validation := true;
                             arg_program_prior := None; arg_optimizer := None;
                             generator_training :=
                               handle_training (deref h RefGenerator);
                             reconstructor_training :=
                               handle_training (deref h RefReconstructor);
                             arg_batch := batch;
                             returned := iteration_output config batch h |}]))
      as (h' & last' & new & Hloop & Hm' & He' & Hp' & Hnew & Hlast).
    { rewrite (proj1 (Hflags RefGenerator)). exact Hg. }
    { rewrite (proj1 (Hflags RefReconstructor)). exact Hr. }
    rewrite Hloop. rewrite <- app_assoc.
    do 3 eexists. split; [reflexivity|].
    split; [eapply same_modes_trans; eassumption|]. split.
    { rewrite He', He. unfold iteration_events. rewrite Hg. cbn.
      now rewrite app_nil_r. }
    split.
    { intros Hprior. rewrite Hp'; [now apply Hp|]. now rewrite Hopt. }
    split.
    { constructor; [|exact Hnew]. unfold validation_call.
      repeat split; [exact Hg|exact Hr]. }
    intros _. apply Hlast. right. discriminate.
Qed.

Lemma evaluation_heap_flags (s : State) :
  flag_of (evaluation_heap s) RefGenerator = false /\
  flag_of (evaluation_heap s) RefReconstructor = false.
Proof.
  unfold evaluation_heap. split.
  - rewrite (proj1 (set_mode_flag _ _ _ _)). cbn [ModelRef_eqb].
    now rewrite (proj1 (set_mode_flag _ _ _ _)).
  - now rewrite (proj1 (set_mode_flag _ _ _ _)).
Qed.

Lemma print_row_in_range (token : Z -> string -> string)
      (prefix namespace : string) (tensor : Tokens) (j : nat) :
  (j < length tensor)%nat ->
  exists line,
    print_row token prefix namespace tensor j
    = {| printed := [line]; raised := None |}.
Proof.
  intros Hj. unfold print_row.
  destruct (nth_error tensor j) as [row|] eqn:E.
  - eexists. reflexivity.
  - apply nth_error_None in E. lia.
Qed.

Lemma print_example_in_range (token : Z -> string -> string) (batch : Batch)
      (out : IterationOutput) (pg qr : Tokens) (j : nat) :
  dict_get (predictions out) "__pg" = Some pg ->
  dict_get (predictions out) "__qr" = Some qr ->
  (j < length (program batch))%nat ->
  (j < length pg)%nat ->
  (j < length (question batch))%nat ->
  (j < length qr)%nat ->
  raised (print_example token batch out j) = None /\
  length (printed (print_example token batch out j)) = 5%nat.
Proof.
  intros Hpg Hqr H1 H2 H3 H4. unfold print_example, print_prediction.
  rewrite Hpg, Hqr.
  destruct (print_row_in_range token "PROGRAM: " "programs" _ _ H1) as [l1 ->].
  destruct (print_row_in_range token "SAMPLED PROGRAM: " "programs" _ _ H2)
    as [l2 ->].
  destruct (print_row_in_range token "QUESTION: " "questions" _ _ H3) as [l3 ->].
  destruct (print_row_in_range token "RECONST QUESTION: " "questions" _ _ H4)
    as [l4 ->].
  split; reflexivity.
Qed.

Lemma print_examples_in_range (token : Z -> string -> string) (batch : Batch)
      (out : IterationOutput) (pg qr : Tokens) (js : list nat) :
  dict_get (predictions out) "__pg" = Some pg ->
  dict_get (predictions out) "__qr" = Some qr ->
  Forall (fun j => (j < length (program batch))%nat /\
                   (j < length pg)%nat /\
                   (j < length (question batch))%nat /\
                   (j < length qr)%nat) js ->
  raised (print_examples token batch out js) = None /\
  length (printed (print_examples token batch out js)) = (5 * length js)%nat.
Proof.
  intros Hpg Hqr. induction 1 as [|j js (H1 & H2 & H3 & H4) _ [IHr IHl]].
  - split; reflexivity.
  - cbn [print_examples].
    destruct (print_example_in_range token batch out pg qr j Hpg Hqr
                                     H1 H2 H3 H4) as [Hr Hl].
    unfold and_then. rewrite Hr. cbn [raised printed].
    split; [exact IHr|]. rewrite length_app, Hl, IHl. cbn [length]. lia.
Qed.

(** The dict [do_iteration] returns has both keys the loop reads. *)
Lemma print_examples_keys (token : Z -> string -> string) (batch : Batch)
      (out : IterationOutput) (pg qr : Tokens) (js : list nat) :
  dict_get (predictions out) "__pg" = Some pg ->
  dict_get (predictions out) "__qr" = Some qr ->
  raised (print_examples token batch out js) <> Some PrintKeyError.
Proof.
  intros Hpg Hqr. induction js as [|j js IH]; [discriminate|].
  cbn [print_examples]. unfold and_then at 1.
  destruct (raised (print_example token batch out j)) as [e|] eqn:E;
    [|exact IH].
  rewrite E. intros [= ->]. revert E.
  unfold print_example, print_prediction, and_then, print_row.
  rewrite Hpg, Hqr.
  destruct (nth_error (program batch) j); cbn; [|discriminate].
  destruct (nth_error pg j); cbn; [|discriminate].
  destruct (nth_error (question batch) j); cbn; [|discriminate].
  destruct (nth_error qr j); cbn; discriminate.
Qed.

(** The batches of the validation loader are rectangular. *)
Lemma val_batches_rectangular (loader : DataLoader) (b : Batch) :
  In b (val_batches loader) -> length (program b) = length (question b).
Proof.
  unfold val_batches. intros Hin. apply in_map_iff in Hin.
  destruct Hin as (items & <- & _). cbn. now rewrite !length_map.
Qed.

(** The binding of [batch] and [__iteration_output_dict] the validation loop
    leaves: the one on entry if there was no batch, else the last batch and
    what [do_iteration] returned on it. *)
Lemma validation_loop_last (config : Config) (iteration : Z) :
  forall (batches : list Batch) (h : Heap)
         (last : option (Batch * IterationOutput)) (log : list Call)
         (h' : Heap) (last' : option (Batch * IterationOutput))
         (log' : list Call),
    flag_of h RefGenerator = false ->
    flag_of h RefReconstructor = false ->
    validation_loop config iteration batches h last log = Ok (h', last', log') ->
    (batches = [] /\ last' = last) \/
    exists front b hb,
      batches = front ++ [b] /\
      last' = Some (b, iteration_output config b hb).
Proof.
  induction batches as [|batch batches IH];
    intros h last log h' last' log' Hg Hr Hrun.
  - left. cbn in Hrun. injection Hrun as _ <- _. split; reflexivity.
  - right. cbn [validation_loop] in Hrun.
    destruct (do_iteration_script config batch None None h) as
      (h1 & Hcall & [Hflags _] & _); [congruence|].
    rewrite Hcall in Hrun. cbn [bind] in Hrun.
    apply IH in Hrun.
    + destruct Hrun as [(-> & ->)|(front & b & hb & -> & ->)].
      * exists [], batch, h. split; reflexivity.
      * exists (batch :: front), b, hb. split; reflexivity.
    + rewrite (proj1 (Hflags RefGenerator)). exact Hg.
    + rewrite (proj1 (Hflags RefReconstructor)). exact Hr.
Qed.

(** The validation block either completes as described by [validated], or
    stops in the loop of qualitative examples: at a row index out of range
    of a prediction (or of the training batch's programs, when the
    validation loader had no batch), or at the read of
    [__iteration_output_dict], which only the validation loop binds. *)
Lemma validate_cases (config : Config) (iteration : Z) (batch : Batch)
      (s : State) :
  (val_batches (val_dataloader s) = [] /\
   0 < Z.min (Z.of_nat (length (question batch))) 20 /\
   ((program batch = [] /\
     validate config iteration batch s = Raise IndexError) \/
    (program batch <> [] /\
     validate config iteration batch s = Raise NameError))) \/
  (exists front b hb,
      val_batches (val_dataloader s) = front ++ [b] /\
      raised (qualitative_examples vocabulary b
                                   (iteration_output config b hb))
      = Some PrintIndexError /\
      validate config iteration batch s = Raise IndexError) \/
  exists s', validate config iteration batch s = Ok s' /\
             validated config iteration s s'.
Proof.
  unfold validate. fold (evaluation_heap s).
  destruct (evaluation_heap_flags s) as [Hg Hr].
  destruct (validation_loop_eval config iteration
              (val_batches (val_dataloader s)) (evaluation_heap s) None
              (calls s) Hg Hr)
    as (h_val & last & new & Hloop & Hm & He & Hp & Hnew & Hlast).
  pose proof (validation_loop_last config iteration _ _ _ _ _ _ _ Hg Hr Hloop)
    as Hbound.
  rewrite Hloop. cbn [bind].
  assert (Hrest :
    exists s',
      (let '(pg_metrics, h) := handle_get_metrics RefGenerator h_val in
       let '(qr_metrics, h0) := handle_get_metrics RefReconstructor h in
       Ok {| heap := set_mode true RefReconstructor (set_mode true RefGenerator h0);
             lr_scheduler := lr_scheduler s;
             batch_size := batch_size s;
             train_dataloader := train_dataloader s;
             loaders_built := loaders_built s;
             val_dataloader := val_dataloader s;
             program_generator_checkpoint_manager :=
               ckpt_step (program_generator_checkpoint_manager s)
                         (perplexity pg_metrics);
             question_reconstructor_checkpoint_manager :=
               ckpt_step (question_reconstructor_checkpoint_manager s)
                         (perplexity qr_metrics);
             summary_writer :=
               write
                 (write
                    (write (summary_writer s)
                       (AddScalars ("metrics/" ++ "BLEU")
                          [("program_generator", BLEU pg_metrics);
                           ("question_reconstructor", BLEU qr_metrics)]
                          iteration))
                    (AddScalars ("metrics/" ++ "perplexity")
                       [("program_generator", perplexity pg_metrics);
                        ("question_reconstructor", perplexity qr_metrics)]
                       iteration))
                 (AddScalars ("metrics/" ++ "sequence_accuracy")
                    [("program_generator", sequence_accuracy pg_metrics);
                     ("question_reconstructor", sequence_accuracy qr_metrics)]
                    iteration);
             calls := calls s ++ new |}) = Ok s' /\
      validated config iteration s s').
  { pose proof (handle_get_metrics_modes RefGenerator h_val) as Hm1.
    pose proof (handle_get_metrics_events RefGenerator h_val) as He1.
    pose proof (handle_get_metrics_prior RefGenerator h_val) as Hp1.
    destruct (handle_get_metrics RefGenerator h_val) as [pg_metrics h1] eqn:E1.
    pose proof (handle_get_metrics_modes RefReconstructor h1) as Hm2.
    pose proof (handle_get_metrics_events RefReconstructor h1) as He2.
    pose proof (handle_get_metrics_prior RefReconstructor h1) as Hp2.
    destruct (handle_get_metrics RefReconstructor h1) as [qr_metrics h2] eqn:E2.
    cbn [fst snd] in *.
    eexists. split; [reflexivity|].
    constructor; cbn [heap lr_scheduler batch_size train_dataloader
                      loaders_built val_dataloader calls
                      program_generator_checkpoint_manager
                      question_reconstructor_checkpoint_manager].
    - exists h_val, last, new. rewrite E1. cbn [fst snd]. rewrite E2.
      repeat split; try reflexivity; assumption.
    - rewrite (proj1 (set_mode_flag _ _ _ _)),
        (proj2 (set_mode_flag _ _ _ _)). cbn [ModelRef_eqb].
      rewrite (proj1 (set_mode_flag _ _ _ _)),
        (proj2 (set_mode_flag _ _ _ _)). cbn [ModelRef_eqb].
      split; reflexivity.
    - rewrite (proj1 (set_mode_flag _ _ _ _)),
        (proj2 (set_mode_flag _ _ _ _)). cbn [ModelRef_eqb].
      split; reflexivity.
    - rewrite !set_mode_optimizer.
      rewrite (proj2 Hm2), (proj2 Hm1), (proj2 Hm).
      unfold evaluation_heap. now rewrite !set_mode_optimizer.
    - rewrite !set_mode_events. rewrite He2, He1, He.
      unfold evaluation_heap. now rewrite !set_mode_events.
    - intros Hprior. rewrite !set_mode_prior by discriminate.
      rewrite Hp2, Hp1 by discriminate. rewrite Hp.
      + unfold evaluation_heap. now rewrite !set_mode_prior by discriminate.
      + unfold evaluation_heap. now rewrite !set_mode_optimizer.
    - repeat split. }
  destruct Hbound as [(Hempty & ->)|(front & b & hb & Hbatches & ->)].
  - destruct (0 <? Z.min (Z.of_nat (length (question batch))) 20) eqn:Hsome.
    + left. split; [exact Hempty|]. split; [now apply Z.ltb_lt|].
      unfold print_row. destruct (program batch) as [|row rows]; cbn.
      * left. split; reflexivity.
      * right. split; [discriminate|reflexivity].
    + cbn [bind]. right. right. exact Hrest.
  - pose proof (print_examples_keys
                  vocabulary b (iteration_output config b hb) _ _
                  (seq 0 (Nat.min (length (question b)) 20))
                  eq_refl eq_refl) as Hkeys.
    fold (qualitative_examples vocabulary b (iteration_output config b hb))
      in Hkeys.
    destruct (raised (qualitative_examples
                        vocabulary b (iteration_output config b hb)))
      as [[|]|] eqn:Hprint.
    + now contradiction Hkeys.
    + right. left. exists front, b, hb.
      split; [exact Hbatches|]. split; [exact Hprint|reflexivity].
    + cbn [bind]. right. right. exact Hrest.
Qed.

(** ** One turn of the training loop *)

Lemma next_raises (c : Cycle) (e : Exception) :
  next c = Raise e -> e = StopIteration \/ e = IndexError.
Proof.
  unfold next. destruct (cy_pending c) as [|indices rest].
  - destruct (cy_replay c); [|discriminate].
    destruct (cy_saved c); [|discriminate]. intros [= <-]. now left.
  - unfold fetch.
    assert (Hitems : forall l e', getitems (cy_dataset c) l = Raise e' ->
                                  e' = IndexError).
    { induction l as [|i l IH]; intros e'; cbn; [discriminate|].
      unfold getitem. destruct (nth_error (cy_dataset c) i); cbn.
      - destruct (getitems (cy_dataset c) l) eqn:E; cbn; [discriminate|].
        intros [= <-]. now apply IH.
      - intros [= <-]. reflexivity. }
    destruct (getitems (cy_dataset c) indices) eqn:E; cbn; [discriminate|].
    intros [= <-]. right. apply (Hitems indices). exact E.
Qed.

(** Every way a training turn can go. *)
Lemma train_iteration_cases (args : Args) (config : Config)
      (train_dataset : list Example) (iteration : Z) (s : State) :
  match next (train_dataloader s) with
  | Raise e => train_iteration args config train_dataset iteration s = Raise e
  | Ok (batch, loader) =>
      (contains (bs_steps config) iteration = true /\
       batch_size s * bs_gamma config <= 0 /\
       train_iteration args config train_dataset iteration s = Raise ValueError)
      \/
      exists s_mid,
        trained config train_dataset iteration batch loader s s_mid /\
        ((checkpoint_every args = 0 /\
          train_iteration args config train_dataset iteration s
          = Raise ZeroDivisionError) \/
         (checkpoint_every args <> 0 /\
          iteration mod checkpoint_every args <> 0 /\
          train_iteration args config train_dataset iteration s = Ok s_mid) \/
         (checkpoint_every args <> 0 /\
          iteration mod checkpoint_every args = 0 /\
          train_iteration args config train_dataset iteration s
          = validate config iteration batch s_mid))
  end.
Proof.
  unfold train_iteration.
  destruct (next (train_dataloader s)) as [[batch loader]|e]; [|reflexivity].
  cbn [bind].
  destruct (do_iteration_script config batch None (Some RefOptimizer) (heap s))
    as (h1 & Hrun & Hm & He & Hp); [reflexivity|].
  rewrite Hrun. cbn [bind]. unfold scheduler_step, scheduler_step_to.
  unfold schedule_batch_size.
  destruct (contains (bs_steps config) iteration) eqn:Hsteps.
  - unfold new_DataLoader.
    destruct (batch_size s * bs_gamma config <=? 0) eqn:Hbs.
    + left. apply Z.leb_le in Hbs. cbn [bind]. repeat split; assumption.
    + right. cbn [bind].
      match goal with |- context [validate _ _ _ ?st] => exists st end. split.
      * constructor; cbn [heap lr_scheduler batch_size train_dataloader
                          loaders_built val_dataloader calls
                          program_generator_checkpoint_manager
                          question_reconstructor_checkpoint_manager];
          try reflexivity.
        -- exact (proj1 Hm).
        -- cbn. now rewrite (proj2 Hm).
        -- exact He.
        -- exact Hp.
        -- rewrite Hsteps. repeat split.
        -- repeat split.
      * destruct (checkpoint_every args =? 0) eqn:Hce.
        -- left. apply Z.eqb_eq in Hce. split; [exact Hce|reflexivity].
        -- right. apply Z.eqb_neq in Hce.
           destruct (iteration mod checkpoint_every args =? 0) eqn:Hmod.
           ++ right. apply Z.eqb_eq in Hmod. repeat split; assumption.
           ++ left. apply Z.eqb_neq in Hmod. repeat split; assumption.
  - right. cbn [bind].
    match goal with |- context [validate _ _ _ ?st] => exists st end. split.
    + constructor; cbn [heap lr_scheduler batch_size train_dataloader
                        loaders_built val_dataloader calls
                        program_generator_checkpoint_manager
                        question_reconstructor_checkpoint_manager];
        try reflexivity.
      * exact (proj1 Hm).
      * cbn. now rewrite (proj2 Hm).
      * exact He.
      * exact Hp.
      * rewrite Hsteps. repeat split.
      * repeat split.
    + destruct (checkpoint_every args =? 0) eqn:Hce.
      * left. apply Z.eqb_eq in Hce. split; [exact Hce|reflexivity].
      * right. apply Z.eqb_neq in Hce.
        destruct (iteration mod checkpoint_every args =? 0) eqn:Hmod.
        -- right. apply Z.eqb_eq in Hmod. repeat split; assumption.
        -- left. apply Z.eqb_neq in Hmod. repeat split; assumption.
Qed.

(** ** The state between two turns of the loop *)

Lemma range1_succ (k : nat) :
  range1 (Z.of_nat (S k)) = range1 (Z.of_nat k) ++ [Z.of_nat (S k)].
Proof.
  unfold range1. rewrite !Nat2Z.id, seq_S, map_app. reflexivity.
Qed.

Lemma training_loop_app (args : Args) (config : Config)
      (train_dataset : list Example) (l1 l2 : list Z) (s : State) :
  training_loop args config train_dataset (l1 ++ l2) s
  = (s' <- training_loop args config train_dataset l1 s ;;
     training_loop args config train_dataset l2 s').
Proof.
  revert s. induction l1 as [|i l1 IH]; intros s; cbn; [reflexivity|].
  destruct (train_iteration args config train_dataset i s); cbn;
    [apply IH|reflexivity].
Qed.

Lemma after_iterations_succ (args : Args) (config : Config)
      (train_dataset val_dataset : list Example) (k : nat) :
  after_iterations args config train_dataset val_dataset (S k)
  = (s <- after_iterations args config train_dataset val_dataset k ;;
     train_iteration args config train_dataset (Z.of_nat (S k)) s).
Proof.
  unfold after_iterations. rewrite range1_succ.
  destruct (setup args config train_dataset val_dataset) as [s0|e];
    [|reflexivity].
  cbn [bind]. rewrite training_loop_app.
  destruct (training_loop args config train_dataset (range1 (Z.of_nat k)) s0);
    cbn; [|reflexivity].
  destruct (train_iteration _ _ _ _ _); reflexivity.
Qed.

Lemma next_dataset (c c' : Cycle) (batch : Batch) :
  next c = Ok (batch, c') -> cy_dataset c' = cy_dataset c.
Proof.
  unfold next. destruct (cy_pending c).
  - destruct (cy_replay c).
    + destruct (cy_saved c); [discriminate|]. now intros [= _ <-].
    + now intros [= _ <-].
  - destruct (fetch _ _); cbn; [|discriminate]. now intros [= _ <-].
Qed.

Lemma iterations_where_succ (test : Z -> bool) (k : nat) :
  iterations_where test (S k)
  = iterations_where test k
    ++ (if test (Z.of_nat (S k)) then [Z.of_nat (S k)] else []).
Proof.
  unfold iterations_where. rewrite range1_succ, filter_app. cbn [filter].
  reflexivity.
Qed.

Lemma setup_between (args : Args) (config : Config)
      (train_dataset val_dataset : list Example) (s : State) :
  setup args config train_dataset val_dataset = Ok s ->
  between_iterations args config train_dataset val_dataset 0 s /\
  events (heap s) = [] /\
  0 < initial_bs config /\
  train_dataloader s
  = cycle {| dl_dataset := train_dataset; dl_batch_size := initial_bs config |}
          (sampler 0%nat) /\
  stepped (program_generator_checkpoint_manager s) = [] /\
  stepped (question_reconstructor_checkpoint_manager s) = [].
Proof.
  unfold setup.
  destruct (negb (contains (gpu_ids args) (-1))) eqn:Hwrap;
    (destruct (gpu_ids args) as [|g gs] eqn:Hgpu; [discriminate|];
     cbn [bind]; unfold new_DataLoader;
     destruct (initial_bs config <=? 0) eqn:Hbs; [discriminate|];
     apply Z.leb_gt in Hbs; cbn [bind]; unfold new_MultiStepLR;
     destruct (is_sorted (lr_steps config)) eqn:Hsorted; [|discriminate];
     cbn [bind scheduler_step_to]; intros [= <-];
     split; [|repeat split; try reflexivity; exact Hbs];
     constructor; cbn [heap lr_scheduler batch_size train_dataloader
                       loaders_built val_dataloader calls];
     try reflexivity;
     [ repeat split; reflexivity
     | repeat split; reflexivity
     | repeat split; exact Hsorted
     | cbn; lia
     | constructor ]).
Qed.

Lemma training_calls_validation (new : list Call) :
  Forall validation_call new -> training_calls new = [].
Proof.
  induction 1 as [|c new Hc _ IH]; [reflexivity|].
  unfold training_calls in *. cbn [filter].
  destruct Hc as [-> _]. exact IH.
Qed.

Lemma trained_between (args : Args) (config : Config)
      (train_dataset val_dataset : list Example) (k : nat)
      (batch : Batch) (loader : Cycle) (s s' : State) :
  between_iterations args config train_dataset val_dataset k s ->
  trained config train_dataset (Z.of_nat (S k)) batch loader s s' ->
  cy_dataset loader = train_dataset ->
  between_iterations args config train_dataset val_dataset (S k) s'.
Proof.
  intros B T Hloader.
  assert (Hnoprior : ~ In RefPrior (group_params (optimizer_obj (heap s)))).
  { rewrite (bi_params _ _ _ _ _ _ B). cbn. intros [H|[H|[]]]; discriminate. }
  destruct (bi_scheduler _ _ _ _ _ _ B) as (Hms & Hgamma & Hbase & Hsorted).
  constructor.
  - rewrite (tr_prior _ _ _ _ _ _ _ T Hnoprior). apply (bi_prior _ _ _ _ _ _ B).
  - rewrite (tr_params _ _ _ _ _ _ _ T). apply (bi_params _ _ _ _ _ _ B).
  - destruct (tr_modes _ _ _ _ _ _ _ T RefGenerator) as [-> ->].
    apply (bi_generator _ _ _ _ _ _ B).
  - destruct (tr_modes _ _ _ _ _ _ _ T RefReconstructor) as [-> ->].
    apply (bi_reconstructor _ _ _ _ _ _ B).
  - rewrite (tr_scheduler _ _ _ _ _ _ _ T). cbn. repeat split; assumption.
  - rewrite (tr_scheduler _ _ _ _ _ _ _ T). cbn.
    rewrite (bi_epoch _ _ _ _ _ _ B). lia.
  - rewrite (tr_lr _ _ _ _ _ _ _ T), (tr_scheduler _ _ _ _ _ _ _ T).
    unfold get_lr. cbn [milestones gamma base_lr last_epoch].
    rewrite Hms, Hgamma, Hbase, (bi_epoch _ _ _ _ _ _ B).
    replace (scheduler_epoch0 + Z.of_nat k + 1)
      with (scheduler_epoch0 + Z.of_nat (S k)) by lia.
    reflexivity.
  - pose proof (tr_batch_size _ _ _ _ _ _ _ T) as Hbs.
    cbn [scheduled_batch_size].
    destruct (contains (bs_steps config) (Z.of_nat (S k)));
      destruct Hbs as (-> & _); now rewrite (bi_batch_size _ _ _ _ _ _ B).
  - pose proof (tr_batch_size _ _ _ _ _ _ _ T) as Hbs.
    rewrite iterations_where_succ, length_app.
    destruct (contains (bs_steps config) (Z.of_nat (S k)));
      destruct Hbs as (_ & _ & ->); rewrite (bi_loaders _ _ _ _ _ _ B);
      cbn [length]; lia.
  - pose proof (tr_batch_size _ _ _ _ _ _ _ T) as Hbs.
    destruct (contains (bs_steps config) (Z.of_nat (S k)));
      destruct Hbs as (_ & -> & _); [reflexivity|exact Hloader].
  - destruct (tr_rest _ _ _ _ _ _ _ T) as (_ & _ & ->).
    apply (bi_val_loader _ _ _ _ _ _ B).
  - rewrite (tr_calls _ _ _ _ _ _ _ T). apply Forall_app. split.
    + apply (bi_calls _ _ _ _ _ _ B).
    + constructor; [|constructor]. left. unfold training_call. cbn.
      rewrite (proj1 (bi_generator _ _ _ _ _ _ B)),
        (proj1 (bi_reconstructor _ _ _ _ _ _ B)).
      repeat split.
  - rewrite (tr_calls _ _ _ _ _ _ _ T). unfold training_calls.
    rewrite filter_app, length_app. cbn.
    fold (training_calls (calls s)).
    rewrite (bi_training_calls _ _ _ _ _ _ B). lia.
Qed.

Lemma validated_between (args : Args) (config : Config)
      (train_dataset val_dataset : list Example) (k : nat) (iteration : Z)
      (s s' : State) :
  between_iterations args config train_dataset val_dataset k s ->
  validated config iteration s s' ->
  between_iterations args config train_dataset val_dataset k s'.
Proof.
  intros B V.
  assert (Hnoprior : ~ In RefPrior (group_params (optimizer_obj (heap s)))).
  { rewrite (bi_params _ _ _ _ _ _ B). cbn. intros [H|[H|[]]]; discriminate. }
  destruct (vd_rest _ _ _ _ V) as (Hsch & Hbs & Hloader & Hbuilt & Hval).
  destruct (vd_pass _ _ _ _ V) as (h_val & last & new & _ & Hnew & Hcalls & _).
  constructor.
  - rewrite (vd_prior _ _ _ _ V Hnoprior). apply (bi_prior _ _ _ _ _ _ B).
  - rewrite (vd_optimizer _ _ _ _ V). apply (bi_params _ _ _ _ _ _ B).
  - apply (vd_generator _ _ _ _ V).
  - apply (vd_reconstructor _ _ _ _ V).
  - rewrite Hsch. apply (bi_scheduler _ _ _ _ _ _ B).
  - rewrite Hsch. apply (bi_epoch _ _ _ _ _ _ B).
  - rewrite (vd_optimizer _ _ _ _ V). apply (bi_lr _ _ _ _ _ _ B).
  - rewrite Hbs. apply (bi_batch_size _ _ _ _ _ _ B).
  - rewrite Hbuilt. apply (bi_loaders _ _ _ _ _ _ B).
  - rewrite Hloader. apply (bi_loader_dataset _ _ _ _ _ _ B).
  - rewrite Hval. apply (bi_val_loader _ _ _ _ _ _ B).
  - rewrite Hcalls. apply Forall_app. split.
    + apply (bi_calls _ _ _ _ _ _ B).
    + eapply Forall_impl; [|exact Hnew]. intros c Hc. now right.
  - rewrite Hcalls. unfold training_calls. rewrite filter_app, length_app.
    fold (training_calls (calls s)). fold (training_calls new).
    rewrite (training_calls_validation new Hnew).
    rewrite (bi_training_calls _ _ _ _ _ _ B). cbn. lia.
Qed.

(** What one completed turn of the loop is made of. *)
Lemma train_iteration_inversion (args : Args) (config : Config)
      (train_dataset : list Example) (iteration : Z) (s s' : State) :
  train_iteration args config train_dataset iteration s = Ok s' ->
  exists batch loader s_mid,
    next (train_dataloader s) = Ok (batch, loader) /\
    trained config train_dataset iteration batch loader s s_mid /\
    checkpoint_every args <> 0 /\
    ((iteration mod checkpoint_every args <> 0 /\ s' = s_mid) \/
     (iteration mod checkpoint_every args = 0 /\
      validated config iteration s_mid s')).
Proof.
  intros Hrun.
  pose proof (train_iteration_cases args config train_dataset iteration s) as C.
  destruct (next (train_dataloader s)) as [[batch loader]|e]; [|congruence].
  destruct C as [(_ & _ & C)|(s_mid & T & C)]; [congruence|].
  exists batch, loader, s_mid. split; [reflexivity|]. split; [exact T|].
  destruct C as [(_ & C)|[(Hce & Hmod & C)|(Hce & Hmod & C)]]; [congruence| |].
  - split; [exact Hce|]. left. split; [exact Hmod|congruence].
  - split; [exact Hce|]. right. split; [exact Hmod|].
    destruct (validate_cases config iteration batch s_mid)
      as [(_ & _ & [(_ & Hraise)|(_ & Hraise)])
         |[(front & b & hb & _ & _ & Hraise)|(s'' & Hok & V)]];
      [congruence..|].
    assert (s'' = s') by congruence. subst. exact V.
Qed.

Lemma train_iteration_between (args : Args) (config : Config)
      (train_dataset val_dataset : list Example) (k : nat) (s s' : State) :
  between_iterations args config train_dataset val_dataset k s ->
  train_iteration args config train_dataset (Z.of_nat (S k)) s = Ok s' ->
  between_iterations args config train_dataset val_dataset (S k) s'.
Proof.
  intros B Hrun.
  destruct (train_iteration_inversion _ _ _ _ _ _ Hrun)
    as (batch & loader & s_mid & Hnext & T & _ & Hcase).
  assert (Bmid : between_iterations args config train_dataset val_dataset
                                    (S k) s_mid).
  { eapply trained_between; [exact B|exact T|].
    rewrite (next_dataset _ _ _ Hnext). apply (bi_loader_dataset _ _ _ _ _ _ B). }
  destruct Hcase as [(_ & ->)|(_ & V)]; [exact Bmid|].
  eapply validated_between; eassumption.
Qed.

(** The invariant of the training loop. *)
Lemma after_iterations_between (args : Args) (config : Config)
      (train_dataset val_dataset : list Example) (k : nat) (s : State) :
  after_iterations args config train_dataset val_dataset k = Ok s ->
  between_iterations args config train_dataset val_dataset k s.
Proof.
  revert s. induction k as [|k IH]; intros s Hrun.
  - unfold after_iterations in Hrun. cbn in Hrun.
    destruct (setup args config train_dataset val_dataset) as [s0|e] eqn:E;
      [|discriminate].
    cbn in Hrun. injection Hrun as <-. now apply setup_between.
  - rewrite after_iterations_succ in Hrun.
    destruct (after_iterations args config train_dataset val_dataset k)
      as [sk|e]; [|discriminate].
    cbn [bind] in Hrun. eapply train_iteration_between; [|exact Hrun].
    now apply IH.
Qed.

(** ** On well-formed inputs the loop never stops early *)

Lemma val_batches_nonempty (dataset : list Example) (size : Z) :
  dataset <> [] ->
  val_batches {| dl_dataset := dataset; dl_batch_size := size |} <> [].
Proof.
  intros Hne Hempty. unfold val_batches in Hempty. cbn in Hempty.
  apply map_eq_nil in Hempty.
  revert Hempty. apply batch_sampler_nonempty. right. exact Hne.
Qed.

Lemma sampler_deliverable (args : Args) (config : Config)
      (train_dataset val_dataset : list Example) (size : Z) (k : nat) :
  well_formed args config train_dataset val_dataset ->
  deliverable (cycle {| dl_dataset := train_dataset; dl_batch_size := size |}
                     (sampler k)).
Proof.
  intros W. destruct (wf_sampler _ _ _ _ W k) as [Hlen Hvalid].
  apply cycle_deliverable; [|exact Hvalid].
  intros Hnil. rewrite Hnil in Hlen. cbn in Hlen.
  apply (wf_train_dataset _ _ _ _ W). destruct train_dataset;
    [reflexivity|discriminate].
Qed.

Lemma setup_total (args : Args) (config : Config)
      (train_dataset val_dataset : list Example) :
  well_formed args config train_dataset val_dataset ->
  exists s, setup args config train_dataset val_dataset = Ok s.
Proof.
  intros W. unfold setup.
  destruct (gpu_ids args) as [|g gs] eqn:Hgpu;
    [exfalso; now apply (wf_gpu_ids _ _ _ _ W)|].
  cbn [bind]. unfold new_DataLoader.
  pose proof (wf_initial_bs _ _ _ _ W) as Hbs.
  destruct (initial_bs config <=? 0) eqn:E; [apply Z.leb_le in E; lia|].
  cbn [bind]. unfold new_MultiStepLR.
  rewrite (wf_lr_steps _ _ _ _ W). cbn [bind scheduler_step_to].
  eexists. reflexivity.
Qed.

Lemma scheduled_batch_size_positive (config : Config) (k : nat) :
  0 < initial_bs config -> 0 < bs_gamma config ->
  0 < scheduled_batch_size config k.
Proof.
  intros Hbs Hgamma. induction k as [|k IH]; [exact Hbs|].
  cbn [scheduled_batch_size].
  destruct (contains (bs_steps config) (Z.of_nat (S k))); [|exact IH].
  apply Z.mul_pos_pos; assumption.
Qed.

(** When the batch is rectangular and every network predicts one row per
    input row, the loop of qualitative examples raises nothing. *)
Lemma qualitative_examples_rectangular (config : Config) (b : Batch)
      (hb : Heap) :
  length (program b) = length (question b) ->
  (forall r n mode inputs targets greedy,
      length (out_predictions (fst (forward r n mode inputs targets greedy)))
      = length inputs) ->
  raised (qualitative_examples vocabulary b (iteration_output config b hb))
  = None.
Proof.
  intros Hrect Hrows. unfold qualitative_examples.
  apply (print_examples_in_range
           vocabulary b (iteration_output config b hb)
           (out_predictions (fst (generator_pass b hb)))
           (out_predictions (fst (reconstructor_pass b hb)))
           _ eq_refl eq_refl).
  apply Forall_forall. intros j Hj. apply in_seq in Hj.
  unfold generator_pass, reconstructor_pass, greedy_pass.
  rewrite !Hrows. lia.
Qed.

Lemma train_iteration_total (args : Args) (config : Config)
      (train_dataset val_dataset : list Example) (k : nat) (s : State) :
  well_formed args config train_dataset val_dataset ->
  between_iterations args config train_dataset val_dataset k s ->
  deliverable (train_dataloader s) ->
  exists s',
    train_iteration args config train_dataset (Z.of_nat (S k)) s = Ok s' /\
    deliverable (train_dataloader s').
Proof.
  intros W B D.
  pose proof (train_iteration_cases args config train_dataset
                                    (Z.of_nat (S k)) s) as C.
  destruct (next_deliverable _ D) as (batch & loader & Hnext & Dloader & _).
  rewrite Hnext in C.
  assert (Hpos : 0 < batch_size s * bs_gamma config).
  { rewrite (bi_batch_size _ _ _ _ _ _ B). apply Z.mul_pos_pos.
    - apply scheduled_batch_size_positive;
        [apply (wf_initial_bs _ _ _ _ W)|apply (wf_bs_gamma _ _ _ _ W)].
    - apply (wf_bs_gamma _ _ _ _ W). }
  destruct C as [(_ & Hbad & _)|(s_mid & T & C)]; [lia|].
  assert (Dmid : deliverable (train_dataloader s_mid)).
  { pose proof (tr_batch_size _ _ _ _ _ _ _ T) as Hbs.
    destruct (contains (bs_steps config) (Z.of_nat (S k)));
      destruct Hbs as (_ & -> & _); [|exact Dloader].
    eapply sampler_deliverable. exact W. }
  destruct C as [(Hce & _)|[(_ & _ & C)|(_ & _ & C)]].
  - exfalso. now apply (wf_checkpoint_every _ _ _ _ W).
  - exists s_mid. split; [exact C|exact Dmid].
  - destruct (validate_cases config (Z.of_nat (S k)) batch s_mid)
      as [(Hempty & _)
         |[(front & b & hb & Hbatches & Hprint & _)|(s' & Hok & V)]].
    + exfalso. destruct (tr_rest _ _ _ _ _ _ _ T) as (_ & _ & Hval).
      rewrite Hval, (bi_val_loader _ _ _ _ _ _ B) in Hempty.
      revert Hempty. apply val_batches_nonempty.
      apply (wf_val_dataset _ _ _ _ W).
    + exfalso.
      rewrite (qualitative_examples_rectangular config b hb) in Hprint;
        [discriminate| |apply (wf_predictions _ _ _ _ W)].
      apply (val_batches_rectangular (val_dataloader s_mid)).
      rewrite Hbatches. apply in_or_app. right. now left.
    + exists s'. split; [congruence|].
      destruct (vd_rest _ _ _ _ V) as (_ & _ & -> & _). exact Dmid.
Qed.

Lemma after_iterations_total (args : Args) (config : Config)
      (train_dataset val_dataset : list Example) :
  well_formed args config train_dataset val_dataset ->
  forall k,
    exists s,
      after_iterations args config train_dataset val_dataset k = Ok s /\
      deliverable (train_dataloader s).
Proof.
  intros W. induction k as [|k (s & Hrun & D)].
  - destruct (setup_total _ _ _ _ W) as [s0 Hsetup].
    exists s0. split.
    + unfold after_iterations. rewrite Hsetup. reflexivity.
    + destruct (setup_between _ _ _ _ _ Hsetup) as (_ & _ & _ & -> & _).
      eapply sampler_deliverable. exact W.
  - pose proof (after_iterations_between _ _ _ _ _ _ Hrun) as B.
    destruct (train_iteration_total _ _ _ _ _ _ W B D) as (s' & Hstep & D').
    exists s'. split; [|exact D'].
    rewrite after_iterations_succ, Hrun. exact Hstep.
Qed.


(** ** Remaining run-level facts *)

(** A call of [do_iteration] that returns, returns [iteration_output]. *)
Lemma do_iteration_returns (config : Config) (batch : Batch)
      (prior : option ModelRef) (optimizer : option OptimizerRef) (h h' : Heap)
      (out : IterationOutput) :
  do_iteration config batch prior RefGenerator RefReconstructor optimizer h
  = Ok (out, h') ->
  out = iteration_output config batch h.
Proof.
  intros Hrun.
  destruct (flag_of h RefGenerator) eqn:Hflag.
  - destruct optimizer as [[]|].
    + destruct (do_iteration_script config batch prior (Some RefOptimizer) h)
        as (h1 & Hok & _); [reflexivity|]. congruence.
    + unfold do_iteration in Hrun. fold (flag_of h RefGenerator) in Hrun.
      rewrite Hflag in Hrun. discriminate.
  - destruct (do_iteration_script config batch prior optimizer h)
      as (h1 & Hok & _); [congruence|]. congruence.
Qed.

(** A call that returns was not made in training mode without optimizer. *)
Lemma do_iteration_guard (config : Config) (batch : Batch)
      (prior : option ModelRef) (optimizer : option OptimizerRef) (h h' : Heap)
      (out : IterationOutput) :
  do_iteration config batch prior RefGenerator RefReconstructor optimizer h
  = Ok (out, h') ->
  flag_of h RefGenerator = true -> optimizer = Some RefOptimizer.
Proof.
  intros Hrun Hflag. destruct optimizer as [[]|]; [reflexivity|].
  unfold do_iteration in Hrun. fold (flag_of h RefGenerator) in Hrun.
  rewrite Hflag in Hrun. discriminate.
Qed.


(** No turn of the loop, and no part of the set-up, raises the
    AttributeError of a missing optimizer. *)
Lemma train_iteration_no_AttributeError (args : Args) (config : Config)
      (train_dataset : list Example) (iteration : Z) (s : State) :
  train_iteration args config train_dataset iteration s <> Raise AttributeError.
Proof.
  pose proof (train_iteration_cases args config train_dataset iteration s) as C.
  destruct (next (train_dataloader s)) as [[batch loader]|e] eqn:Hnext.
  - destruct C as [(_ & _ & ->)|(s_mid & _ & C)]; [discriminate|].
    destruct C as [(_ & ->)|[(_ & _ & ->)|(_ & _ & ->)]]; try discriminate.
    destruct (validate_cases config iteration batch s_mid)
      as [(_ & _ & [(_ & ->)|(_ & ->)])
         |[(front & b & hb & _ & _ & ->)|(s' & -> & _)]]; discriminate.
  - rewrite C. destruct (next_raises _ _ Hnext) as [->| ->]; discriminate.
Qed.

Lemma training_loop_no_AttributeError (args : Args) (config : Config)
      (train_dataset : list Example) (iterations : list Z) :
  forall s,
    training_loop args config train_dataset iterations s <> Raise AttributeError.
Proof.
  induction iterations as [|i iterations IH]; intros s; cbn; [discriminate|].
  destruct (train_iteration args config train_dataset i s) as [s'|e] eqn:E;
    cbn; [apply IH|].
  intros [= ->]. revert E. apply train_iteration_no_AttributeError.
Qed.

Lemma setup_no_AttributeError (args : Args) (config : Config)
      (train_dataset val_dataset : list Example) :
  setup args config train_dataset val_dataset <> Raise AttributeError.
Proof.
  unfold setup. destruct (gpu_ids args); [discriminate|]. cbn [bind].
  unfold new_DataLoader. destruct (initial_bs config <=? 0); [discriminate|].
  cbn [bind]. unfold new_MultiStepLR.
  destruct (is_sorted (lr_steps config)); discriminate.
Qed.

(** Masking: the filled vector ignores the unsupervised entries. *)
Lemma masked_fill_agree (v1 v2 : list num) (mask : list bool) :
  agree_on_supervised v1 v2 mask -> masked_fill v1 mask = masked_fill v2 mask.
Proof.
  revert v2 mask. induction v1 as [|x v1 IH]; intros v2 mask [Hlen Hsame].
  - destruct v2; [reflexivity|discriminate].
  - destruct v2 as [|y v2]; [discriminate|].
    destruct mask as [|keep mask]; [reflexivity|].
    cbn [masked_fill]. f_equal.
    + destruct keep; [|reflexivity]. exact (Hsame 0%nat eq_refl).
    + apply IH. split; [now injection Hlen|].
      intros i Hi. exact (Hsame (S i) Hi).
Qed.

Lemma masked_fill_unsupervised (v : list num) (mask : list bool) (i : nat) :
  nth i mask true = false -> nth i (masked_fill v mask) nzero = nzero.
Proof.
  revert mask i. induction v as [|x v IH]; intros mask i Hi.
  - destruct i; reflexivity.
  - destruct mask as [|keep mask]; [destruct i; reflexivity|].
    destruct i as [|i]; cbn in *.
    + now rewrite Hi.
    + now apply IH.
Qed.

(** ** Facts the claims rest on *)

Lemma masked_fill_length (v : list num) (mask : list bool) :
  length (masked_fill v mask) = Nat.min (length v) (length mask).
Proof.
  revert mask. induction v as [|x v IH]; intros mask; [reflexivity|].
  destruct mask as [|keep mask]; [reflexivity|]. cbn. now rewrite IH.
Qed.

Lemma masked_fill_supervised (v : list num) (mask : list bool) (i : nat) :
  nth i mask false = true -> nth i (masked_fill v mask) nzero = nth i v nzero.
Proof.
  revert mask i. induction v as [|x v IH]; intros mask i Hi.
  - destruct i; reflexivity.
  - destruct mask as [|keep mask]; [destruct i; discriminate|].
    destruct i as [|i]; cbn in *.
    + now rewrite Hi.
    + now apply IH.
Qed.

(** Where adding zero changes nothing, the masked sum is the sum over the
    supervised examples. *)
Lemma sum_masked_fill (v : list num) (mask : list bool) :
  (forall x, nadd x nzero = x) ->
  forall acc,
    fold_left nadd (masked_fill v mask) acc
    = fold_left nadd (supervised_only v mask) acc.
Proof.
  intros Hzero. revert mask.
  induction v as [|x v IH]; intros mask acc; [reflexivity|].
  destruct mask as [|keep mask]; [reflexivity|].
  cbn [masked_fill supervised_only]. destruct keep; cbn [fold_left].
  - apply IH.
  - rewrite Hzero. apply IH.
Qed.

Lemma supervised_only_length (v : list num) (mask : list bool) :
  length v = length mask ->
  length (supervised_only v mask) = length (filter (fun keep => keep) mask).
Proof.
  revert mask. induction v as [|x v IH]; intros mask Hlen.
  - destruct mask; [reflexivity|discriminate].
  - destruct mask as [|keep mask]; [discriminate|].
    injection Hlen as Hlen. cbn. destruct keep; cbn; now rewrite IH.
Qed.



(** The index batches of a freshly built cyclic loader: the drawn indices
    in order, cut into batches of the batch size, the last one possibly
    shorter. *)
Lemma cycle_pending (dataset : list Example) (size : Z) (drawn : list nat) :
  0 < size ->
  concat (cy_pending (cycle {| dl_dataset := dataset; dl_batch_size := size |}
                            drawn)) = drawn /\
  forall front indices back,
    cy_pending (cycle {| dl_dataset := dataset; dl_batch_size := size |} drawn)
    = front ++ indices :: back ->
    (1 <= length indices <= Z.to_nat size)%nat /\
    (back <> [] -> length indices = Z.to_nat size).
Proof.
  intros Hsize. cbn [cycle cy_pending dl_batch_size]. split.
  - apply batch_sampler_concat.
  - intros front indices back Hcut.
    assert (Hpos : (1 <= Z.to_nat size)%nat) by lia. split.
    + pose proof (batch_sampler_sizes (Z.to_nat size) Hpos drawn []) as Hall.
      rewrite Hcut in Hall. rewrite Forall_forall in Hall.
      apply Hall; [cbn; lia|]. apply in_or_app. right. now left.
    + apply (batch_sampler_full (Z.to_nat size) Hpos drawn [] front indices back);
        [cbn; lia|exact Hcut].
Qed.

Lemma train_iteration_bad_batch_size (args : Args) (config : Config)
      (train_dataset : list Example) (iteration : Z) (s : State)
      (batch : Batch) (loader : Cycle) :
  next (train_dataloader s) = Ok (batch, loader) ->
  contains (bs_steps config) iteration = true ->
  batch_size s * bs_gamma config <= 0 ->
  train_iteration args config train_dataset iteration s = Raise ValueError.
Proof.
  intros Hnext Hsteps Hbs. unfold train_iteration. rewrite Hnext. cbn [bind].
  destruct (do_iteration_script config batch None (Some RefOptimizer) (heap s))
    as (h1 & Hrun & _); [reflexivity|].
  rewrite Hrun. cbn [bind]. unfold scheduler_step, scheduler_step_to.
  unfold schedule_batch_size. rewrite Hsteps. unfold new_DataLoader.
  apply Z.leb_le in Hbs. rewrite Hbs. reflexivity.
Qed.

(** ** The claims *)

(** C1 (as amended).  No call of [do_iteration] uses the auxiliary prior: in
    every call the script makes, during training and during validation, the
    [program_prior] argument is None; what [do_iteration] returns and does
    is the same whatever is passed for that argument; and what it returns is
    the same whatever prior model the script holds. *)
Theorem C1_prior_takes_no_part
        (args : Args) (config : Config)
        (train_dataset val_dataset : list Example) (k : nat) (s : State) :
  after_iterations args config train_dataset val_dataset k = Ok s ->
  Forall (fun c => arg_program_prior c = None) (calls s) /\
  (forall batch prior prior' generator reconstructor optimizer h,
      do_iteration config batch prior generator reconstructor optimizer h
      = do_iteration config batch prior' generator reconstructor optimizer h) /\
  (forall batch prior optimizer h h' out other_prior,
      do_iteration config batch prior RefGenerator RefReconstructor optimizer h
      = Ok (out, h') ->
      exists h'',
        do_iteration config batch prior RefGenerator RefReconstructor optimizer
                     (assign h RefPrior other_prior)
        = Ok (out, h'')).
Proof.
  intros Hrun. split; [|split; [reflexivity|]].
  - pose proof (bi_calls _ _ _ _ _ _ (after_iterations_between _ _ _ _ _ _ Hrun))
      as Hcalls.
    eapply Forall_impl; [|exact Hcalls].
    intros c [(_ & H & _)|(_ & H & _)]; exact H.
  - intros batch prior optimizer h h' out other_prior Hcall.
    pose proof (do_iteration_guard _ _ _ _ _ _ _ Hcall) as Hguard.
    rewrite (do_iteration_returns _ _ _ _ _ _ _ Hcall).
    destruct (do_iteration_script config batch prior optimizer
                                  (assign h RefPrior other_prior) Hguard)
      as (h'' & Hother & _).
    exists h''. exact Hother.
Qed.


(** C3.  The supervision term of the objective is the program generator's
    loss aggregated by a mean masked with the batch's supervision indicator.
    The term, which [do_iteration] returns under "reconstruction" and adds
    ssl_alpha times to the reconstruction loss, is the sum of the masked
    losses divided by the number of supervised examples of the batch
    (clamped from below by eps).  The masked losses are the generator's losses
    with the entry of every unsupervised example replaced by zero and the
    entry of every supervised example kept, so the term is the same for any
    two loss vectors that agree on the supervised examples; and where adding
    zero changes nothing, the sum is the sum of the losses of the supervised
    examples alone, of which there are as many as the divisor counts. *)
Theorem C3_supervision_loss_masked
        (config : Config) (batch : Batch) (prior : option ModelRef)
        (optimizer : option OptimizerRef) (h h' : Heap)
        (out : IterationOutput) :
  do_iteration config batch prior RefGenerator RefReconstructor optimizer h
  = Ok (out, h') ->
  dict_get (loss out) "objective"
  = Some (nadd (reconstruction_term batch h)
               (nmul (ssl_alpha config)
                     (ndiv (fold_left nadd
                                      (masked_fill
                                         (out_loss (fst (generator_pass batch h)))
                                         (supervision batch))
                                      nzero)
                           (nclamp_min
                              (nof_nat (length (filter (fun keep => keep)
                                                       (supervision batch))))
                              neps)))) /\
  dict_get (loss out) "reconstruction"
  = Some (ndiv (fold_left nadd
                          (masked_fill (out_loss (fst (generator_pass batch h)))
                                       (supervision batch))
                          nzero)
               (nclamp_min
                  (nof_nat (length (filter (fun keep => keep)
                                           (supervision batch))))
                  neps)) /\
  length (masked_fill (out_loss (fst (generator_pass batch h)))
                      (supervision batch))
  = Nat.min (length (out_loss (fst (generator_pass batch h))))
            (length (supervision batch)) /\
  (forall i,
      nth i (supervision batch) true = false ->
      nth i (masked_fill (out_loss (fst (generator_pass batch h)))
                         (supervision batch)) nzero = nzero) /\
  (forall i,
      nth i (supervision batch) false = true ->
      nth i (masked_fill (out_loss (fst (generator_pass batch h)))
                         (supervision batch)) nzero
      = nth i (out_loss (fst (generator_pass batch h))) nzero) /\
  (forall v1 v2 mask,
      agree_on_supervised v1 v2 mask -> masked_mean v1 mask = masked_mean v2 mask) /\
  ((forall x, nadd x nzero = x) ->
   fold_left nadd
             (masked_fill (out_loss (fst (generator_pass batch h)))
                          (supervision batch))
             nzero
   = fold_left nadd
               (supervised_only (out_loss (fst (generator_pass batch h)))
                                (supervision batch))
               nzero) /\
  (length (out_loss (fst (generator_pass batch h)))
   = length (supervision batch) ->
   length (supervised_only (out_loss (fst (generator_pass batch h)))
                           (supervision batch))
   = length (filter (fun keep => keep) (supervision batch))).
Proof.
  intros Hrun. rewrite (do_iteration_returns _ _ _ _ _ _ _ Hrun).
  split; [reflexivity|]. split; [reflexivity|].
  split; [apply masked_fill_length|]. split.
  { intros i Hi. now apply masked_fill_unsupervised. }
  split.
  { intros i Hi. now apply masked_fill_supervised. }
  split.
  { intros v1 v2 mask Hagree. unfold masked_mean.
    now rewrite (masked_fill_agree v1 v2 mask Hagree). }
  split.
  { intros Hzero. now apply sum_masked_fill. }
  apply supervised_only_length.
Qed.


(** C5.  The training loop draws its batches from a cyclic data loader.
    Over a non-empty training set such a loader delivers a batch at every
    draw, however many are made.  A completed turn of the loop drew its
    batch from the loader.  If its iteration is listed in bs_steps the batch
    size was multiplied by bs_gamma, is positive, and the cyclic loader was
    built anew with it: nothing fetched yet, and to fetch, the indices the
    sampler yields for the new loader, in order, cut into batches of exactly
    the new batch size except for a last one that may be shorter.
    Otherwise the batch size is unchanged and the loader is the one the
    batch was drawn from.  On well-formed inputs every iteration completes,
    so a batch is obtained at each of them. *)
Theorem C5_cyclic_loader_and_batch_size_schedule
        (args : Args) (config : Config)
        (train_dataset val_dataset : list Example) :
  (forall size drawn n,
      train_dataset <> [] ->
      length drawn = length train_dataset ->
      Forall (fun i => (i < length train_dataset)%nat) drawn ->
      exists batches,
        draw n (cycle {| dl_dataset := train_dataset; dl_batch_size := size |}
                      drawn)
        = Ok batches /\
        length batches = n) /\
  (forall k s s',
      after_iterations args config train_dataset val_dataset k = Ok s ->
      train_iteration args config train_dataset (Z.of_nat (S k)) s = Ok s' ->
      exists batch loader,
        next (train_dataloader s) = Ok (batch, loader) /\
        In batch (map arg_batch (training_calls (calls s'))) /\
        batch_size s = scheduled_batch_size config k /\
        (if contains (bs_steps config) (Z.of_nat (S k))
         then batch_size s' = batch_size s * bs_gamma config /\
              0 < batch_size s' /\
              train_dataloader s'
              = cycle {| dl_dataset := train_dataset;
                         dl_batch_size := batch_size s' |}
                      (sampler (loaders_built s)) /\
              cy_dataset (train_dataloader s') = train_dataset /\
              cy_saved (train_dataloader s') = [] /\
              cy_replay (train_dataloader s') = [] /\
              concat (cy_pending (train_dataloader s'))
              = sampler (loaders_built s) /\
              (forall front indices back,
                  cy_pending (train_dataloader s') = front ++ indices :: back ->
                  (1 <= length indices <= Z.to_nat (batch_size s'))%nat /\
                  (back <> [] -> length indices = Z.to_nat (batch_size s'))) /\
              loaders_built s' = S (loaders_built s)
         else batch_size s' = batch_size s /\
              train_dataloader s' = loader /\
              loaders_built s' = loaders_built s)) /\
  (forall i, contains (bs_steps config) i = true <-> In i (bs_steps config)) /\
  (well_formed args config train_dataset val_dataset ->
   forall k,
     exists s,
       after_iterations args config train_dataset val_dataset k = Ok s /\
       length (training_calls (calls s)) = k).
Proof.
  split; [|split; [|split]].
  - intros size drawn n Hne Hlen Hvalid. apply draw_deliverable.
    apply cycle_deliverable; [|exact Hvalid].
    intros ->. destruct train_dataset; [congruence|discriminate].
  - intros k s s' Hrun Hstep.
    pose proof (after_iterations_between _ _ _ _ _ _ Hrun) as B.
    destruct (train_iteration_inversion _ _ _ _ _ _ Hstep)
      as (batch & loader & s_mid & Hnext & T & _ & Hcase).
    exists batch, loader. split; [exact Hnext|].
    assert (Hmid : In batch (map arg_batch (training_calls (calls s_mid)))).
    { rewrite (tr_calls _ _ _ _ _ _ _ T). unfold training_calls.
      rewrite filter_app, map_app. apply in_or_app. right. left. reflexivity. }
    assert (Hschedule :
              if contains (bs_steps config) (Z.of_nat (S k))
              then batch_size s_mid = batch_size s * bs_gamma config /\
                   0 < batch_size s_mid /\
                   train_dataloader s_mid
                   = cycle {| dl_dataset := train_dataset;
                              dl_batch_size := batch_size s_mid |}
                           (sampler (loaders_built s)) /\
                   cy_dataset (train_dataloader s_mid) = train_dataset /\
                   cy_saved (train_dataloader s_mid) = [] /\
                   cy_replay (train_dataloader s_mid) = [] /\
                   concat (cy_pending (train_dataloader s_mid))
                   = sampler (loaders_built s) /\
                   (forall front indices back,
                       cy_pending (train_dataloader s_mid)
                       = front ++ indices :: back ->
                       (1 <= length indices <= Z.to_nat (batch_size s_mid))%nat /\
                       (back <> [] ->
                        length indices = Z.to_nat (batch_size s_mid))) /\
                   loaders_built s_mid = S (loaders_built s)
              else batch_size s_mid = batch_size s /\
                   train_dataloader s_mid = loader /\
                   loaders_built s_mid = loaders_built s).
    { pose proof (tr_batch_size _ _ _ _ _ _ _ T) as Hbs.
      destruct (contains (bs_steps config) (Z.of_nat (S k))) eqn:Hsteps;
        [|exact Hbs].
      destruct Hbs as (Hsize & Hloader & Hbuilt).
      assert (Hpos : 0 < batch_size s_mid).
      { rewrite Hsize.
        destruct (Z_lt_le_dec 0 (batch_size s * bs_gamma config)) as [Hlt|Hle];
          [exact Hlt|].
        rewrite (train_iteration_bad_batch_size _ _ _ _ _ _ _ Hnext Hsteps Hle)
          in Hstep. discriminate. }
      destruct (cycle_pending train_dataset (batch_size s_mid)
                              (sampler (loaders_built s)) Hpos)
        as [Hconcat Hcut].
      rewrite <- Hloader in Hconcat, Hcut.
      split; [exact Hsize|]. split; [exact Hpos|]. split; [exact Hloader|].
      split; [now rewrite Hloader|]. split; [now rewrite Hloader|].
      split; [now rewrite Hloader|]. split; [exact Hconcat|].
      split; [exact Hcut|exact Hbuilt]. }
    destruct Hcase as [(_ & ->)|(_ & V)].
    + split; [exact Hmid|]. split; [apply (bi_batch_size _ _ _ _ _ _ B)|].
      exact Hschedule.
    + destruct (vd_pass _ _ _ _ V) as (h_val & last & new & _ & _ & Hcalls & _).
      destruct (vd_rest _ _ _ _ V) as (_ & Hbs & Hloader & Hbuilt & _).
      split; [|split; [apply (bi_batch_size _ _ _ _ _ _ B)|]].
      * rewrite Hcalls. unfold training_calls. rewrite filter_app, map_app.
        apply in_or_app. left. exact Hmid.
      * rewrite Hbs, Hloader, Hbuilt. exact Hschedule.
  - intros i. unfold contains. rewrite existsb_exists. split.
    + intros (x & Hin & Heq). apply Z.eqb_eq in Heq. now subst x.
    + intros Hin. exists i. split; [exact Hin|apply Z.eqb_refl].
  - intros W k.
    destruct (after_iterations_total _ _ _ _ W k) as (s & Hrun & _).
    exists s. split; [exact Hrun|].
    apply (bi_training_calls _ _ _ _ _ _
                             (after_iterations_between _ _ _ _ _ _ Hrun)).
Qed.

(** C6 (as amended).  The training loop does not alternate between the two
    losses: every training iteration clears the gradients, back-propagates
    the one joint objective (reconstruction loss) + ssl_alpha * (supervision
    loss) of its batch, and takes one optimizer step; nothing else is
    back-propagated during the turn. *)
Theorem C6_joint_objective_every_iteration
        (args : Args) (config : Config)
        (train_dataset val_dataset : list Example) (k : nat) (s s' : State) :
  after_iterations args config train_dataset val_dataset k = Ok s ->
  train_iteration args config train_dataset (Z.of_nat (S k)) s = Ok s' ->
  exists batch loader,
    next (train_dataloader s) = Ok (batch, loader) /\
    events (heap s')
    = events (heap s)
      ++ [EvZeroGrad;
          EvBackward (nadd (reconstruction_term batch (heap s))
                           (nmul (ssl_alpha config)
                                 (supervision_term batch (heap s))));
          EvStep (group_lr (optimizer_obj (heap s)))].
Proof.
  intros Hrun Hstep.
  pose proof (after_iterations_between _ _ _ _ _ _ Hrun) as B.
  destruct (train_iteration_inversion _ _ _ _ _ _ Hstep)
    as (batch & loader & s_mid & Hnext & T & _ & Hcase).
  exists batch, loader. split; [exact Hnext|].
  assert (Hmid : events (heap s_mid)
                 = events (heap s)
                   ++ [EvZeroGrad;
                       EvBackward (joint_objective config batch (heap s));
                       EvStep (group_lr (optimizer_obj (heap s)))]).
  { rewrite (tr_events _ _ _ _ _ _ _ T). unfold iteration_events.
    rewrite (proj1 (bi_generator _ _ _ _ _ _ B)),
      (proj1 (bi_reconstructor _ _ _ _ _ _ B)).
    reflexivity. }
  destruct Hcase as [(_ & ->)|(_ & V)]; [exact Hmid|].
  rewrite (vd_events _ _ _ _ V). exact Hmid.
Qed.

(** C7.  The auxiliary prior is frozen for the whole run: at set-up and
    after any number of iterations its module holds the weights loaded from
    the checkpoint named in the config and is in evaluation mode, it is not
    among the optimizer's parameters, and an optimizer step leaves it as it
    is. *)
Theorem C7_prior_frozen
        (args : Args) (config : Config)
        (train_dataset val_dataset : list Example) (k : nat) (s : State) :
  after_iterations args config train_dataset val_dataset k = Ok s ->
  net (handle_module (program_prior_obj (heap s)))
  = load_state_dict (init_net RefPrior config)
                    (torch_load (prior_checkpoint config)) /\
  training (handle_module (program_prior_obj (heap s))) = false /\
  ~ In RefPrior (group_params (optimizer_obj (heap s))) /\
  program_prior_obj (optimizer_step (heap s)) = program_prior_obj (heap s).
Proof.
  intros Hrun.
  pose proof (after_iterations_between _ _ _ _ _ _ Hrun) as B.
  assert (Hnoprior : ~ In RefPrior (group_params (optimizer_obj (heap s)))).
  { rewrite (bi_params _ _ _ _ _ _ B). cbn. intros [H|[H|[]]]; discriminate. }
  rewrite (bi_prior _ _ _ _ _ _ B).
  split; [reflexivity|]. split; [reflexivity|]. split; [exact Hnoprior|].
  now apply optimizer_step_prior.
Qed.

(** C8.  The learning rate is scheduled per iteration: the scheduler is
    stepped exactly once in every training iteration, so after [k]
    iterations (k at least 1) its epoch counter has advanced by [k], and the
    optimizer's learning rate is initial_lr times lr_gamma to the number of
    milestones of lr_steps passed at that epoch. *)
Theorem C8_learning_rate_schedule
        (args : Args) (config : Config)
        (train_dataset val_dataset : list Example) (k : nat) (s : State) :
  after_iterations args config train_dataset val_dataset (S k) = Ok s ->
  last_epoch (lr_scheduler s) = scheduler_epoch0 + Z.of_nat (S k) /\
  group_lr (optimizer_obj (heap s))
  = nmul (initial_lr config)
         (npow (lr_gamma config)
               (milestones_passed (lr_steps config)
                                  (last_epoch (lr_scheduler s)))).
Proof.
  intros Hrun.
  pose proof (after_iterations_between _ _ _ _ _ _ Hrun) as B.
  destruct (bi_scheduler _ _ _ _ _ _ B) as (_ & _ & _ & Hsorted).
  split; [apply (bi_epoch _ _ _ _ _ _ B)|].
  rewrite (bi_lr _ _ _ _ _ _ B), (bi_epoch _ _ _ _ _ _ B).
  unfold milestones_passed. now rewrite bisect_right_counts.
Qed.

(** C9.  The missing optimizer is never dereferenced.  With the generator in
    evaluation mode, [do_iteration] called with optimizer=None returns
    without any optimizer or autograd operation; every call the script makes
    with optimizer=None is made with both models in evaluation mode; and
    neither the loop nor the whole script ever ends in the AttributeError of
    a None optimizer. *)
Theorem C9_none_optimizer_never_used
        (args : Args) (config : Config)
        (train_dataset val_dataset : list Example) (k : nat) :
  (forall batch prior h,
      flag_of h RefGenerator = false ->
      exists out h',
        do_iteration config batch prior RefGenerator RefReconstructor None h
        = Ok (out, h') /\
        events h' = events h /\
        optimizer_obj h' = optimizer_obj h) /\
  (forall s,
      after_iterations args config train_dataset val_dataset k = Ok s ->
      Forall (fun c => arg_optimizer c = None ->
                       generator_training c = false /\
                       reconstructor_training c = false) (calls s)) /\
  after_iterations args config train_dataset val_dataset k
  <> Raise AttributeError /\
  main args config train_dataset val_dataset <> Raise AttributeError.
Proof.
  split; [|split; [|split]].
  - intros batch prior h Hflag.
    destruct (do_iteration_script config batch prior None h)
      as (h' & Hrun & Hm & He & _); [congruence|].
    do 2 eexists. split; [exact Hrun|]. split; [|apply Hm].
    rewrite He. unfold iteration_events. rewrite Hflag. cbn.
    apply app_nil_r.
  - intros s Hrun.
    pose proof (bi_calls _ _ _ _ _ _ (after_iterations_between _ _ _ _ _ _ Hrun))
      as Hcalls.
    eapply Forall_impl; [|exact Hcalls].
    intros c [(_ & _ & Hopt & _)|(_ & _ & _ & Hg & Hr)] Hnone;
      [congruence|split; assumption].
  - unfold after_iterations.
    destruct (setup args config train_dataset val_dataset) as [s0|e] eqn:E.
    + cbn [bind]. apply training_loop_no_AttributeError.
    + cbn [bind]. intros [= ->]. revert E. apply setup_no_AttributeError.
  - unfold main.
    destruct (setup args config train_dataset val_dataset) as [s0|e] eqn:E.
    + cbn [bind].
      destruct (training_loop args config train_dataset
                              (range1 (num_iterations config)) s0) eqn:L;
        cbn [bind]; [discriminate|].
      intros [= ->]. revert L. apply training_loop_no_AttributeError.
    + cbn [bind]. intros [= ->]. revert E. apply setup_no_AttributeError.
Qed.

(** C10.  The program generator and the question reconstructor are always
    in the same mode: every call of [do_iteration] by a training iteration
    finds both in training mode, every call of the validation block finds
    both in evaluation mode, and between two turns of the loop both are back
    in training mode (the script variables and the modules they hold). *)
Theorem C10_models_share_mode
        (args : Args) (config : Config)
        (train_dataset val_dataset : list Example) (k : nat) (s : State) :
  after_iterations args config train_dataset val_dataset k = Ok s ->
  Forall (fun c => generator_training c = reconstructor_training c /\
                   generator_training c = negb (in_validation c)) (calls s) /\
  flag_of (heap s) RefGenerator = true /\
  flag_of (heap s) RefReconstructor = true /\
  mode_of (heap s) RefGenerator = true /\
  mode_of (heap s) RefReconstructor = true.
Proof.
  intros Hrun.
  pose proof (after_iterations_between _ _ _ _ _ _ Hrun) as B.
  split.
  - eapply Forall_impl; [|apply (bi_calls _ _ _ _ _ _ B)].
    intros c [(-> & _ & _ & -> & ->)|(-> & _ & _ & -> & ->)]; split; reflexivity.
  - destruct (bi_generator _ _ _ _ _ _ B), (bi_reconstructor _ _ _ _ _ _ B).
    repeat split; assumption.
Qed.

End Properties.

(** ** The claims on the concrete instance *)

Module DemoChecks.

Import Demo.

Lemma demo_well_formed : well_formed args config train_dataset val_dataset.
Proof.
  constructor; try discriminate; try reflexivity.
  intros k. split; [reflexivity|].
  cbn. repeat constructor.
Defined.

(** C1, counterexample to the claim as stated: on this run no training
    iteration hands the loaded prior to [do_iteration]. *)
Lemma C1_counterexample :
  ~ (forall s,
        main args config train_dataset val_dataset = Ok s ->
        Forall (fun c => arg_program_prior c = Some RefPrior)
               (training_calls (calls s))).
Proof.
  intros H.
  assert (E : main args config train_dataset val_dataset = Ok final_state)
    by (vm_compute; reflexivity).
  specialize (H _ E). vm_compute in H.
  inversion H as [|c l Hc _]. discriminate Hc.
Qed.

Lemma C1_witness :
  after_iterations args config train_dataset val_dataset 2 = Ok (state_after 2) /\
  Forall (fun c => arg_program_prior c = None) (calls (state_after 2)) /\
  (forall batch prior prior' generator reconstructor optimizer h,
      do_iteration config batch prior generator reconstructor optimizer h
      = do_iteration config batch prior' generator reconstructor optimizer h) /\
  (forall batch prior optimizer h h' out other_prior,
      do_iteration config batch prior RefGenerator RefReconstructor optimizer h
      = Ok (out, h') ->
      exists h'',
        do_iteration config batch prior RefGenerator RefReconstructor optimizer
                     (assign h RefPrior other_prior)
        = Ok (out, h'')).
Proof.
  split; [vm_compute; reflexivity|].
  apply (C1_prior_takes_no_part args config train_dataset val_dataset 2).
  vm_compute; reflexivity.
Defined.


Section Exact.

Import Stdlib.QArith.QArith.
Local Open Scope Z_scope.

#[local] Existing Instance Q_exact | 0.

Lemma C3_witness :
  exists out h',
    do_iteration config batch None RefGenerator RefReconstructor
                 (Some RefOptimizer) (heap (state_after 0))
    = Ok (out, h') /\
    (forall x : Q, nadd x nzero = x) /\
    length (out_loss (fst (generator_pass batch (heap (state_after 0)))))
    = length (supervision batch) /\
    dict_get (loss out) "objective" = Some 3%Q /\
    dict_get (loss out) "reconstruction" = Some 2%Q /\
    dict_get (loss out) "reconstruction"
    = Some (ndiv (fold_left nadd
                            (masked_fill
                               (out_loss
                                  (fst (generator_pass batch
                                                       (heap (state_after 0)))))
                               (supervision batch))
                            nzero)
                 (nclamp_min
                    (nof_nat (length (filter (fun keep => keep)
                                             (supervision batch))))
                    neps)) /\
    fold_left nadd
              (masked_fill
                 (out_loss (fst (generator_pass batch (heap (state_after 0)))))
                 (supervision batch))
              nzero
    = fold_left nadd
                (supervised_only
                   (out_loss (fst (generator_pass batch (heap (state_after 0)))))
                   (supervision batch))
                nzero /\
    length (supervised_only
              (out_loss (fst (generator_pass batch (heap (state_after 0)))))
              (supervision batch))
    = length (filter (fun keep => keep) (supervision batch)).
Proof.
  assert (Hzero : forall x : Q, nadd x nzero = x).
  { intros [n d]. unfold nadd, nzero, Q_exact, Qplus. cbn.
    rewrite Z.mul_1_r, Z.add_0_r, Pos.mul_1_r. reflexivity. }
  destruct (do_iteration config batch None RefGenerator RefReconstructor
                         (Some RefOptimizer) (heap (state_after 0)))
    as [[out h']|e] eqn:E; [|vm_compute in E; discriminate E].
  destruct (C3_supervision_loss_masked
              config batch None (Some RefOptimizer) (heap (state_after 0))
              h' out E)
    as (Hobjective & Hterm & _ & _ & _ & _ & Hsum & Hcount).
  exists out, h'. split; [reflexivity|]. split; [exact Hzero|].
  split; [reflexivity|].
  split; [rewrite Hobjective; vm_compute; reflexivity|].
  split; [rewrite Hterm; vm_compute; reflexivity|].
  split; [exact Hterm|]. split; [exact (Hsum Hzero)|].
  exact (Hcount eq_refl).
Defined.

End Exact.


Lemma C5_witness :
  (train_dataset <> [] /\
   length (sampler 0%nat) = length train_dataset /\
   Forall (fun i => (i < length train_dataset)%nat) (sampler 0%nat) /\
   exists batches,
     draw 5 (cycle {| dl_dataset := train_dataset; dl_batch_size := 2 |}
                   (sampler 0%nat))
     = Ok batches /\
     length batches = 5%nat) /\
  (after_iterations args config train_dataset val_dataset 1 = Ok (state_after 1) /\
   train_iteration args config train_dataset (Z.of_nat 2) (state_after 1)
   = Ok (state_after 2) /\
   exists batch loader,
     next (train_dataloader (state_after 1)) = Ok (batch, loader) /\
     In batch (map arg_batch (training_calls (calls (state_after 2)))) /\
     batch_size (state_after 1) = scheduled_batch_size config 1 /\
     (if contains (bs_steps config) (Z.of_nat 2)
      then batch_size (state_after 2)
           = batch_size (state_after 1) * bs_gamma config /\
           0 < batch_size (state_after 2) /\
           train_dataloader (state_after 2)
           = cycle {| dl_dataset := train_dataset;
                      dl_batch_size := batch_size (state_after 2) |}
                   (sampler (loaders_built (state_after 1))) /\
           cy_dataset (train_dataloader (state_after 2)) = train_dataset /\
           cy_saved (train_dataloader (state_after 2)) = [] /\
           cy_replay (train_dataloader (state_after 2)) = [] /\
           concat (cy_pending (train_dataloader (state_after 2)))
           = sampler (loaders_built (state_after 1)) /\
           (forall front indices back,
               cy_pending (train_dataloader (state_after 2))
               = front ++ indices :: back ->
               (1 <= length indices
                <= Z.to_nat (batch_size (state_after 2)))%nat /\
               (back <> [] ->
                length indices = Z.to_nat (batch_size (state_after 2)))) /\
           loaders_built (state_after 2) = S (loaders_built (state_after 1))
      else batch_size (state_after 2) = batch_size (state_after 1) /\
           train_dataloader (state_after 2) = loader /\
           loaders_built (state_after 2) = loaders_built (state_after 1))) /\
  (contains (bs_steps config) 2 = true <-> In 2 (bs_steps config)) /\
  well_formed args config train_dataset val_dataset /\
  exists s,
    after_iterations args config train_dataset val_dataset 4 = Ok s /\
    length (training_calls (calls s)) = 4%nat.
Proof.
  pose proof (C5_cyclic_loader_and_batch_size_schedule
                args config train_dataset val_dataset)
    as (Hcycle & Hturn & Hsteps & Hall).
  assert (Hne : train_dataset <> []) by discriminate.
  assert (Hlen : length (sampler 0%nat) = length train_dataset) by reflexivity.
  assert (Hvalid : Forall (fun i => (i < length train_dataset)%nat)
                          (sampler 0%nat)) by (cbn; repeat constructor).
  assert (H1 : after_iterations args config train_dataset val_dataset 1
               = Ok (state_after 1)) by (vm_compute; reflexivity).
  assert (H2 : train_iteration args config train_dataset (Z.of_nat 2)
                               (state_after 1)
               = Ok (state_after 2)) by (vm_compute; reflexivity).
  split; [|split; [|split]].
  - split; [exact Hne|]. split; [exact Hlen|]. split; [exact Hvalid|].
    exact (Hcycle 2 (sampler 0%nat) 5%nat Hne Hlen Hvalid).
  - split; [exact H1|]. split; [exact H2|]. exact (Hturn 1%nat _ _ H1 H2).
  - exact (Hsteps 2).
  - split; [exact demo_well_formed|]. exact (Hall demo_well_formed 4%nat).
Defined.

(** C6, counterexample to the claim as stated: on this run the objective of
    a training iteration (3) is neither the supervision loss (2) nor the
    reconstruction loss (1) alone. *)
Lemma C6_counterexample :
  ~ (forall s,
        main args config train_dataset val_dataset = Ok s ->
        Forall (fun c => loss_at c "objective" = loss_at c "reconstruction" \/
                         loss_at c "objective" = loss_at c "supervision")
               (training_calls (calls s))).
Proof.
  intros H.
  assert (E : main args config train_dataset val_dataset = Ok final_state)
    by (vm_compute; reflexivity).
  specialize (H _ E). vm_compute in H.
  inversion H as [|c l Hc _]. destruct Hc as [Hc|Hc]; discriminate Hc.
Qed.

Lemma C6_witness :
  after_iterations args config train_dataset val_dataset 1 = Ok (state_after 1) /\
  train_iteration args config train_dataset (Z.of_nat 2) (state_after 1)
  = Ok (state_after 2) /\
  exists batch loader,
    next (train_dataloader (state_after 1)) = Ok (batch, loader) /\
    events (heap (state_after 2))
    = events (heap (state_after 1))
      ++ [EvZeroGrad;
          EvBackward (nadd (reconstruction_term batch (heap (state_after 1)))
                           (nmul (ssl_alpha config)
                                 (supervision_term batch (heap (state_after 1)))));
          EvStep (group_lr (optimizer_obj (heap (state_after 1))))].
Proof.
  split; [vm_compute; reflexivity|]. split; [vm_compute; reflexivity|].
  apply (C6_joint_objective_every_iteration
           args config train_dataset val_dataset 1);
    vm_compute; reflexivity.
Defined.

Lemma C7_witness :
  after_iterations args config train_dataset val_dataset 4 = Ok (state_after 4) /\
  net (handle_module (program_prior_obj (heap (state_after 4))))
  = load_state_dict (init_net RefPrior config)
                    (torch_load (prior_checkpoint config)) /\
  training (handle_module (program_prior_obj (heap (state_after 4)))) = false /\
  ~ In RefPrior (group_params (optimizer_obj (heap (state_after 4)))) /\
  program_prior_obj (optimizer_step (heap (state_after 4)))
  = program_prior_obj (heap (state_after 4)).
Proof.
  split; [vm_compute; reflexivity|].
  apply (C7_prior_frozen args config train_dataset val_dataset 4).
  vm_compute; reflexivity.
Defined.

Lemma C8_witness :
  after_iterations args config train_dataset val_dataset 3 = Ok (state_after 3) /\
  last_epoch (lr_scheduler (state_after 3)) = scheduler_epoch0 + Z.of_nat 3 /\
  group_lr (optimizer_obj (heap (state_after 3)))
  = nmul (initial_lr config)
         (npow (lr_gamma config)
               (milestones_passed (lr_steps config)
                                  (last_epoch (lr_scheduler (state_after 3))))).
Proof.
  split; [vm_compute; reflexivity|].
  apply (C8_learning_rate_schedule args config train_dataset val_dataset 2).
  vm_compute; reflexivity.
Defined.

Lemma C9_witness :
  flag_of (evaluation_heap (state_after 2)) RefGenerator = false /\
  (exists out h',
      do_iteration config batch None RefGenerator RefReconstructor None
                   (evaluation_heap (state_after 2))
      = Ok (out, h') /\
      events h' = events (evaluation_heap (state_after 2)) /\
      optimizer_obj h' = optimizer_obj (evaluation_heap (state_after 2))) /\
  after_iterations args config train_dataset val_dataset 2 = Ok (state_after 2) /\
  Forall (fun c => arg_optimizer c = None ->
                   generator_training c = false /\
                   reconstructor_training c = false)
         (calls (state_after 2)).
Proof.
  pose proof (C9_none_optimizer_never_used
                args config train_dataset val_dataset 2)
    as (Hcall & Hcalls & _ & _).
  split; [vm_compute; reflexivity|].
  split; [apply Hcall; vm_compute; reflexivity|].
  split; [vm_compute; reflexivity|].
  apply Hcalls. vm_compute; reflexivity.
Defined.

Lemma C10_witness :
  after_iterations args config train_dataset val_dataset 2 = Ok (state_after 2) /\
  Forall (fun c => generator_training c = reconstructor_training c /\
                   generator_training c = negb (in_validation c))
         (calls (state_after 2)) /\
  flag_of (heap (state_after 2)) RefGenerator = true /\
  flag_of (heap (state_after 2)) RefReconstructor = true /\
  mode_of (heap (state_after 2)) RefGenerator = true /\
  mode_of (heap (state_after 2)) RefReconstructor = true.
Proof.
  split; [vm_compute; reflexivity|].
  apply (C10_models_share_mode args config train_dataset val_dataset 2).
  vm_compute; reflexivity.
Defined.

End DemoChecks.

(** * Further properties *)

(** ** Rounds of the cyclic loader *)

Lemma fetch_all_length (dataset : list Example) :
  forall index_batches batches,
    fetch_all dataset index_batches = Ok batches ->
    length batches = length index_batches.
Proof.
  induction index_batches as [|indices rest IH]; intros batches; cbn.
  - now intros [= <-].
  - destruct (fetch dataset indices); cbn; [|discriminate].
    destruct (fetch_all dataset rest) eqn:E; cbn; [|discriminate].
    intros [= <-]. cbn. f_equal. now apply IH.
Qed.

Lemma draws_first_pass (dataset : list Example) :
  forall index_batches saved batches,
    fetch_all dataset index_batches = Ok batches ->
    draws (length index_batches)
          {| cy_dataset := dataset; cy_pending := index_batches;
             cy_saved := saved; cy_replay := [] |}
    = Ok (batches,
          {| cy_dataset := dataset; cy_pending := [];
             cy_saved := saved ++ batches; cy_replay := [] |}).
Proof.
  induction index_batches as [|indices rest IH]; intros saved batches; cbn.
  - intros [= <-]. now rewrite app_nil_r.
  - unfold next. cbn.
    destruct (fetch dataset indices) as [b|e]; cbn; [|discriminate].
    destruct (fetch_all dataset rest) as [bs|e] eqn:E; cbn; [|discriminate].
    intros [= <-]. rewrite (IH (saved ++ [b]) bs eq_refl). cbn.
    now rewrite <- app_assoc.
Qed.

Lemma draws_replay (dataset : list Example) (saved : list Batch) :
  forall replay,
    draws (length replay)
          {| cy_dataset := dataset; cy_pending := [];
             cy_saved := saved; cy_replay := replay |}
    = Ok (replay,
          {| cy_dataset := dataset; cy_pending := [];
             cy_saved := saved; cy_replay := [] |}).
Proof.
  induction replay as [|b replay IH]; cbn; [reflexivity|].
  unfold next. cbn. now rewrite IH.
Qed.

Lemma draws_round (dataset : list Example) (saved : list Batch) :
  draws (length saved)
        {| cy_dataset := dataset; cy_pending := [];
           cy_saved := saved; cy_replay := [] |}
  = Ok (saved,
        {| cy_dataset := dataset; cy_pending := [];
           cy_saved := saved; cy_replay := [] |}).
Proof.
  destruct saved as [|b rest] eqn:E; [reflexivity|].
  cbn [length draws]. unfold next. cbn [cy_pending cy_replay cy_saved bind
                                         cy_dataset].
  rewrite (draws_replay dataset (b :: rest) rest). reflexivity.
Qed.

Lemma draws_app (n m : nat) :
  forall c,
    draws (n + m) c
    = ('(first, c1) <- draws n c ;;
       '(second, c2) <- draws m c1 ;;
       Ok (first ++ second, c2)).
Proof.
  induction n as [|n IH]; intros c; cbn.
  - destruct (draws m c) as [[second c2]|e]; reflexivity.
  - destruct (next c) as [[b c']|e]; cbn; [|reflexivity].
    rewrite IH. destruct (draws n c') as [[first c1]|e]; cbn; [|reflexivity].
    destruct (draws m c1) as [[second c2]|e]; reflexivity.
Qed.

Lemma draws_rounds (dataset : list Example) (saved : list Batch) (rounds : nat) :
  draws (rounds * length saved)
        {| cy_dataset := dataset; cy_pending := [];
           cy_saved := saved; cy_replay := [] |}
  = Ok (concat (repeat saved rounds),
        {| cy_dataset := dataset; cy_pending := [];
           cy_saved := saved; cy_replay := [] |}).
Proof.
  induction rounds as [|rounds IH]; [reflexivity|].
  cbn [Nat.mul repeat concat]. rewrite draws_app, draws_round. cbn [bind].
  rewrite IH. reflexivity.
Qed.

(** X1.  [itertools.cycle] over the data loader replays its first pass: the
    first draws fetch the batches of the sampler's index sequence, and every
    later round yields exactly these batches again, in the same order; the
    sampler is not consulted again. *)
Theorem X1_cyclic_loader_replays_first_pass
        (loader : DataLoader) (drawn : list nat) (batches : list Batch)
        (rounds : nat) :
  fetch_all (dl_dataset loader) (cy_pending (cycle loader drawn)) = Ok batches ->
  let replaying := {| cy_dataset := dl_dataset loader; cy_pending := [];
                      cy_saved := batches; cy_replay := [] |} in
  draws (length batches) (cycle loader drawn) = Ok (batches, replaying) /\
  draws (rounds * length batches) replaying
  = Ok (concat (repeat batches rounds), replaying).
Proof.
  intros Hfetch replaying. split; [|apply draws_rounds].
  rewrite (fetch_all_length _ _ _ Hfetch).
  apply (draws_first_pass (dl_dataset loader) _ [] batches Hfetch).
Qed.

(** ** Sizes of the batches *)

Lemma getitems_length (dataset : list Example) :
  forall indices items,
    getitems dataset indices = Ok items -> length items = length indices.
Proof.
  induction indices as [|i indices IH]; intros items; cbn.
  - now intros [= <-].
  - destruct (getitem dataset i); cbn; [|discriminate].
    destruct (getitems dataset indices) eqn:E; cbn; [|discriminate].
    intros [= <-]. cbn. f_equal. now apply IH.
Qed.

Lemma fetch_sized (dataset : list Example) (indices : list nat) (n : nat)
      (b : Batch) :
  fetch dataset indices = Ok b ->
  (1 <= length indices <= n)%nat ->
  sized n b.
Proof.
  unfold fetch. destruct (getitems dataset indices) as [items|e] eqn:E; cbn;
    [|discriminate].
  intros [= <-] Hlen. apply getitems_length in E.
  unfold sized, collate. cbn. rewrite !length_map. lia.
Qed.

Lemma next_within (n : nat) (c c' : Cycle) (b : Batch) :
  batches_within n c ->
  next c = Ok (b, c') ->
  sized n b /\ batches_within n c'.
Proof.
  intros (Hp & Hs & Hr). unfold next.
  destruct (cy_pending c) as [|indices rest].
  - destruct (cy_replay c) as [|b0 replay].
    + destruct (cy_saved c) as [|b0 saved] eqn:Es; [discriminate|].
      intros [= <- <-].
      inversion Hs as [|? ? Hb0 Hsaved]; subst.
      split; [exact Hb0|].
      split; [constructor|]. split; cbn; [exact Hs|exact Hsaved].
    + intros [= <- <-]. inversion Hr as [|? ? Hb0 Hreplay]; subst.
      split; [exact Hb0|].
      split; [constructor|]. split; cbn; [exact Hs|exact Hreplay].
  - inversion Hp as [|? ? Hi Hrest]; subst.
    destruct (fetch (cy_dataset c) indices) as [b0|e] eqn:E; cbn; [|discriminate].
    intros [= <- <-]. pose proof (fetch_sized _ _ _ _ E Hi) as Hb.
    split; [exact Hb|].
    split; [exact Hrest|]. split; cbn; [|exact Hr].
    apply Forall_app. split; [exact Hs|]. constructor; [exact Hb|constructor].
Qed.

Lemma cycle_within (dataset : list Example) (size : Z) (drawn : list nat) :
  0 < size ->
  batches_within (Z.to_nat size)
                 (cycle {| dl_dataset := dataset; dl_batch_size := size |} drawn).
Proof.
  intros Hsize. split; [|split; constructor]. cbn.
  apply batch_sampler_sizes; cbn; lia.
Qed.

(** ** Further properties of the script *)

Section MoreProperties.

Context {num : Type} {scalar : Scalar num} {framework : Framework num}.

Local Abbreviation Config := (Config num).
Local Abbreviation Call := (@Call num).
Local Abbreviation IterationOutput := (@IterationOutput num).

(** A batch size that is not positive stops the turn that asks for it. *)
(** In every state the loop reaches the batch size is positive and bounds
    the batches of the cyclic loader. *)
Lemma after_iterations_loader (args : Args) (config : Config)
      (train_dataset val_dataset : list Example) (k : nat) (s : State) :
  after_iterations args config train_dataset val_dataset k = Ok s ->
  0 < batch_size s /\
  batches_within (Z.to_nat (batch_size s)) (train_dataloader s).
Proof.
  revert s. induction k as [|k IH]; intros s Hrun.
  - unfold after_iterations in Hrun. cbn in Hrun.
    destruct (setup args config train_dataset val_dataset) as [s0|e] eqn:E;
      [|discriminate].
    cbn in Hrun. injection Hrun as <-.
    destruct (setup_between _ _ _ _ _ E) as (B & _ & Hbs & Hloader & _).
    rewrite (bi_batch_size _ _ _ _ _ _ B), Hloader. cbn.
    split; [exact Hbs|]. now apply cycle_within.
  - rewrite after_iterations_succ in Hrun.
    destruct (after_iterations args config train_dataset val_dataset k)
      as [sk|e]; [|discriminate].
    cbn [bind] in Hrun. destruct (IH sk eq_refl) as [Hpos Hwithin].
    destruct (train_iteration_inversion _ _ _ _ _ _ Hrun)
      as (batch & loader & s_mid & Hnext & T & _ & Hcase).
    assert (Hmid : 0 < batch_size s_mid /\
                   batches_within (Z.to_nat (batch_size s_mid))
                                  (train_dataloader s_mid)).
    { pose proof (tr_batch_size _ _ _ _ _ _ _ T) as Hbs.
      destruct (contains (bs_steps config) (Z.of_nat (S k))) eqn:Hsteps.
      - destruct Hbs as (Hsize & Hloader & _).
        assert (0 < batch_size sk * bs_gamma config).
        { destruct (Z_lt_le_dec 0 (batch_size sk * bs_gamma config))
            as [Hok|Hbad]; [exact Hok|].
          pose proof (train_iteration_bad_batch_size
                        args config train_dataset _ _ _ _ Hnext Hsteps Hbad).
          congruence. }
        rewrite Hloader, Hsize. split; [assumption|]. now apply cycle_within.
      - destruct Hbs as (-> & -> & _). split; [exact Hpos|].
        apply (next_within _ _ _ _ Hwithin Hnext). }
    destruct Hcase as [(_ & ->)|(_ & V)]; [exact Hmid|].
    destruct (vd_rest _ _ _ _ V) as (_ & -> & -> & _). exact Hmid.
Qed.

(** X2.  Every batch the training loop draws has at least one example and at
    most as many as the batch size scheduled after the iterations completed
    so far (a grown batch size applies from the next iteration on), its
    three columns have the same length, and that batch size is positive in
    every state the loop reaches. *)
Theorem X2_training_batches_within_scheduled_size
        (args : Args) (config : Config)
        (train_dataset val_dataset : list Example) (k : nat) (s : State)
        (batch : Batch) (loader : Cycle) :
  after_iterations args config train_dataset val_dataset k = Ok s ->
  next (train_dataloader s) = Ok (batch, loader) ->
  0 < scheduled_batch_size config k /\
  (1 <= Z.of_nat (length (question batch)) <= scheduled_batch_size config k) /\
  length (program batch) = length (question batch) /\
  length (supervision batch) = length (question batch).
Proof.
  intros Hrun Hnext.
  destruct (after_iterations_loader _ _ _ _ _ _ Hrun) as [Hpos Hwithin].
  pose proof (after_iterations_between _ _ _ _ _ _ Hrun) as B.
  rewrite (bi_batch_size _ _ _ _ _ _ B) in Hpos, Hwithin.
  destruct (next_within _ _ _ _ Hwithin Hnext) as [(Hlen & Hp & Hs) _].
  split; [exact Hpos|]. split; [lia|]. split; assumption.
Qed.

Lemma scheduled_batch_size_closed (config : Config) (k : nat) :
  scheduled_batch_size config k
  = initial_bs config
    * bs_gamma config
      ^ Z.of_nat (length (iterations_where (contains (bs_steps config)) k)).
Proof.
  induction k as [|k IH]; [cbn; lia|].
  cbn [scheduled_batch_size]. rewrite iterations_where_succ, length_app.
  destruct (contains (bs_steps config) (Z.of_nat (S k))); cbn [length].
  - rewrite IH, Nat2Z.inj_add. cbn [Z.of_nat length].
    rewrite Z.pow_add_r by lia. cbn. lia.
  - rewrite IH, Nat.add_0_r. reflexivity.
Qed.

(** X3.  After [k] iterations the batch size is initial_bs times bs_gamma to
    the number of iterations among 1..k that occur in bs_steps: an iteration
    listed more than once counts once, and entries of bs_steps outside 1..k
    do not count. *)
Theorem X3_batch_size_closed_form
        (args : Args) (config : Config)
        (train_dataset val_dataset : list Example) (k : nat) (s : State) :
  after_iterations args config train_dataset val_dataset k = Ok s ->
  batch_size s
  = initial_bs config
    * bs_gamma config
      ^ Z.of_nat (length (filter (contains (bs_steps config))
                                 (range1 (Z.of_nat k)))).
Proof.
  intros Hrun.
  rewrite (bi_batch_size _ _ _ _ _ _ (after_iterations_between _ _ _ _ _ _ Hrun)).
  apply scheduled_batch_size_closed.
Qed.

(** X4.  [do_iteration], called on the script's generator and
    reconstructor, raises exactly when the generator is in training mode and
    no optimizer is given, and what it raises then is the AttributeError of
    [None.zero_grad()]; the mode of the reconstructor plays no part. *)
Theorem X4_do_iteration_raises_iff
        (config : Config) (batch : Batch) (prior : option ModelRef)
        (optimizer : option OptimizerRef) (h : Heap) (e : Exception) :
  do_iteration config batch prior RefGenerator RefReconstructor optimizer h
  = Raise e
  <-> flag_of h RefGenerator = true /\ optimizer = None /\ e = AttributeError.
Proof.
  split.
  - intros Hraise. destruct (flag_of h RefGenerator) eqn:Hflag.
    + destruct optimizer as [[]|].
      * destruct (do_iteration_script config batch prior (Some RefOptimizer) h)
          as (h' & Hok & _); [reflexivity|]. congruence.
      * unfold do_iteration in Hraise. fold (flag_of h RefGenerator) in Hraise.
        rewrite Hflag in Hraise. cbn in Hraise. injection Hraise as <-.
        repeat split.
    + destruct (do_iteration_script config batch prior optimizer h)
        as (h' & Hok & _); [congruence|]. congruence.
  - intros (Hflag & -> & ->). unfold do_iteration.
    fold (flag_of h RefGenerator). rewrite Hflag. reflexivity.
Qed.

(** X5.  In the dict [do_iteration] returns, "__pg" holds the predictions of
    the teacher-forced generator pass, not the greedily decoded programs;
    the greedy programs are what the reconstructor was fed, and "__qr" holds
    the reconstructor's predictions for them. *)
Theorem X5_predictions_returned
        (config : Config) (batch : Batch) (prior : option ModelRef)
        (optimizer : option OptimizerRef) (h h' : Heap) (out : IterationOutput) :
  do_iteration config batch prior RefGenerator RefReconstructor optimizer h
  = Ok (out, h') ->
  dict_get (predictions out) "__pg"
  = Some (out_predictions
            (fst (forward RefGenerator (net_of h RefGenerator)
                          (mode_of h RefGenerator)
                          (question batch) (Some (program batch)) false))) /\
  dict_get (predictions out) "__qr"
  = Some (out_predictions
            (fst (forward RefReconstructor (net_of h RefReconstructor)
                          (mode_of h RefReconstructor)
                          (out_predictions (fst (greedy_pass batch h)))
                          (Some (question batch)) false))) /\
  fst (greedy_pass batch h)
  = fst (forward RefGenerator
                 (snd (forward RefGenerator (net_of h RefGenerator)
                               (mode_of h RefGenerator)
                               (question batch) (Some (program batch)) false))
                 (mode_of h RefGenerator) (question batch) None true).
Proof.
  intros Hrun. rewrite (do_iteration_returns _ _ _ _ _ _ _ Hrun).
  repeat split.
Qed.

(** On a rectangular batch the loop of qualitative examples can only stop
    at a prediction with fewer rows than examples to print. *)
Lemma qualitative_examples_short (token : Z -> string -> string)
      (config : Config) (b : Batch) (hb : Heap) :
  length (program b) = length (question b) ->
  raised (qualitative_examples token b (iteration_output config b hb))
  = Some PrintIndexError ->
  (length (out_predictions (fst (generator_pass b hb)))
   < Nat.min (length (question b)) 20 \/
   length (out_predictions (fst (reconstructor_pass b hb)))
   < Nat.min (length (question b)) 20)%nat.
Proof.
  intros Hrect Hprint.
  destruct (Nat.lt_ge_cases
              (length (out_predictions (fst (generator_pass b hb))))
              (Nat.min (length (question b)) 20)) as [Hpg|Hpg];
    [now left|].
  destruct (Nat.lt_ge_cases
              (length (out_predictions (fst (reconstructor_pass b hb))))
              (Nat.min (length (question b)) 20)) as [Hqr|Hqr];
    [now right|].
  exfalso. unfold qualitative_examples in Hprint.
  destruct (print_examples_in_range
              token b (iteration_output config b hb)
              (out_predictions (fst (generator_pass b hb)))
              (out_predictions (fst (reconstructor_pass b hb)))
              (seq 0 (Nat.min (length (question b)) 20))
              eq_refl eq_refl) as [Hnone _].
  - apply Forall_forall. intros j Hj. apply in_seq in Hj. lia.
  - rewrite Hnone in Hprint. discriminate.
Qed.

(** X6.  Every way a turn of the training loop can fail: StopIteration or
    IndexError from the draw of the batch; ValueError when the iteration is
    in bs_steps and the grown batch size is not positive; ZeroDivisionError
    when checkpoint_every is zero; and, when the iteration is a multiple of
    checkpoint_every, NameError when the validation loader has no batch, or
    IndexError from the loop of qualitative examples: the validation loader
    has no batch and the training batch drawn has questions but no program
    row, or one of the two predictions on the last validation batch has
    fewer rows than the examples to print.  In particular no turn raises
    KeyError or AttributeError. *)
Theorem X6_training_turn_failures
        (args : Args) (config : Config) (train_dataset : list Example)
        (iteration : Z) (s : State) (e : Exception) :
  train_iteration args config train_dataset iteration s = Raise e ->
  ((e = StopIteration \/ e = IndexError) /\
   next (train_dataloader s) = Raise e) \/
  (e = ValueError /\
   contains (bs_steps config) iteration = true /\
   batch_size s * bs_gamma config <= 0) \/
  (e = ZeroDivisionError /\ checkpoint_every args = 0) \/
  (e = NameError /\
   checkpoint_every args <> 0 /\
   iteration mod checkpoint_every args = 0 /\
   val_batches (val_dataloader s) = []) \/
  (e = IndexError /\
   checkpoint_every args <> 0 /\
   iteration mod checkpoint_every args = 0 /\
   ((val_batches (val_dataloader s) = [] /\
     exists batch loader,
       next (train_dataloader s) = Ok (batch, loader) /\
       question batch <> [] /\ program batch = []) \/
    (exists front b hb,
        val_batches (val_dataloader s) = front ++ [b] /\
        (length (out_predictions (fst (generator_pass b hb)))
         < Nat.min (length (question b)) 20 \/
         length (out_predictions (fst (reconstructor_pass b hb)))
         < Nat.min (length (question b)) 20)%nat))).
Proof.
  intros Hraise.
  pose proof (train_iteration_cases args config train_dataset iteration s) as C.
  destruct (next (train_dataloader s)) as [[batch loader]|e0] eqn:Hnext.
  - destruct C as [(Hsteps & Hbs & C)|(s_mid & T & C)].
    + right. left. split; [congruence|]. split; assumption.
    + destruct C as [(Hce & C)|[(_ & _ & C)|(Hce & Hmod & C)]].
      * right. right. left. split; [congruence|exact Hce].
      * congruence.
      * right. right. right.
        destruct (tr_rest _ _ _ _ _ _ _ T) as (_ & _ & Hval).
        destruct (validate_cases config iteration batch s_mid)
          as [(Hempty & Hsome & [(Hprog & Hindex)|(_ & Hname)])
             |[(front & b & hb & Hbatches & Hprint & Hindex)
              |(s' & Hok & _)]];
          [| | |congruence]; rewrite Hval in *.
        -- right. split; [congruence|]. split; [exact Hce|].
           split; [exact Hmod|]. left. split; [exact Hempty|].
           exists batch, loader. split; [reflexivity|].
           split; [|exact Hprog].
           intros Hq. rewrite Hq in Hsome. cbn in Hsome. lia.
        -- left. split; [congruence|]. repeat split; assumption.
        -- right. split; [congruence|]. split; [exact Hce|].
           split; [exact Hmod|]. right. exists front, b, hb.
           split; [exact Hbatches|].
           apply (qualitative_examples_short vocabulary config);
             [|exact Hprint].
           apply (val_batches_rectangular (val_dataloader s)).
           rewrite Hbatches. apply in_or_app. right. now left.
  - left. assert (e0 = e) by congruence. subst e0.
    split; [|reflexivity]. now apply (next_raises (train_dataloader s)).
Qed.

(** *** Runs that stop early, runs without iterations *)

Lemma setup_succeeds (args : Args) (config : Config)
      (train_dataset val_dataset : list Example) :
  gpu_ids args <> [] ->
  0 < initial_bs config ->
  is_sorted (lr_steps config) = true ->
  exists s,
    setup args config train_dataset val_dataset = Ok s /\
    calls s = [] /\
    written (summary_writer s) = [] /\
    closed (summary_writer s) = false /\
    saved_best (program_generator_checkpoint_manager s) = false /\
    saved_best (question_reconstructor_checkpoint_manager s) = false.
Proof.
  intros Hgpu Hbs Hsorted. unfold setup.
  destruct (gpu_ids args) as [|g gs] eqn:E; [congruence|].
  cbn [bind]. unfold new_DataLoader.
  destruct (initial_bs config <=? 0) eqn:Hle; [apply Z.leb_le in Hle; lia|].
  cbn [bind]. unfold new_MultiStepLR. rewrite Hsorted.
  cbn [bind scheduler_step_to]. eexists. split; [reflexivity|].
  repeat split.
Qed.

Lemma range1_cons (n : Z) :
  1 <= n -> exists rest, range1 n = 1 :: rest.
Proof.
  intros Hn. unfold range1.
  destruct (Z.to_nat n) as [|m] eqn:E; [lia|].
  cbn. eexists. reflexivity.
Qed.

Lemma range1_nil (n : Z) : n <= 0 -> range1 n = [].
Proof.
  intros Hn. unfold range1. replace (Z.to_nat n) with 0%nat by lia.
  reflexivity.
Qed.

(** With a sampler that draws as many valid indices as the training set has
    items, over a non-empty training set, the cyclic loader of every reached
    state can deliver. *)
Lemma after_iterations_deliverable (args : Args) (config : Config)
      (train_dataset val_dataset : list Example) :
  train_dataset <> [] ->
  (forall pass, length (sampler pass) = length train_dataset /\
                Forall (fun i => (i < length train_dataset)%nat) (sampler pass)) ->
  forall k s,
    after_iterations args config train_dataset val_dataset k = Ok s ->
    deliverable (train_dataloader s).
Proof.
  intros Hne Hsampler.
  assert (Hfresh : forall size pass,
             deliverable (cycle {| dl_dataset := train_dataset;
                                   dl_batch_size := size |} (sampler pass))).
  { intros size pass. destruct (Hsampler pass) as [Hlen Hvalid].
    apply cycle_deliverable; [|exact Hvalid].
    intros Hnil. rewrite Hnil in Hlen. cbn in Hlen.
    destruct train_dataset; [congruence|discriminate]. }
  induction k as [|k IH]; intros s Hrun.
  - unfold after_iterations in Hrun. cbn in Hrun.
    destruct (setup args config train_dataset val_dataset) as [s0|e] eqn:E;
      [|discriminate].
    cbn in Hrun. injection Hrun as <-.
    destruct (setup_between _ _ _ _ _ E) as (_ & _ & _ & -> & _). apply Hfresh.
  - rewrite after_iterations_succ in Hrun.
    destruct (after_iterations args config train_dataset val_dataset k)
      as [sk|e]; [|discriminate].
    cbn [bind] in Hrun. specialize (IH sk eq_refl).
    destruct (train_iteration_inversion _ _ _ _ _ _ Hrun)
      as (batch & loader & s_mid & Hnext & T & _ & Hcase).
    assert (Hmid : deliverable (train_dataloader s_mid)).
    { pose proof (tr_batch_size _ _ _ _ _ _ _ T) as Hbs.
      destruct (contains (bs_steps config) (Z.of_nat (S k)));
        destruct Hbs as (_ & -> & _); [apply Hfresh|].
      destruct (next_deliverable _ IH) as (b & c' & Hnext' & D & _).
      rewrite Hnext in Hnext'. injection Hnext' as _ <-. exact D. }
    destruct Hcase as [(_ & ->)|(_ & V)]; [exact Hmid|].
    destruct (vd_rest _ _ _ _ V) as (_ & _ & -> & _). exact Hmid.
Qed.

(** X7.  With checkpoint_every equal to zero the script stops in its first
    iteration with ZeroDivisionError, after that iteration's optimizer step
    and scheduling, whatever the rest of the inputs (provided the first
    iteration gets that far: set-up succeeds, the training set is non-empty
    and the batch size stays positive). *)
Theorem X7_zero_checkpoint_period_raises
        (args : Args) (config : Config)
        (train_dataset val_dataset : list Example) :
  checkpoint_every args = 0 ->
  1 <= num_iterations config ->
  gpu_ids args <> [] ->
  0 < initial_bs config ->
  0 < bs_gamma config ->
  is_sorted (lr_steps config) = true ->
  train_dataset <> [] ->
  (forall pass, length (sampler pass) = length train_dataset /\
                Forall (fun i => (i < length train_dataset)%nat) (sampler pass)) ->
  main args config train_dataset val_dataset = Raise ZeroDivisionError.
Proof.
  intros Hce Hn Hgpu Hbs Hgamma Hsorted Hne Hsampler.
  destruct (setup_succeeds args config train_dataset val_dataset
                           Hgpu Hbs Hsorted) as (s0 & Hsetup & _).
  assert (H0 : after_iterations args config train_dataset val_dataset 0 = Ok s0).
  { unfold after_iterations. rewrite Hsetup. reflexivity. }
  pose proof (after_iterations_deliverable args config train_dataset val_dataset
                                           Hne Hsampler 0 s0 H0) as D.
  destruct (after_iterations_loader _ _ _ _ _ _ H0) as [Hpos _].
  unfold main. rewrite Hsetup. cbn [bind].
  destruct (range1_cons _ Hn) as [rest ->]. cbn [training_loop].
  pose proof (train_iteration_cases args config train_dataset 1 s0) as C.
  destruct (next_deliverable _ D) as (batch & loader & Hnext & _).
  rewrite Hnext in C.
  destruct C as [(_ & Hbad & _)|(s_mid & _ & C)].
  - exfalso. assert (0 < batch_size s0 * bs_gamma config)
      by (apply Z.mul_pos_pos; assumption). lia.
  - destruct C as [(_ & ->)|[(Hnz & _)|(Hnz & _)]];
      [reflexivity|congruence|congruence].
Qed.

Lemma validate_empty (config : Config) (iteration : Z) (batch : Batch)
      (s : State) :
  val_batches (val_dataloader s) = [] ->
  (1 <= length (question batch))%nat ->
  length (program batch) = length (question batch) ->
  validate config iteration batch s = Raise NameError.
Proof.
  intros Hempty Hlen Hprog. unfold validate. rewrite Hempty.
  cbn [validation_loop bind].
  destruct (0 <? Z.min (Z.of_nat (length (question batch))) 20) eqn:E;
    [|apply Z.ltb_ge in E; lia].
  unfold print_row.
  destruct (program batch) as [|row rows]; [cbn in Hprog; lia|reflexivity].
Qed.

(** X8.  With an empty validation set the loop cannot get past its first
    validation: the iteration that is a multiple of checkpoint_every trains,
    schedules, and then stops with the NameError of the unassigned
    [__iteration_output_dict]. *)
Theorem X8_empty_validation_set_raises
        (args : Args) (config : Config) (train_dataset : list Example)
        (k : nat) (s : State) :
  after_iterations args config train_dataset [] k = Ok s ->
  checkpoint_every args <> 0 ->
  Z.of_nat (S k) mod checkpoint_every args = 0 ->
  0 < bs_gamma config ->
  train_dataset <> [] ->
  (forall pass, length (sampler pass) = length train_dataset /\
                Forall (fun i => (i < length train_dataset)%nat) (sampler pass)) ->
  after_iterations args config train_dataset [] (S k) = Raise NameError.
Proof.
  intros Hrun Hce Hmod Hgamma Hne Hsampler.
  pose proof (after_iterations_deliverable args config train_dataset []
                                           Hne Hsampler k s Hrun) as D.
  destruct (after_iterations_loader _ _ _ _ _ _ Hrun) as [Hpos Hwithin].
  pose proof (after_iterations_between _ _ _ _ _ _ Hrun) as B.
  rewrite after_iterations_succ, Hrun. cbn [bind].
  pose proof (train_iteration_cases args config train_dataset
                                    (Z.of_nat (S k)) s) as C.
  destruct (next_deliverable _ D) as (batch & loader & Hnext & _).
  rewrite Hnext in C.
  destruct (next_within _ _ _ _ Hwithin Hnext) as [(Hlen & Hprog & _) _].
  destruct C as [(_ & Hbad & _)|(s_mid & T & C)].
  - exfalso. assert (0 < batch_size s * bs_gamma config)
      by (apply Z.mul_pos_pos; assumption). lia.
  - destruct C as [(Hz & _)|[(_ & Hnz & _)|(_ & _ & ->)]];
      [congruence|congruence|].
    apply validate_empty; [|lia|exact Hprog].
    destruct (tr_rest _ _ _ _ _ _ _ T) as (_ & _ & ->).
    rewrite (bi_val_loader _ _ _ _ _ _ B). reflexivity.
Qed.

(** X9.  When the sampler yields nothing (as it does over an empty training
    set) the cyclic loader has no batch at all, and the script stops at the
    first [next(train_dataloader)] with StopIteration. *)
Theorem X9_empty_sampler_raises
        (args : Args) (config : Config)
        (train_dataset val_dataset : list Example) :
  sampler 0%nat = [] ->
  1 <= num_iterations config ->
  gpu_ids args <> [] ->
  0 < initial_bs config ->
  is_sorted (lr_steps config) = true ->
  main args config train_dataset val_dataset = Raise StopIteration.
Proof.
  intros Hdry Hn Hgpu Hbs Hsorted.
  destruct (setup_succeeds args config train_dataset val_dataset
                           Hgpu Hbs Hsorted)
    as (s0 & Hsetup & _).
  destruct (setup_between _ _ _ _ _ Hsetup) as (_ & _ & _ & Hloader & _).
  unfold main. rewrite Hsetup. cbn [bind].
  destruct (range1_cons _ Hn) as [rest ->]. cbn [training_loop].
  pose proof (train_iteration_cases args config train_dataset 1 s0) as C.
  assert (Hnext : next (train_dataloader s0) = Raise StopIteration).
  { rewrite Hloader, Hdry. reflexivity. }
  rewrite Hnext in C. rewrite C. reflexivity.
Qed.

(** X10.  When num_iterations is zero or negative the loop body never runs:
    once set-up succeeds the script completes (whatever the data sets and
    checkpoint_every are) without a single call of [do_iteration], optimizer
    operation, summary entry or manager step, and still calls [save_best] on
    both managers and closes the summary writer. *)
Theorem X10_no_iterations
        (args : Args) (config : Config)
        (train_dataset val_dataset : list Example) :
  num_iterations config <= 0 ->
  gpu_ids args <> [] ->
  0 < initial_bs config ->
  is_sorted (lr_steps config) = true ->
  exists s,
    main args config train_dataset val_dataset = Ok s /\
    calls s = [] /\
    events (heap s) = [] /\
    written (summary_writer s) = [] /\
    closed (summary_writer s) = true /\
    stepped (program_generator_checkpoint_manager s) = [] /\
    stepped (question_reconstructor_checkpoint_manager s) = [] /\
    saved_best (program_generator_checkpoint_manager s) = true /\
    saved_best (question_reconstructor_checkpoint_manager s) = true.
Proof.
  intros Hn Hgpu Hbs Hsorted.
  destruct (setup_succeeds args config train_dataset val_dataset
                           Hgpu Hbs Hsorted)
    as (s0 & Hsetup & Hcalls & Hwritten & _).
  destruct (setup_between _ _ _ _ _ Hsetup) as (_ & Hev & _ & _ & Hg & Hr).
  exists (finish s0). unfold main. rewrite Hsetup, (range1_nil _ Hn).
  cbn [bind training_loop]. split; [reflexivity|]. cbn.
  repeat split; assumption.
Qed.

(** *** The optimizer history *)

Lemma grouped_app (l1 l2 : list (@Event num)) :
  grouped l1 -> grouped l2 -> grouped (l1 ++ l2).
Proof.
  induction 1 as [|objective lr rest _ IH]; intros H2; [exact H2|].
  cbn. constructor. now apply IH.
Qed.

Lemma turn_events (args : Args) (config : Config)
      (train_dataset val_dataset : list Example) (k : nat) (s s' : State) :
  after_iterations args config train_dataset val_dataset k = Ok s ->
  train_iteration args config train_dataset (Z.of_nat (S k)) s = Ok s' ->
  exists objective,
    events (heap s')
    = events (heap s)
      ++ [EvZeroGrad; EvBackward objective;
          EvStep (group_lr (optimizer_obj (heap s)))].
Proof.
  intros Hrun Hstep.
  pose proof (after_iterations_between _ _ _ _ _ _ Hrun) as B.
  destruct (train_iteration_inversion _ _ _ _ _ _ Hstep)
    as (batch & loader & s_mid & _ & T & _ & Hcase).
  exists (joint_objective config batch (heap s)).
  assert (Hmid : events (heap s_mid)
                 = events (heap s)
                   ++ [EvZeroGrad;
                       EvBackward (joint_objective config batch (heap s));
                       EvStep (group_lr (optimizer_obj (heap s)))]).
  { rewrite (tr_events _ _ _ _ _ _ _ T). unfold iteration_events.
    rewrite (proj1 (bi_generator _ _ _ _ _ _ B)),
      (proj1 (bi_reconstructor _ _ _ _ _ _ B)).
    reflexivity. }
  destruct Hcase as [(_ & ->)|(_ & V)]; [exact Hmid|].
  rewrite (vd_events _ _ _ _ V). exact Hmid.
Qed.

(** X11.  After [k] iterations the optimizer history consists of exactly [k]
    whole turns zero_grad, backward, step, in this order: one optimizer step
    per training iteration, and no gradient or optimizer operation in any
    validation block. *)
Theorem X11_one_optimizer_step_per_iteration
        (args : Args) (config : Config)
        (train_dataset val_dataset : list Example) (k : nat) (s : State) :
  after_iterations args config train_dataset val_dataset k = Ok s ->
  grouped (events (heap s)) /\ length (events (heap s)) = (3 * k)%nat.
Proof.
  revert s. induction k as [|k IH]; intros s Hrun.
  - unfold after_iterations in Hrun. cbn in Hrun.
    destruct (setup args config train_dataset val_dataset) as [s0|e] eqn:E;
      [|discriminate].
    cbn in Hrun. injection Hrun as <-.
    destruct (setup_between _ _ _ _ _ E) as (_ & -> & _).
    split; [constructor|reflexivity].
  - pose proof Hrun as Hrun'. rewrite after_iterations_succ in Hrun'.
    destruct (after_iterations args config train_dataset val_dataset k)
      as [sk|e] eqn:Hk; [|discriminate].
    cbn [bind] in Hrun'. destruct (IH sk eq_refl) as [Hg Hlen].
    destruct (turn_events args config train_dataset val_dataset k sk s Hk Hrun')
      as (objective & ->).
    split.
    + apply grouped_app; [exact Hg|]. repeat constructor.
    + rewrite length_app, Hlen. cbn. lia.
Qed.

(** *** What a completed turn writes to the summary *)

(** A completed turn, step by step. *)
Lemma train_iteration_unfold (args : Args) (config : Config)
      (train_dataset : list Example) (iteration : Z) (s s' : State) :
  train_iteration args config train_dataset iteration s = Ok s' ->
  exists batch loader h1 o s_mid,
    next (train_dataloader s) = Ok (batch, loader) /\
    do_iteration config batch None RefGenerator RefReconstructor
                 (Some RefOptimizer) (heap s)
    = Ok (iteration_output config batch (heap s), h1) /\
    heap s_mid = with_optimizer h1 o /\
    written (summary_writer s_mid)
    = written (summary_writer s) ++ training_summaries config iteration batch s /\
    closed (summary_writer s_mid) = closed (summary_writer s) /\
    program_generator_checkpoint_manager s_mid
    = program_generator_checkpoint_manager s /\
    question_reconstructor_checkpoint_manager s_mid
    = question_reconstructor_checkpoint_manager s /\
    map arg_batch (calls s_mid) = map arg_batch (calls s) ++ [batch] /\
    val_dataloader s_mid = val_dataloader s /\
    ((iteration mod checkpoint_every args <> 0 /\ s' = s_mid) \/
     (iteration mod checkpoint_every args = 0 /\
      validate config iteration batch s_mid = Ok s')).
Proof.
  unfold train_iteration.
  destruct (next (train_dataloader s)) as [[batch loader]|e]; [|discriminate].
  cbn [bind].
  destruct (do_iteration_script config batch None (Some RefOptimizer) (heap s))
    as (h1 & Hrun & Hm & _); [reflexivity|].
  rewrite Hrun. cbn [bind]. unfold scheduler_step, scheduler_step_to.
  intros H. exists batch, loader, h1.
  assert (Hlr : group_lr (optimizer_obj h1) = group_lr (optimizer_obj (heap s)))
    by now rewrite (proj2 Hm).
  destruct (schedule_batch_size config train_dataset iteration (batch_size s)
                                loader (loaders_built s))
    as [[[size loader'] built]|e]; [|discriminate].
  cbn [bind] in H.
  destruct (checkpoint_every args =? 0); [discriminate|].
  match type of H with
  | context [validate _ _ _ ?st] => exists (optimizer_obj (heap st)), st
  end.
  split; [reflexivity|]. split; [exact Hrun|]. split; [reflexivity|].
  split.
  { cbn. unfold training_summaries. rewrite Hlr. now rewrite <- !app_assoc. }
  split; [reflexivity|]. split; [reflexivity|]. split; [reflexivity|].
  split; [cbn; now rewrite map_app|]. split; [reflexivity|].
  destruct (iteration mod checkpoint_every args =? 0) eqn:Hmod.
  - right. apply Z.eqb_eq in Hmod. split; [exact Hmod|exact H].
  - left. apply Z.eqb_neq in Hmod. split; [exact Hmod|congruence].
Qed.

(** A completed validation block, step by step. *)
Lemma validate_unfold (config : Config) (iteration : Z) (batch : Batch)
      (s s' : State) :
  validate config iteration batch s = Ok s' ->
  exists h_val last log,
    validation_loop config iteration (val_batches (val_dataloader s))
                    (evaluation_heap s) None (calls s)
    = Ok (h_val, last, log) /\
    let pg := fst (handle_get_metrics RefGenerator h_val) in
    let h1 := snd (handle_get_metrics RefGenerator h_val) in
    let qr := fst (handle_get_metrics RefReconstructor h1) in
    let h2 := snd (handle_get_metrics RefReconstructor h1) in
    heap s' = set_mode true RefReconstructor (set_mode true RefGenerator h2) /\
    written (summary_writer s')
    = written (summary_writer s) ++ metric_summaries iteration pg qr /\
    closed (summary_writer s') = closed (summary_writer s) /\
    stepped (program_generator_checkpoint_manager s')
    = stepped (program_generator_checkpoint_manager s) ++ [perplexity pg] /\
    stepped (question_reconstructor_checkpoint_manager s')
    = stepped (question_reconstructor_checkpoint_manager s) ++ [perplexity qr] /\
    calls s' = log.
Proof.
  unfold validate. fold (evaluation_heap s).
  destruct (validation_loop config iteration (val_batches (val_dataloader s))
                            (evaluation_heap s) None (calls s))
    as [[[h_val last] log]|e]; [|discriminate].
  cbn [bind]. intros H. exists h_val, last, log. split; [reflexivity|].
  assert (Hrest :
    (let '(pg_metrics, h) := handle_get_metrics RefGenerator h_val in
     let '(qr_metrics, h0) := handle_get_metrics RefReconstructor h in
     Ok {| heap := set_mode true RefReconstructor (set_mode true RefGenerator h0);
           lr_scheduler := lr_scheduler s;
           batch_size := batch_size s;
           train_dataloader := train_dataloader s;
           loaders_built := loaders_built s;
           val_dataloader := val_dataloader s;
           program_generator_checkpoint_manager :=
             ckpt_step (program_generator_checkpoint_manager s)
                       (perplexity pg_metrics);
           question_reconstructor_checkpoint_manager :=
             ckpt_step (question_reconstructor_checkpoint_manager s)
                       (perplexity qr_metrics);
           summary_writer :=
             write
               (write
                  (write (summary_writer s)
                     (AddScalars ("metrics/" ++ "BLEU")
                        [("program_generator", BLEU pg_metrics);
                         ("question_reconstructor", BLEU qr_metrics)]
                        iteration))
                  (AddScalars ("metrics/" ++ "perplexity")
                     [("program_generator", perplexity pg_metrics);
                      ("question_reconstructor", perplexity qr_metrics)]
                     iteration))
               (AddScalars ("metrics/" ++ "sequence_accuracy")
                  [("program_generator", sequence_accuracy pg_metrics);
                   ("question_reconstructor", sequence_accuracy qr_metrics)]
                  iteration);
           calls := log |}) = Ok s').
  { destruct last as [[b out]|].
    - destruct (raised (qualitative_examples vocabulary b out)) as [[|]|];
        [discriminate|discriminate|exact H].
    - destruct (0 <? Z.min (Z.of_nat (length (question batch))) 20);
        [|exact H].
      destruct (raised (print_row vocabulary "PROGRAM: " "programs"
                                  (program batch) 0)); discriminate. }
  clear H. cbv zeta.
  destruct (handle_get_metrics RefGenerator h_val) as [pg h1]. cbn [fst snd].
  destruct (handle_get_metrics RefReconstructor h1) as [qr h2]. cbn [fst snd].
  injection Hrest as <-. cbn.
  split; [reflexivity|]. split; [now rewrite <- !app_assoc|].
  repeat split.
Qed.

(** X12.  A completed training iteration appends to the summary, with the
    iteration as global step and in this order: the loss dict returned by
    [do_iteration], the batch size in force when the batch was drawn (before
    this iteration's growth) and the learning rate in force during the
    iteration (before the scheduler step).  If the iteration is a multiple
    of checkpoint_every, three metric entries follow, and the perplexities
    logged are the values the two checkpoint managers are stepped with. *)
Theorem X12_summary_of_a_turn
        (args : Args) (config : Config) (train_dataset : list Example)
        (iteration : Z) (s s' : State) :
  train_iteration args config train_dataset iteration s = Ok s' ->
  exists batch loader,
    next (train_dataloader s) = Ok (batch, loader) /\
    closed (summary_writer s') = closed (summary_writer s) /\
    ((iteration mod checkpoint_every args <> 0 /\
      written (summary_writer s')
      = written (summary_writer s)
        ++ training_summaries config iteration batch s) \/
     (iteration mod checkpoint_every args = 0 /\
      exists pg qr,
        written (summary_writer s')
        = written (summary_writer s)
          ++ training_summaries config iteration batch s
          ++ metric_summaries iteration pg qr /\
        stepped (program_generator_checkpoint_manager s')
        = stepped (program_generator_checkpoint_manager s) ++ [perplexity pg] /\
        stepped (question_reconstructor_checkpoint_manager s')
        = stepped (question_reconstructor_checkpoint_manager s)
          ++ [perplexity qr])).
Proof.
  intros Hstep.
  destruct (train_iteration_unfold _ _ _ _ _ _ Hstep)
    as (batch & loader & h1 & o & s_mid & Hnext & _ & _ & Hw & Hc & Hg & Hr
        & _ & _ & Hcase).
  exists batch, loader. split; [exact Hnext|].
  destruct Hcase as [(Hmod & ->)|(Hmod & Hval)].
  - split; [exact Hc|]. left. split; [exact Hmod|exact Hw].
  - destruct (validate_unfold _ _ _ _ _ Hval)
      as (h_val & last & log & _ & _ & Hw' & Hc' & Hg' & Hr' & _).
    split; [congruence|]. right. split; [exact Hmod|].
    do 2 eexists. split; [|split].
    + rewrite Hw', Hw, <- app_assoc. reflexivity.
    + rewrite Hg', Hg. reflexivity.
    + rewrite Hr', Hr. reflexivity.
Qed.

(** *** Gradients *)

Lemma grad_update_module (f : Module -> Module) (h : Heap) (r r' : ModelRef) :
  grad_of (update_module f h r) r'
  = if ModelRef_eqb r r'
    then grad (f (handle_module (deref h r)))
    else grad_of h r'.
Proof.
  unfold grad_of, update_module. rewrite deref_assign.
  destruct (ModelRef_eqb r r'); [|reflexivity].
  now rewrite handle_module_map.
Qed.

Lemma same_grads_trans (h1 h2 h3 : Heap) :
  same_grads h1 h2 -> same_grads h2 h3 -> same_grads h1 h3.
Proof. intros H12 H23 r. rewrite H23. apply H12. Qed.

Lemma update_module_same_grads (f : Module -> Module) (h : Heap) (r : ModelRef) :
  (forall m, grad (f m) = grad m) -> same_grads h (update_module f h r).
Proof.
  intros Hf r'. rewrite grad_update_module.
  destruct (ModelRef_eqb r r') eqn:E; [|reflexivity].
  apply ModelRef_eqb_eq in E. subst r'. apply Hf.
Qed.

Lemma fold_update_same_grads (f : ModelRef -> Module -> Module)
      (l : list ModelRef) :
  (forall r m, grad (f r m) = grad m) ->
  forall h, same_grads h (fold_left (fun h' r => update_module (f r) h' r) l h).
Proof.
  intros Hf. induction l as [|r l IH]; intros h; cbn.
  - intros r; reflexivity.
  - eapply same_grads_trans; [|apply IH].
    apply update_module_same_grads. apply Hf.
Qed.

Lemma record_same_grads (h : Heap) (e : Event) : same_grads h (record h e).
Proof. intros r; destruct r; reflexivity. Qed.

Lemma with_optimizer_same_grads (h : Heap) (o : Optimizer) :
  same_grads h (with_optimizer h o).
Proof. intros r; destruct r; reflexivity. Qed.

Lemma call_same_grads (h : Heap) (r : ModelRef) (inputs : Tokens)
      (targets : option Tokens) (greedy : bool) :
  same_grads h (snd (call h r inputs targets greedy)).
Proof.
  unfold call. destruct (forward _ _ _ _ _ _) as [out n]. cbn.
  apply update_module_same_grads. reflexivity.
Qed.

Lemma handle_get_metrics_same_grads (r : ModelRef) (h : Heap) :
  same_grads h (snd (handle_get_metrics r h)).
Proof.
  unfold handle_get_metrics. destruct (get_metrics _ _) as [metrics n]. cbn.
  apply update_module_same_grads. reflexivity.
Qed.

Lemma set_mode_same_grads (mode : bool) (r : ModelRef) (h : Heap) :
  same_grads h (set_mode mode r h).
Proof.
  intros r'. unfold grad_of, set_mode. rewrite deref_assign.
  destruct (ModelRef_eqb r r') eqn:E; [|reflexivity].
  apply ModelRef_eqb_eq in E. subst r'. destruct (deref h r); reflexivity.
Qed.

Lemma optimizer_step_same_grads (h : Heap) : same_grads h (optimizer_step h).
Proof.
  unfold optimizer_step.
  eapply same_grads_trans; [|apply record_same_grads].
  apply (fold_update_same_grads
           (fun r m => {| net := adam_update (group_lr (optimizer_obj h))
                                             (group_weight_decay (optimizer_obj h))
                                             (grad m) r (net m);
                          training := training m; grad := grad m |})).
  reflexivity.
Qed.

(** [zero_grad] of the script's optimizer clears the gradients of generator
    and reconstructor and leaves the prior's. *)
Lemma zero_grad_clears (h : Heap) :
  group_params (optimizer_obj h) = [RefGenerator; RefReconstructor] ->
  grad_of (zero_grad h) RefGenerator = [] /\
  grad_of (zero_grad h) RefReconstructor = [] /\
  grad_of (zero_grad h) RefPrior = grad_of h RefPrior.
Proof.
  intros Hparams. unfold zero_grad. rewrite Hparams. cbn [fold_left].
  repeat split;
    rewrite (record_same_grads _ _ _), !grad_update_module; reflexivity.
Qed.

Lemma backward_appends (objective : num) (h : Heap) :
  grad_of (backward objective [RefGenerator; RefReconstructor] h) RefGenerator
  = grad_of h RefGenerator ++ [objective] /\
  grad_of (backward objective [RefGenerator; RefReconstructor] h)
          RefReconstructor
  = grad_of h RefReconstructor ++ [objective] /\
  grad_of (backward objective [RefGenerator; RefReconstructor] h) RefPrior
  = grad_of h RefPrior.
Proof.
  unfold backward. cbn [fold_left].
  repeat split;
    rewrite (record_same_grads _ _ _), !grad_update_module; reflexivity.
Qed.

(** A training call leaves on generator and reconstructor the gradient of
    its own objective, and nothing else. *)
Lemma do_iteration_training_grads (config : Config) (batch : Batch)
      (prior : option ModelRef) (h h' : Heap) (out : IterationOutput) :
  group_params (optimizer_obj h) = [RefGenerator; RefReconstructor] ->
  flag_of h RefGenerator = true ->
  flag_of h RefReconstructor = true ->
  do_iteration config batch prior RefGenerator RefReconstructor
               (Some RefOptimizer) h = Ok (out, h') ->
  grad_of h' RefGenerator = [joint_objective config batch h] /\
  grad_of h' RefReconstructor = [joint_objective config batch h] /\
  grad_of h' RefPrior = grad_of h RefPrior.
Proof.
  intros Hparams Hg Hr Hrun.
  pose proof (do_iteration_returns _ _ _ _ _ _ _ Hrun) as Hout.
  unfold do_iteration in Hrun. fold (flag_of h RefGenerator) in Hrun.
  rewrite Hg in Hrun. cbn [bind] in Hrun.
  destruct (zero_grad_clears h Hparams) as (Zg & Zr & Zp).
  pose proof (zero_grad_modes h) as M1.
  set (h1 := zero_grad h) in *. clearbody h1.
  pose proof (call_same_grads h1 RefGenerator (question batch)
                              (Some (program batch)) false) as G2.
  pose proof (call_modes h1 RefGenerator (question batch)
                         (Some (program batch)) false) as M2.
  destruct (call h1 RefGenerator (question batch) (Some (program batch)) false)
    as [o2 h2]. cbn [snd] in G2, M2.
  pose proof (call_same_grads h2 RefGenerator (question batch) None true) as G3.
  pose proof (call_modes h2 RefGenerator (question batch) None true) as M3.
  destruct (call h2 RefGenerator (question batch) None true) as [o3 h3].
  cbn [snd] in G3, M3.
  pose proof (call_same_grads h3 RefReconstructor (out_predictions o3)
                              (Some (question batch)) false) as G4.
  pose proof (call_modes h3 RefReconstructor (out_predictions o3)
                         (Some (question batch)) false) as M4.
  destruct (call h3 RefReconstructor (out_predictions o3)
                 (Some (question batch)) false) as [o4 h4].
  cbn [snd] in G4, M4.
  assert (M : same_modes h h4).
  { eapply same_modes_trans; [exact M1|].
    eapply same_modes_trans; [exact M2|].
    eapply same_modes_trans; [exact M3|exact M4]. }
  fold (flag_of h4 RefGenerator) in Hrun.
  fold (flag_of h4 RefReconstructor) in Hrun.
  rewrite (proj1 (proj1 M RefGenerator)), (proj1 (proj1 M RefReconstructor)),
    Hg, Hr in Hrun.
  cbn [andb bind] in Hrun. injection Hrun as Hdict Hheap.
  assert (Hobj : nadd (mean (out_loss o4))
                      (nmul (ssl_alpha config)
                            (masked_mean (out_loss o2) (supervision batch)))
                 = joint_objective config batch h).
  { rewrite Hout in Hdict.
    apply (f_equal (fun o => dict_get (loss o) "objective")) in Hdict.
    cbn in Hdict. now injection Hdict. }
  rewrite Hobj in Hheap. subst h'.
  destruct (backward_appends (joint_objective config batch h) h4)
    as (Bg & Br & Bp).
  rewrite !(optimizer_step_same_grads _ _), Bg, Br, Bp.
  rewrite !G4, !G3, !G2, Zg, Zr, Zp. repeat split.
Qed.

(** A call with the generator in evaluation mode leaves all gradients. *)
Lemma do_iteration_evaluation_grads (config : Config) (batch : Batch)
      (prior : option ModelRef) (optimizer : option OptimizerRef)
      (h h' : Heap) (out : IterationOutput) :
  flag_of h RefGenerator = false ->
  do_iteration config batch prior RefGenerator RefReconstructor optimizer h
  = Ok (out, h') ->
  same_grads h h' /\ flag_of h' RefGenerator = false.
Proof.
  intros Hg Hrun.
  unfold do_iteration in Hrun. fold (flag_of h RefGenerator) in Hrun.
  rewrite Hg in Hrun. cbn [bind] in Hrun.
  pose proof (call_same_grads h RefGenerator (question batch)
                              (Some (program batch)) false) as G2.
  pose proof (call_modes h RefGenerator (question batch)
                         (Some (program batch)) false) as M2.
  destruct (call h RefGenerator (question batch) (Some (program batch)) false)
    as [o2 h2]. cbn [snd] in G2, M2.
  pose proof (call_same_grads h2 RefGenerator (question batch) None true) as G3.
  pose proof (call_modes h2 RefGenerator (question batch) None true) as M3.
  destruct (call h2 RefGenerator (question batch) None true) as [o3 h3].
  cbn [snd] in G3, M3.
  pose proof (call_same_grads h3 RefReconstructor (out_predictions o3)
                              (Some (question batch)) false) as G4.
  pose proof (call_modes h3 RefReconstructor (out_predictions o3)
                         (Some (question batch)) false) as M4.
  destruct (call h3 RefReconstructor (out_predictions o3)
                 (Some (question batch)) false) as [o4 h4].
  cbn [snd] in G4, M4.
  assert (M : same_modes h h4).
  { eapply same_modes_trans; [exact M2|].
    eapply same_modes_trans; [exact M3|exact M4]. }
  fold (flag_of h4 RefGenerator) in Hrun.
  rewrite (proj1 (proj1 M RefGenerator)), Hg in Hrun.
  cbn [andb bind] in Hrun. injection Hrun as _ <-.
  split.
  - eapply same_grads_trans; [exact G2|].
    eapply same_grads_trans; [exact G3|exact G4].
  - now rewrite (proj1 (proj1 M RefGenerator)).
Qed.

Lemma validation_loop_grads (config : Config) (iteration : Z) :
  forall batches h last log h' last' log',
    flag_of h RefGenerator = false ->
    validation_loop config iteration batches h last log = Ok (h', last', log') ->
    same_grads h h'.
Proof.
  induction batches as [|batch batches IH];
    intros h last log h' last' log' Hg; cbn [validation_loop].
  - intros [= <- _ _]. intros r; reflexivity.
  - destruct (do_iteration config batch None RefGenerator RefReconstructor
                           None h) as [[out h1]|e] eqn:E; [|discriminate].
    cbn [bind]. intros Hloop.
    destruct (do_iteration_evaluation_grads _ _ _ _ _ _ _ Hg E) as [G1 Hg1].
    eapply same_grads_trans; [exact G1|].
    eapply IH; [exact Hg1|exact Hloop].
Qed.

Lemma validate_grads (config : Config) (iteration : Z) (batch : Batch)
      (s s' : State) :
  validate config iteration batch s = Ok s' ->
  same_grads (heap s) (heap s').
Proof.
  intros Hval.
  destruct (validate_unfold _ _ _ _ _ Hval)
    as (h_val & last & log & Hloop & Hheap & _).
  cbv zeta in Hheap. rewrite Hheap.
  eapply same_grads_trans; [|apply set_mode_same_grads].
  eapply same_grads_trans; [|apply set_mode_same_grads].
  eapply same_grads_trans; [|apply handle_get_metrics_same_grads].
  eapply same_grads_trans; [|apply handle_get_metrics_same_grads].
  eapply same_grads_trans;
    [|eapply validation_loop_grads;
      [apply (proj1 (evaluation_heap_flags s))|exact Hloop]].
  unfold evaluation_heap.
  eapply same_grads_trans; apply set_mode_same_grads.
Qed.

(** X13.  Gradients never accumulate across iterations: when a training
    iteration has completed (its validation block included), generator and
    reconstructor carry the gradient of that iteration's joint objective and
    nothing else, and the prior carries no gradient at all. *)
Theorem X13_gradients_do_not_accumulate
        (args : Args) (config : Config)
        (train_dataset val_dataset : list Example) (k : nat) (s s' : State) :
  after_iterations args config train_dataset val_dataset k = Ok s ->
  train_iteration args config train_dataset (Z.of_nat (S k)) s = Ok s' ->
  exists batch loader,
    next (train_dataloader s) = Ok (batch, loader) /\
    grad_of (heap s') RefGenerator = [joint_objective config batch (heap s)] /\
    grad_of (heap s') RefReconstructor
    = [joint_objective config batch (heap s)] /\
    grad_of (heap s') RefPrior = [].
Proof.
  intros Hrun Hstep.
  pose proof (after_iterations_between _ _ _ _ _ _ Hrun) as B.
  destruct (train_iteration_unfold _ _ _ _ _ _ Hstep)
    as (batch & loader & h1 & o & s_mid & Hnext & Hcall & Hheap & _ & _ & _ & _
        & _ & _ & Hcase).
  exists batch, loader. split; [exact Hnext|].
  destruct (do_iteration_training_grads
              config batch None (heap s) h1 _
              (bi_params _ _ _ _ _ _ B)
              (proj1 (bi_generator _ _ _ _ _ _ B))
              (proj1 (bi_reconstructor _ _ _ _ _ _ B)) Hcall)
    as (Gg & Gr & Gp).
  assert (Hprior : grad_of (heap s) RefPrior = []).
  { unfold grad_of. cbn [deref]. now rewrite (bi_prior _ _ _ _ _ _ B). }
  assert (Hmid : grad_of (heap s_mid) RefGenerator
                 = [joint_objective config batch (heap s)] /\
                 grad_of (heap s_mid) RefReconstructor
                 = [joint_objective config batch (heap s)] /\
                 grad_of (heap s_mid) RefPrior = []).
  { rewrite Hheap, !(with_optimizer_same_grads _ _ _), Gg, Gr, Gp, Hprior.
    repeat split. }
  destruct Hcase as [(_ & ->)|(_ & Hval)]; [exact Hmid|].
  rewrite !(validate_grads _ _ _ _ _ Hval _). exact Hmid.
Qed.

(** *** Qualitative examples *)

(** X14.  On the output of [do_iteration] the loop of qualitative examples
    meets no missing key, and when the batch is rectangular and both models
    predict one row per example it raises nothing and prints five lines for
    each of the first min(batch size, 20) examples. *)
Theorem X14_qualitative_examples_printed
        (token : Z -> string -> string)
        (config : Config) (batch : Batch) (prior : option ModelRef)
        (optimizer : option OptimizerRef) (h h' : Heap) (out : IterationOutput) :
  do_iteration config batch prior RefGenerator RefReconstructor optimizer h
  = Ok (out, h') ->
  length (program batch) = length (question batch) ->
  length (out_predictions (fst (generator_pass batch h)))
  = length (question batch) ->
  length (out_predictions (fst (reconstructor_pass batch h)))
  = length (question batch) ->
  raised (qualitative_examples token batch out) = None /\
  length (printed (qualitative_examples token batch out))
  = (5 * Nat.min (length (question batch)) 20)%nat.
Proof.
  intros Hrun Hp Hpg Hqr. rewrite (do_iteration_returns _ _ _ _ _ _ _ Hrun).
  unfold qualitative_examples.
  destruct (print_examples_in_range
              token batch (iteration_output config batch h)
              (out_predictions (fst (generator_pass batch h)))
              (out_predictions (fst (reconstructor_pass batch h)))
              (seq 0 (Nat.min (length (question batch)) 20))
              eq_refl eq_refl) as [Hr Hl].
  - apply Forall_forall. intros j Hj. apply in_seq in Hj. lia.
  - split; [exact Hr|]. now rewrite Hl, length_seq.
Qed.

Lemma tokens_line_padding (token token' : Z -> string -> string)
      (prefix namespace : string) (row : list Z) :
  (forall i ns, i <> 0 -> token i ns = token' i ns) ->
  tokens_line token prefix namespace row
  = tokens_line token' prefix namespace row.
Proof.
  intros Hsame. unfold tokens_line. f_equal. f_equal.
  apply map_ext_in. intros i Hi. apply filter_In in Hi. destruct Hi as [_ Hi].
  apply Hsame. intros ->. discriminate.
Qed.

(** X15.  The padding index 0 is never looked up in the vocabulary: the
    lines printed by the loop of qualitative examples are the same for any
    two vocabularies that agree on the non-zero indices. *)
Theorem X15_padding_never_looked_up
        (token token' : Z -> string -> string)
        (batch : Batch) (out : IterationOutput) :
  (forall i ns, i <> 0 -> token i ns = token' i ns) ->
  qualitative_examples token batch out = qualitative_examples token' batch out.
Proof.
  intros Hsame.
  assert (Hrow : forall prefix ns tensor j,
             print_row token prefix ns tensor j
             = print_row token' prefix ns tensor j).
  { intros prefix ns tensor j. unfold print_row.
    destruct (nth_error tensor j); [|reflexivity].
    now rewrite (tokens_line_padding token token' prefix ns l Hsame). }
  assert (Hexample : forall j, print_example token batch out j
                               = print_example token' batch out j).
  { intros j. unfold print_example, print_prediction.
    rewrite !Hrow.
    destruct (dict_get (predictions out) "__pg");
      destruct (dict_get (predictions out) "__qr");
      rewrite ?Hrow; reflexivity. }
  unfold qualitative_examples.
  induction (seq 0 (Nat.min (length (question batch)) 20)) as [|j js IH];
    [reflexivity|].
  cbn [print_examples]. now rewrite Hexample, IH.
Qed.

(** *** The learning rate of each step, the coverage of each validation *)

(** X16.  The optimizer step of iteration k+1 uses the learning rate set by
    the scheduler after iteration k: for the first iteration initial_lr
    times lr_gamma to the number of milestones not above 0 (a milestone at 0
    or below decays the rate from the very first step), and for k at least 1
    initial_lr times lr_gamma to the number of milestones the scheduler's
    epoch had passed after iteration k. *)
Theorem X16_learning_rate_of_each_step
        (args : Args) (config : Config)
        (train_dataset val_dataset : list Example) (k : nat) (s s' : State) :
  after_iterations args config train_dataset val_dataset k = Ok s ->
  train_iteration args config train_dataset (Z.of_nat (S k)) s = Ok s' ->
  exists objective,
    events (heap s')
    = events (heap s)
      ++ [EvZeroGrad; EvBackward objective;
          EvStep (nmul (initial_lr config)
                       (npow (lr_gamma config)
                             (milestones_passed
                                (lr_steps config)
                                (match k with
                                 | O => 0
                                 | S _ => scheduler_epoch0 + Z.of_nat k
                                 end))))].
Proof.
  intros Hrun Hstep.
  pose proof (after_iterations_between _ _ _ _ _ _ Hrun) as B.
  destruct (turn_events _ _ _ _ _ _ _ Hrun Hstep) as (objective & ->).
  exists objective. rewrite (bi_lr _ _ _ _ _ _ B).
  destruct (bi_scheduler _ _ _ _ _ _ B) as (_ & _ & _ & Hsorted).
  unfold milestones_passed. now rewrite bisect_right_counts.
Qed.




End MoreProperties.

(** ** The further properties on the concrete instances *)

Module ExtraChecks.

Import Stdlib.QArith.QArith.
Import Demo.
Import DemoMore.
Local Open Scope Z_scope.

Lemma demo_sampler :
  forall pass,
    length (sampler pass) = length train_dataset /\
    Forall (fun i => (i < length train_dataset)%nat) (sampler pass).
Proof.
  intros pass. split; [reflexivity|]. cbn. repeat constructor.
Defined.

Lemma X1_witness :
  let loader := {| dl_dataset := train_dataset; dl_batch_size := 2 |} in
  let batches := [collate [example 1 11 true; example 2 12 false];
                  collate [example 3 13 true]] in
  let replaying := {| cy_dataset := train_dataset; cy_pending := [];
                      cy_saved := batches; cy_replay := [] |} in
  fetch_all train_dataset (cy_pending (cycle loader [0; 1; 2]%nat)) = Ok batches /\
  draws (length batches) (cycle loader [0; 1; 2]%nat) = Ok (batches, replaying) /\
  draws (3 * length batches) replaying
  = Ok (concat (repeat batches 3), replaying).
Proof.
  intros loader batches replaying.
  split; [reflexivity|].
  apply (X1_cyclic_loader_replays_first_pass loader [0; 1; 2]%nat batches 3).
  reflexivity.
Defined.

Lemma X2_witness :
  after_iterations args config train_dataset val_dataset 2 = Ok (state_after 2) /\
  exists batch loader,
    next (train_dataloader (state_after 2)) = Ok (batch, loader) /\
    0 < scheduled_batch_size config 2 /\
    (1 <= Z.of_nat (length (question batch)) <= scheduled_batch_size config 2) /\
    length (program batch) = length (question batch) /\
    length (supervision batch) = length (question batch).
Proof.
  split; [vm_compute; reflexivity|].
  do 2 eexists. split; [vm_compute; reflexivity|].
  eapply (X2_training_batches_within_scheduled_size
            args config train_dataset val_dataset 2 (state_after 2));
    vm_compute; reflexivity.
Defined.

Lemma X3_witness :
  after_iterations args config train_dataset val_dataset 3 = Ok (state_after 3) /\
  batch_size (state_after 3)
  = initial_bs config
    * bs_gamma config
      ^ Z.of_nat (length (filter (contains (bs_steps config))
                                 (range1 (Z.of_nat 3)))).
Proof.
  split; [vm_compute; reflexivity|].
  apply (X3_batch_size_closed_form args config train_dataset val_dataset 3).
  vm_compute; reflexivity.
Defined.

Lemma X5_witness :
  exists out h',
    do_iteration config batch None RefGenerator RefReconstructor
                 (Some RefOptimizer) (heap (state_after 0))
    = Ok (out, h') /\
    dict_get (predictions out) "__pg"
    = Some (out_predictions
              (fst (forward RefGenerator
                            (net_of (heap (state_after 0)) RefGenerator)
                            (mode_of (heap (state_after 0)) RefGenerator)
                            (question batch) (Some (program batch)) false))).
Proof.
  destruct (do_iteration config batch None RefGenerator RefReconstructor
                         (Some RefOptimizer) (heap (state_after 0)))
    as [[out h']|e] eqn:E; [|vm_compute in E; discriminate E].
  exists out, h'. split; [reflexivity|].
  exact (proj1 (X5_predictions_returned
                  config batch None (Some RefOptimizer)
                  (heap (state_after 0)) h' out E)).
Defined.

Lemma X6_witness :
  exists s0 : @State Q toy_short,
    @setup Q Q_scalar toy_short args_every config train_dataset val_dataset
    = Ok s0 /\
    train_iteration args_every config train_dataset 1 s0 = Raise IndexError /\
    (((IndexError = StopIteration \/ IndexError = IndexError) /\
      next (train_dataloader s0) = Raise IndexError) \/
     (IndexError = ValueError /\
      contains (bs_steps config) 1 = true /\
      batch_size s0 * bs_gamma config <= 0) \/
     (IndexError = ZeroDivisionError /\ checkpoint_every args_every = 0) \/
     (IndexError = NameError /\
      checkpoint_every args_every <> 0 /\
      1 mod checkpoint_every args_every = 0 /\
      val_batches (val_dataloader s0) = []) \/
     (IndexError = IndexError /\
      checkpoint_every args_every <> 0 /\
      1 mod checkpoint_every args_every = 0 /\
      ((val_batches (val_dataloader s0) = [] /\
        exists batch loader,
          next (train_dataloader s0) = Ok (batch, loader) /\
          question batch <> [] /\ program batch = []) \/
       (exists front b (hb : @Heap Q toy_short),
           val_batches (val_dataloader s0) = front ++ [b] /\
           (length (out_predictions (fst (generator_pass b hb)))
            < Nat.min (length (question b)) 20 \/
            length (out_predictions (fst (reconstructor_pass b hb)))
            < Nat.min (length (question b)) 20)%nat)))).
Proof.
  eexists. split; [vm_compute; reflexivity|].
  split; [vm_compute; reflexivity|].
  apply (@X6_training_turn_failures Q Q_scalar toy_short
                                    args_every config train_dataset 1).
  vm_compute; reflexivity.
Defined.

Lemma X7_witness :
  checkpoint_every args_zero = 0 /\
  1 <= num_iterations config /\
  gpu_ids args_zero <> [] /\
  0 < initial_bs config /\
  0 < bs_gamma config /\
  is_sorted (lr_steps config) = true /\
  train_dataset <> [] /\
  main args_zero config train_dataset val_dataset = Raise ZeroDivisionError.
Proof.
  assert (H2 : 1 <= num_iterations config) by (cbn; lia).
  assert (H3 : gpu_ids args_zero <> []) by discriminate.
  assert (H4 : 0 < initial_bs config) by reflexivity.
  assert (H5 : 0 < bs_gamma config) by reflexivity.
  assert (H7 : train_dataset <> []) by discriminate.
  repeat (split; [first [reflexivity|assumption]|]).
  exact (X7_zero_checkpoint_period_raises
           args_zero config train_dataset val_dataset
           eq_refl H2 H3 H4 H5 eq_refl H7 demo_sampler).
Defined.

Lemma X8_witness :
  after_iterations args config train_dataset [] 1 = Ok (state_no_val 1) /\
  checkpoint_every args <> 0 /\
  Z.of_nat 2 mod checkpoint_every args = 0 /\
  0 < bs_gamma config /\
  train_dataset <> [] /\
  after_iterations args config train_dataset [] 2 = Raise NameError.
Proof.
  assert (H1 : after_iterations args config train_dataset [] 1
               = Ok (state_no_val 1)) by (vm_compute; reflexivity).
  assert (H2 : checkpoint_every args <> 0) by discriminate.
  assert (H4 : 0 < bs_gamma config) by reflexivity.
  assert (H5 : train_dataset <> []) by discriminate.
  repeat (split; [first [reflexivity|assumption]|]).
  exact (X8_empty_validation_set_raises
           args config train_dataset 1 (state_no_val 1)
           H1 H2 eq_refl H4 H5 demo_sampler).
Defined.

Lemma X9_witness :
  @sampler Q toy_dry 0%nat = [] /\
  1 <= num_iterations config /\
  gpu_ids args <> [] /\
  0 < initial_bs config /\
  is_sorted (lr_steps config) = true /\
  @main Q Q_scalar toy_dry args config train_dataset val_dataset
  = Raise StopIteration.
Proof.
  assert (H2 : 1 <= num_iterations config) by (cbn; lia).
  assert (H3 : gpu_ids args <> []) by discriminate.
  assert (H4 : 0 < initial_bs config) by reflexivity.
  repeat (split; [first [reflexivity|assumption]|]).
  exact (@X9_empty_sampler_raises Q Q_scalar toy_dry
           args config train_dataset val_dataset eq_refl H2 H3 H4 eq_refl).
Defined.

Lemma X10_witness :
  num_iterations config_idle <= 0 /\
  gpu_ids args_zero <> [] /\
  0 < initial_bs config_idle /\
  is_sorted (lr_steps config_idle) = true /\
  exists s,
    main args_zero config_idle [] [] = Ok s /\
    calls s = [] /\
    events (heap s) = [] /\
    written (summary_writer s) = [] /\
    closed (summary_writer s) = true /\
    stepped (program_generator_checkpoint_manager s) = [] /\
    stepped (question_reconstructor_checkpoint_manager s) = [] /\
    saved_best (program_generator_checkpoint_manager s) = true /\
    saved_best (question_reconstructor_checkpoint_manager s) = true.
Proof.
  assert (H1 : num_iterations config_idle <= 0) by (cbn; lia).
  assert (H2 : gpu_ids args_zero <> []) by discriminate.
  assert (H3 : 0 < initial_bs config_idle) by reflexivity.
  repeat (split; [first [reflexivity|assumption]|]).
  exact (X10_no_iterations args_zero config_idle [] [] H1 H2 H3 eq_refl).
Defined.

Lemma X11_witness :
  after_iterations args config train_dataset val_dataset 4 = Ok (state_after 4) /\
  grouped (events (heap (state_after 4))) /\
  length (events (heap (state_after 4))) = (3 * 4)%nat.
Proof.
  split; [vm_compute; reflexivity|].
  apply (X11_one_optimizer_step_per_iteration
           args config train_dataset val_dataset 4).
  vm_compute; reflexivity.
Defined.

Lemma X12_witness :
  train_iteration args config train_dataset 2 (state_after 1)
  = Ok (state_after 2) /\
  exists batch loader,
    next (train_dataloader (state_after 1)) = Ok (batch, loader) /\
    closed (summary_writer (state_after 2))
    = closed (summary_writer (state_after 1)) /\
    ((2 mod checkpoint_every args <> 0 /\
      written (summary_writer (state_after 2))
      = written (summary_writer (state_after 1))
        ++ training_summaries config 2 batch (state_after 1)) \/
     (2 mod checkpoint_every args = 0 /\
      exists pg qr,
        written (summary_writer (state_after 2))
        = written (summary_writer (state_after 1))
          ++ training_summaries config 2 batch (state_after 1)
          ++ metric_summaries 2 pg qr /\
        stepped (program_generator_checkpoint_manager (state_after 2))
        = stepped (program_generator_checkpoint_manager (state_after 1))
          ++ [perplexity pg] /\
        stepped (question_reconstructor_checkpoint_manager (state_after 2))
        = stepped (question_reconstructor_checkpoint_manager (state_after 1))
          ++ [perplexity qr])).
Proof.
  split; [vm_compute; reflexivity|].
  apply (X12_summary_of_a_turn args config train_dataset 2
                               (state_after 1) (state_after 2)).
  vm_compute; reflexivity.
Defined.

Lemma X13_witness :
  after_iterations args config train_dataset val_dataset 1 = Ok (state_after 1) /\
  train_iteration args config train_dataset (Z.of_nat 2) (state_after 1)
  = Ok (state_after 2) /\
  exists batch loader,
    next (train_dataloader (state_after 1)) = Ok (batch, loader) /\
    grad_of (heap (state_after 2)) RefGenerator
    = [joint_objective config batch (heap (state_after 1))] /\
    grad_of (heap (state_after 2)) RefReconstructor
    = [joint_objective config batch (heap (state_after 1))] /\
    grad_of (heap (state_after 2)) RefPrior = [].
Proof.
  split; [vm_compute; reflexivity|]. split; [vm_compute; reflexivity|].
  apply (X13_gradients_do_not_accumulate
           args config train_dataset val_dataset 1);
    vm_compute; reflexivity.
Defined.

Lemma X14_witness :
  exists out h',
    do_iteration config batch None RefGenerator RefReconstructor
                 (Some RefOptimizer) (heap (state_after 0))
    = Ok (out, h') /\
    length (program batch) = length (question batch) /\
    length (out_predictions (fst (generator_pass batch (heap (state_after 0)))))
    = length (question batch) /\
    length (out_predictions
              (fst (reconstructor_pass batch (heap (state_after 0)))))
    = length (question batch) /\
    raised (qualitative_examples token batch out) = None /\
    length (printed (qualitative_examples token batch out))
    = (5 * Nat.min (length (question batch)) 20)%nat.
Proof.
  destruct (do_iteration config batch None RefGenerator RefReconstructor
                         (Some RefOptimizer) (heap (state_after 0)))
    as [[out h']|e] eqn:E; [|vm_compute in E; discriminate E].
  exists out, h'. split; [reflexivity|].
  assert (H1 : length (program batch) = length (question batch))
    by reflexivity.
  assert (H2 : length (out_predictions
                         (fst (generator_pass batch (heap (state_after 0)))))
               = length (question batch)) by reflexivity.
  assert (H3 : length (out_predictions
                         (fst (reconstructor_pass batch
                                                  (heap (state_after 0)))))
               = length (question batch)) by reflexivity.
  split; [exact H1|]. split; [exact H2|]. split; [exact H3|].
  exact (X14_qualitative_examples_printed
           token config batch None (Some RefOptimizer)
           (heap (state_after 0)) h' out E H1 H2 H3).
Defined.

Lemma X15_witness :
  (forall i ns, i <> 0 -> token i ns = token_showing_padding i ns) /\
  qualitative_examples token batch output2
  = qualitative_examples token_showing_padding batch output2.
Proof.
  assert (H : forall i ns, i <> 0 -> token i ns = token_showing_padding i ns).
  { intros i ns Hi. unfold token_showing_padding.
    destruct (i =? 0) eqn:E; [apply Z.eqb_eq in E; contradiction|reflexivity]. }
  split; [exact H|].
  exact (X15_padding_never_looked_up token token_showing_padding batch
                                     output2 H).
Defined.

Lemma X16_witness :
  after_iterations args config train_dataset val_dataset 3 = Ok (state_after 3) /\
  train_iteration args config train_dataset (Z.of_nat 4) (state_after 3)
  = Ok (state_after 4) /\
  exists objective,
    events (heap (state_after 4))
    = events (heap (state_after 3))
      ++ [EvZeroGrad; EvBackward objective;
          EvStep (nmul (initial_lr config)
                       (npow (lr_gamma config)
                             (milestones_passed (lr_steps config)
                                                (scheduler_epoch0 + Z.of_nat 3))))].
Proof.
  split; [vm_compute; reflexivity|]. split; [vm_compute; reflexivity|].
  apply (X16_learning_rate_of_each_step
           args config train_dataset val_dataset 3);
    vm_compute; reflexivity.
Defined.


End ExtraChecks.
